(** * Panchayat database management system: the client-side data view

    A shallow embedding of the React components that keep the local
    working set of villages and citizens and query it:

    - [CitizenTable]       (filter, sort, paginate, page-number window),
    - [Home]               (the caches and the mutation handlers),
    - [VillageManagement]  (the village list of the management tab),
    - [CitizenRegistry]    (the three-tab citizen form and its schema).

    JavaScript numbers that occur here are integers or [NaN]; strings are
    sequences of code units.  Remote calls are modelled by the response
    they resolve to. *)

From Stdlib Require Import ZArith List String Ascii Bool Lia DecimalString.
From Stdlib Require Import Permutation Sorted OrdersEx RelationClasses DecimalPos.
Import ListNotations.

Local Open Scope string_scope.
Local Open Scope Z_scope.

(** ** JavaScript values and built-ins used by the components *)

Module JS.

(** [number]: the values reachable here are the integers and [NaN]
    (the result of [parseInt] on a string without digits). *)
Inductive number : Type :=
| NaN : number
| Num (z : Z) : number.

(** [a - b] *)
Definition sub (a b : number) : number :=
  match a, b with
  | Num x, Num y => Num (x - y)
  | _, _ => NaN
  end.

(** [a === b] on numbers: [NaN] is not equal to itself. *)
Definition strict_eq (a b : number) : bool :=
  match a, b with
  | Num x, Num y => x =? y
  | _, _ => false
  end.

(** [a !== b] *)
Definition strict_neq (a b : number) : bool := negb (strict_eq a b).

(** [Math.ceil(n / d)] for integers [n] and [d > 0]. *)
Definition ceil_div (n d : Z) : Z := - ((- n) / d).

(** [s.includes(t)] *)
Fixpoint includes (s t : string) : bool :=
  if String.prefix t s then true
  else match s with
       | EmptyString => false
       | String _ s' => includes s' t
       end.

(** Leading white space skipped by [parseInt] (tab .. carriage return,
    space, no-break space). *)
Definition is_space (c : ascii) : bool :=
  let n := nat_of_ascii c in
  (((9 <=? n) && (n <=? 13)) || (n =? 32) || (n =? 160))%nat.

Fixpoint trimStart (s : string) : string :=
  match s with
  | String c s' => if is_space c then trimStart s' else s
  | EmptyString => EmptyString
  end.

(** The value of a code unit as a digit in the given radix. *)
Definition digit_value (radix : Z) (c : ascii) : option Z :=
  let n := Z.of_nat (nat_of_ascii c) in
  let v := if (48 <=? n) && (n <=? 57) then Some (n - 48)
           else if (97 <=? n) && (n <=? 122) then Some (n - 87)
           else if (65 <=? n) && (n <=? 90) then Some (n - 55)
           else None in
  match v with
  | Some d => if d <? radix then Some d else None
  | None => None
  end.

(** The longest prefix of digits, read as a numeral; [None] when the
    prefix is empty. *)
Fixpoint digits_prefix (radix : Z) (s : string) (acc : option Z)
  : option Z :=
  match s with
  | String c s' =>
      match digit_value radix c with
      | Some d =>
          digits_prefix radix s'
            (Some (match acc with Some a => a * radix + d | None => d end))
      | None => acc
      end
  | EmptyString => acc
  end.

(** [parseInt(input)] without a radix argument. *)
Definition parseInt (input : string) : number :=
  let s := trimStart input in
  let '(sign, s1) :=
    match s with
    | String "-" s' => (-1, s')
    | String "+" s' => (1, s')
    | _ => (1, s)
    end in
  let '(radix, s2) :=
    match s1 with
    | String "0" (String "x" s') => (16, s')
    | String "0" (String "X" s') => (16, s')
    | _ => (10, s1)
    end in
  match digits_prefix radix s2 None with
  | Some m => Num (sign * m)
  | None => NaN
  end.

(** A value as a form field or a property may hold it. *)
Inductive value : Type :=
| Undefined
| Null
| Str (s : string)
| Number (n : number).

(** [n.toString()] *)
Definition number_toString (n : number) : string :=
  match n with
  | NaN => "NaN"
  | Num z => NilZero.string_of_int (Z.to_int z)
  end.

(** Truthiness of a value, as [if (v)] and [v || d] test it. *)
Definition truthy (v : value) : bool :=
  match v with
  | Undefined | Null => false
  | Str s => negb (String.eqb s "")
  | Number NaN => false
  | Number (Num z) => negb (z =? 0)
  end.

Section Arrays.
Context {A : Type}.

(** [arr.length] *)
Definition len (l : list A) : Z := Z.of_nat (List.length l).

(** A relative index of [slice]: negative counts from the end, and
    the result is clamped to [0 .. length]. *)
Definition rel_index (n i : Z) : Z :=
  if i <? 0 then Z.max (n + i) 0 else Z.min i n.

(** [arr.slice(start, end)] *)
Definition slice (l : list A) (start stop : Z) : list A :=
  let k := rel_index (len l) start in
  let final := rel_index (len l) stop in
  firstn (Z.to_nat (Z.max (final - k) 0)) (skipn (Z.to_nat k) l).

(** The comparator's result [v] places [x] before [y] unless
    [v > 0]; a [NaN] result counts as [+0]. *)
Definition before (v : number) : bool :=
  match v with
  | NaN => true
  | Num z => z <=? 0
  end.

Fixpoint insert (cmp : A -> A -> number) (x : A) (l : list A) : list A :=
  match l with
  | [] => [x]
  | y :: l' => if before (cmp x y) then x :: l else y :: insert cmp x l'
  end.

(** The comparator orders [a] and [b] neither way. *)
Definition equiv (cmp : A -> A -> number) (a b : A) : bool :=
  before (cmp a b) && before (cmp b a).

(** [[...arr].sort(cmp)]: ECMAScript requires the sort to be stable;
    for a consistent comparator its result is the one stable sorted
    arrangement, computed here by insertion from the right.  For a
    comparator that is not consistent on the values sorted (one that
    returns [NaN] for some pairs only, say) the language leaves the
    order to the engine: this definition stands for [sort] only on
    values on which the comparator is a total preorder, and what is
    proved of the order of a sorted array assumes that. *)
Definition sort (cmp : A -> A -> number) (l : list A) : list A :=
  fold_right (insert cmp) [] l.

End Arrays.

End JS.

Import JS.

(** ** The remote store: rows and responses *)

Module Db.

(** The error object of a failed store call. *)
Record PostgrestError : Type := mkError {
  message : string;
  code : string
}.

(** What a store call resolves to: [{ data, error }]. *)
Record Response (A : Type) : Type := mkResponse {
  data : option A;
  error : option PostgrestError
}.
Arguments mkResponse {A}.
Arguments data {A}.
Arguments error {A}.

Definition ok {A} (a : A) : Response A := mkResponse (Some a) None.
Definition failed {A} (e : PostgrestError) : Response A :=
  mkResponse None (Some e).

End Db.

Import Db.

(** A row of [villages]; the key is generated by the store. *)
Module VillageRow.
Record t : Type := mk {
  village_id : Z;
  village_name : string;
  district_name : string;
  pincode : string
}.
End VillageRow.

(** A row of [citizens], as held in the caches (interface [Citizen]). *)
Module Citizen.
Record t : Type := mk {
  aadhar_number : string;
  name : string;
  dob : string;
  age : number;
  gender : string;
  address : string;
  marital_status : string;
  father_name : string;
  mother_name : string;
  spouse_name : option string;
  education : string;
  occupation : string;
  village_id : number;
  status : string;
  remarks : option string
}.
End Citizen.

(** ** Handler bodies: state, console, toasts and [throw] *)

Module Eff.

(** What a [catch] clause receives. *)
Inductive Exn : Type :=
| Thrown (e : PostgrestError)
| JsError (msg : string).

Record Toast : Type := mkToast {
  title : string;
  description : string;
  variant : string
}.

(** The component state together with what the handler emitted. *)
Record Env (S : Type) : Type := mkEnv {
  st : S;
  console : list (string * Exn);
  toasts : list Toast
}.
Arguments mkEnv {S}.
Arguments st {S}.
Arguments console {S}.
Arguments toasts {S}.

Definition start {S} (s : S) : Env S := mkEnv s [] [].

Definition M (S A : Type) : Type := Env S -> (Exn + A) * Env S.

(** The state and the emissions once the handler [m], started in
    state [s], has settled. *)
Definition exec {S A} (m : M S A) (s : S) : Env S := snd (m (start s)).

Definition ret {S A} (a : A) : M S A := fun env => (inr a, env).

Definition bind {S A B} (m : M S A) (f : A -> M S B) : M S B :=
  fun env =>
    match m env with
    | (inl x, env') => (inl x, env')
    | (inr a, env') => f a env'
    end.

Definition throw {S A} (x : Exn) : M S A := fun env => (inl x, env).

(** [try { body } catch (e) { handler e }] *)
Definition try_catch {S A} (body : M S A) (handler : Exn -> M S A)
  : M S A :=
  fun env =>
    match body env with
    | (inl x, env') => handler x env'
    | r => r
    end.

(** [try { body } finally { fin }] *)
Definition finally {S A} (body : M S A) (fin : M S unit) : M S A :=
  fun env =>
    match body env with
    | (r, env') =>
        match fin env' with
        | (inl x, env'') => (inl x, env'')
        | (inr _, env'') => (r, env'')
        end
    end.

(** A [setState] call. *)
Definition modify {S} (f : S -> S) : M S unit :=
  fun env => (inr tt, mkEnv (f (st env)) (console env) (toasts env)).

(** [console.error(label, e)] *)
Definition console_error {S} (label : string) (x : Exn) : M S unit :=
  fun env =>
    (inr tt, mkEnv (st env) (console env ++ [(label, x)]) (toasts env)).

(** [toast({ title, description, variant })] *)
Definition toast {S} (t : Toast) : M S unit :=
  fun env => (inr tt, mkEnv (st env) (console env) (toasts env ++ [t])).

(** [if (error) throw error] *)
Definition throw_if {S} (e : option PostgrestError) : M S unit :=
  match e with
  | Some err => throw (Thrown err)
  | None => ret tt
  end.

(** A handler of a child component's state run inside its parent. *)
Definition zoom {S T A} (get : T -> S) (set : S -> T -> T) (m : M S A)
  : M T A :=
  fun env =>
    match m (mkEnv (get (st env)) (console env) (toasts env)) with
    | (r, env') =>
        (r, mkEnv (set (st env') (st env)) (console env') (toasts env'))
    end.

Module Notations.
Notation "x <- m ;; k" := (bind m (fun x => k))
  (at level 61, m at next level, right associativity).
Notation "m ;; k" := (bind m (fun _ => k))
  (at level 61, right associativity).
End Notations.

End Eff.

Import Eff.
Import Eff.Notations.

(** ** CitizenTable: filter, sort, paginate *)

Module CitizenTable.

Import Citizen.

Inductive SearchType := ByName | ByAadhar.
Inductive SortField := SortName | SortAadhar | SortAge.
Inductive SortOrder := Asc | Desc.

(** The component's state ([useState] cells). *)
Record State : Type := mkState {
  searchTerm : string;
  currentPage : Z;
  searchType : SearchType;
  sortField : SortField;
  sortOrder : SortOrder
}.

Definition initial : State := mkState "" 1 ByName SortName Asc.

Definition itemsPerPage : Z := 10.

(** An entry of the page-number strip: a page or the ["ellipsis"] mark. *)
Inductive PageItem := Page (p : Z) | Ellipsis.

(** [for (let i = lo; i <= hi; i++) pages.push(i)] *)
Definition push_range (lo hi : Z) : list PageItem :=
  map (fun k => Page (lo + Z.of_nat k)) (seq 0 (Z.to_nat (hi - lo + 1))).

Definition maxVisiblePages : Z := 5.

Definition getPageNumbers (totalPages currentPage : Z) : list PageItem :=
  if totalPages <=? maxVisiblePages then push_range 1 totalPages
  else if currentPage <=? 3 then
    push_range 1 4 ++ [Ellipsis; Page totalPages]
  else if currentPage >=? totalPages - 2 then
    [Page 1; Ellipsis] ++ push_range (totalPages - 3) totalPages
  else
    [Page 1; Ellipsis; Page (currentPage - 1); Page currentPage;
     Page (currentPage + 1); Ellipsis; Page totalPages].

(** The page indices [1 .. T]. *)
Definition page_indices (T : Z) : list Z :=
  map Z.of_nat (seq 1 (Z.to_nat T)).

(** The key a record is sorted by. *)
Inductive Key :=
| KString (s : string)
| KNumber (n : number).

Definition sortKey (field : SortField) (citizen : Citizen.t) : Key :=
  match field with
  | SortName => KString (name citizen)
  | SortAadhar => KString (aadhar_number citizen)
  | SortAge => KNumber (age citizen)
  end.

(** Two keys are the same string or the same number. *)
Definition key_eqb (j k : Key) : bool :=
  match j, k with
  | KString s, KString t => String.eqb s t
  | KNumber (Num x), KNumber (Num y) => x =? y
  | KNumber NaN, KNumber NaN => true
  | _, _ => false
  end.

Section Locale.
(** [String.prototype.toLowerCase] and [String.prototype.localeCompare]
    belong to the host; [localeCompare] returns a negative, zero or
    positive integer. *)
Variable toLowerCase : string -> string.
Variable localeCompare : string -> string -> Z.

Definition matches (st : State) (citizen : Citizen.t) : bool :=
  if String.eqb (searchTerm st) "" then true
  else match searchType st with
       | ByName =>
           includes (toLowerCase (name citizen))
                    (toLowerCase (searchTerm st))
       | ByAadhar => includes (aadhar_number citizen) (searchTerm st)
       end.

Definition filteredCitizens (citizens : list Citizen.t) (st : State)
  : list Citizen.t :=
  filter (matches st) citizens.

(** The comparator handed to [sort]. *)
Definition compareCitizens (field : SortField) (order : SortOrder)
           (a b : Citizen.t) : number :=
  match field, order with
  | SortName, Asc => Num (localeCompare (name a) (name b))
  | SortName, Desc => Num (localeCompare (name b) (name a))
  | SortAadhar, Asc =>
      Num (localeCompare (aadhar_number a) (aadhar_number b))
  | SortAadhar, Desc =>
      Num (localeCompare (aadhar_number b) (aadhar_number a))
  | SortAge, Asc => sub (age a) (age b)
  | SortAge, Desc => sub (age b) (age a)
  end.

Definition sortedCitizens (citizens : list Citizen.t) (st : State)
  : list Citizen.t :=
  sort (compareCitizens (sortField st) (sortOrder st))
       (filteredCitizens citizens st).

Definition totalPages (citizens : list Citizen.t) (st : State) : Z :=
  ceil_div (len (sortedCitizens citizens st)) itemsPerPage.

Definition startIndex (st : State) : Z :=
  (currentPage st - 1) * itemsPerPage.

Definition paginatedCitizens (citizens : list Citizen.t) (st : State)
  : list Citizen.t :=
  slice (sortedCitizens citizens st)
        (startIndex st) (startIndex st + itemsPerPage).

(** What the user can do to the table. *)
Inductive Event :=
| TypeSearch (term : string)
| ChooseSearch (t : SearchType)
| ClickHeader (f : SortField)
| ClickPrevious
| ClickNext
| ClickPage (p : Z).

Definition sortField_eqb (f g : SortField) : bool :=
  match f, g with
  | SortName, SortName | SortAadhar, SortAadhar | SortAge, SortAge => true
  | _, _ => false
  end.

Definition flip (o : SortOrder) : SortOrder :=
  match o with Asc => Desc | Desc => Asc end.

Definition pageItem_is (p : Z) (i : PageItem) : bool :=
  match i with Page q => p =? q | Ellipsis => false end.

Definition setCurrentPage (p : Z) (st : State) : State :=
  mkState (searchTerm st) p (searchType st) (sortField st) (sortOrder st).

(** One event.  The pagination strip is rendered only when
    [totalPages > 1], and its links are the pages of
    [getPageNumbers]. *)
Definition step (citizens : list Citizen.t) (st : State) (e : Event)
  : State :=
  let T := totalPages citizens st in
  match e with
  | TypeSearch term =>
      mkState term (currentPage st) (searchType st)
              (sortField st) (sortOrder st)
  | ChooseSearch t =>
      mkState (searchTerm st) (currentPage st) t
              (sortField st) (sortOrder st)
  | ClickHeader f =>
      if sortField_eqb (sortField st) f
      then mkState (searchTerm st) (currentPage st) (searchType st)
                   f (flip (sortOrder st))
      else mkState (searchTerm st) (currentPage st) (searchType st)
                   f Asc
  | ClickPrevious =>
      if 1 <? T then setCurrentPage (Z.max (currentPage st - 1) 1) st
      else st
  | ClickNext =>
      if 1 <? T then setCurrentPage (Z.min (currentPage st + 1) T) st
      else st
  | ClickPage p =>
      if (1 <? T) && existsb (pageItem_is p)
                             (getPageNumbers T (currentPage st))
      then setCurrentPage p st
      else st
  end.

Definition run (citizens : list Citizen.t) (st : State) (es : list Event)
  : State :=
  fold_left (step citizens) es st.

End Locale.

End CitizenTable.

(** ** Home: the caches and their handlers *)

Module Home.

(** Interface [Village] of the top-level view; [id] is the serial key
    the store generated. *)
Record Village : Type := mkVillage {
  id : Z;
  name : string;
  district : string;
  pincode : string
}.

(** The [useState] cells the handlers read and write (the cells of the
    dashboard's village filter and search box are left to the view). *)
Record State : Type := mkState {
  activeTab : string;
  villages : list Village;
  citizens : list Citizen.t;
  isLoading : bool
}.

Definition initial : State := mkState "dashboard" [] [] true.

Definition setActiveTab (t : string) : M State unit :=
  modify (fun s => mkState t (villages s) (citizens s) (isLoading s)).
Definition setVillages (v : list Village) : M State unit :=
  modify (fun s => mkState (activeTab s) v (citizens s) (isLoading s)).
Definition setCitizens (c : list Citizen.t) : M State unit :=
  modify (fun s => mkState (activeTab s) (villages s) c (isLoading s)).
Definition setIsLoading (b : bool) : M State unit :=
  modify (fun s => mkState (activeTab s) (villages s) (citizens s) b).

Definition of_row (v : VillageRow.t) : Village :=
  mkVillage (VillageRow.village_id v) (VillageRow.village_name v)
            (VillageRow.district_name v) (VillageRow.pincode v).

(** [fetchData], run on mount and on every change notification.  The
    two arguments are what the [select("*")] calls resolve to. *)
Definition fetchData (villagesResp : Response (list VillageRow.t))
           (citizensResp : Response (list Citizen.t)) : M State unit :=
  setIsLoading true ;;
  finally
    (try_catch
       (throw_if (error villagesResp) ;;
        throw_if (error citizensResp) ;;
        match data villagesResp with
        | Some villagesData => setVillages (map of_row villagesData)
        | None => ret tt
        end ;;
        match data citizensResp with
        | Some citizensData => setCitizens citizensData
        | None => ret tt
        end)
       (fun e => console_error "Error fetching data:" e))
    (setIsLoading false).

(** The handlers close over the [villages] and [citizens] of the
    render that created them: [render] is that snapshot. *)
Section Handlers.
Variable render : State.

Definition handleAddVillage (resp : Response VillageRow.t)
  : M State unit :=
  try_catch
    (throw_if (error resp) ;;
     match data resp with
     | Some row => setVillages (villages render ++ [of_row row])
     | None => ret tt
     end)
    (fun e => console_error "Error adding village:" e).

Definition handleUpdateVillage (updatedVillage : Village)
           (resp : Response unit) : M State unit :=
  try_catch
    (throw_if (error resp) ;;
     setVillages
       (map (fun village =>
               if id village =? id updatedVillage
               then updatedVillage else village)
            (villages render)))
    (fun e => console_error "Error updating village:" e).

Definition handleDeleteVillage (key : Z) (resp : Response unit)
  : M State unit :=
  try_catch
    (throw_if (error resp) ;;
     setVillages
       (filter (fun village => negb (id village =? key))
               (villages render)) ;;
     setCitizens
       (filter (fun citizen =>
                  strict_neq (Citizen.village_id citizen) (Num key))
               (citizens render)))
    (fun e => console_error "Error deleting village:" e).

(** In the two handlers below [village_id] has type [number]; their
    run-time test [typeof village_id === "string"] leaves such a value
    as it is. *)
Definition handleAddCitizen (citizen : Citizen.t) (resp : Response unit)
  : M State unit :=
  try_catch
    (throw_if (error resp) ;;
     setCitizens (citizens render ++ [citizen]))
    (fun e => console_error "Error adding citizen:" e).

Definition handleUpdateCitizen (updatedCitizen : Citizen.t)
           (resp : Response unit) : M State unit :=
  try_catch
    (throw_if (error resp) ;;
     setCitizens
       (map (fun citizen =>
               if String.eqb (Citizen.aadhar_number citizen)
                             (Citizen.aadhar_number updatedCitizen)
               then updatedCitizen else citizen)
            (citizens render)) ;;
     setActiveTab "citizens")
    (fun e => console_error "Error updating citizen:" e).

Definition handleDeleteCitizen (aadhar : string) (resp : Response unit)
  : M State unit :=
  try_catch
    (throw_if (error resp) ;;
     setCitizens
       (filter (fun citizen =>
                  negb (String.eqb (Citizen.aadhar_number citizen) aadhar))
               (citizens render)))
    (fun e => console_error "Error deleting citizen:" e).

End Handlers.

End Home.

(** ** VillageManagement: the village list of the management tab *)

Module VillageManagement.

Import VillageRow.

Record State : Type := mkState {
  villages : list VillageRow.t;
  isLoading : bool;
  isAddDialogOpen : bool;
  isEditDialogOpen : bool;
  isDeleteDialogOpen : bool;
  selectedVillage : option VillageRow.t
}.

Definition initial : State := mkState [] true false false false None.

Definition setVillages (v : list VillageRow.t) : M State unit :=
  modify (fun s => mkState v (isLoading s) (isAddDialogOpen s)
                           (isEditDialogOpen s) (isDeleteDialogOpen s)
                           (selectedVillage s)).
Definition setIsLoading (b : bool) : M State unit :=
  modify (fun s => mkState (villages s) b (isAddDialogOpen s)
                           (isEditDialogOpen s) (isDeleteDialogOpen s)
                           (selectedVillage s)).
Definition setIsDeleteDialogOpen (b : bool) : M State unit :=
  modify (fun s => mkState (villages s) (isLoading s) (isAddDialogOpen s)
                           (isEditDialogOpen s) b (selectedVillage s)).
Definition setSelectedVillage (v : option VillageRow.t) : M State unit :=
  modify (fun s => mkState (villages s) (isLoading s) (isAddDialogOpen s)
                           (isEditDialogOpen s) (isDeleteDialogOpen s) v).

Definition fetchVillages (resp : Response (list VillageRow.t))
  : M State unit :=
  finally
    (try_catch
       (throw_if (error resp) ;;
        match data resp with
        | Some rows => setVillages rows
        | None => ret tt
        end)
       (fun e =>
          console_error "Error fetching villages:" e ;;
          toast (mkToast "Error" "Failed to load villages" "destructive")))
    (setIsLoading false).

(** [openDeleteDialog(village)] *)
Definition openDeleteDialog (village : VillageRow.t) : M State unit :=
  setSelectedVillage (Some village) ;;
  setIsDeleteDialogOpen true.

Section Handlers.
Variable render : State.

Definition handleDeleteVillage (resp : Response unit) : M State unit :=
  match selectedVillage render with
  | None => ret tt
  | Some selected =>
      try_catch
        (throw_if (error resp) ;;
         setVillages
           (filter (fun village =>
                      negb (village_id village =? village_id selected))
                   (villages render)) ;;
         setIsDeleteDialogOpen false ;;
         toast (mkToast "Village Deleted"
                        (village_name selected
                         ++ " has been deleted successfully.")
                        "destructive") ;;
         setSelectedVillage None)
        (fun e =>
           console_error "Error deleting village:" e ;;
           toast (mkToast "Error"
                    "Failed to delete village. Make sure there are no citizens associated with this village."
                    "destructive"))
  end.

End Handlers.

End VillageManagement.

(** ** The schema library: string and enumeration schemas *)

Module Zod.

Inductive IssueCode :=
| invalid_type
| too_small
| too_big
| invalid_string
| invalid_enum_value.

(** An issue of a failed parse; [msg] is the message the schema gives
    for it, [None] standing for the library's default text. *)
Record Issue : Type := mkIssue {
  path : string;
  code : IssueCode;
  msg : option string
}.

Definition Parsed (T : Type) : Type := (list Issue + T)%type.

(** Results of the fields of an object are combined; the issues of all
    fields are collected in key order. *)
Definition ap {A B} (f : Parsed (A -> B)) (a : Parsed A) : Parsed B :=
  match f, a with
  | inr g, inr x => inr (g x)
  | inl i, inr _ => inl i
  | inr _, inl j => inl j
  | inl i, inl j => inl (i ++ j)%list
  end.

(** [safeParse(..).success] *)
Definition passes {T} (r : Parsed T) : bool :=
  match r with
  | inr _ => true
  | inl _ => false
  end.

(** [safeParse(..).error.issues], empty on success. *)
Definition issues {T} (r : Parsed T) : list Issue :=
  match r with
  | inr _ => []
  | inl i => i
  end.

Inductive Check :=
| Length (n : nat) (message : string)
| Min (n : nat) (message : string)
| Regex (re : string -> bool) (message : string).

Definition run_check (p : string) (s : string) (c : Check) : list Issue :=
  match c with
  | Length n m =>
      if (n <? String.length s)%nat then [mkIssue p too_big (Some m)]
      else if (String.length s <? n)%nat then [mkIssue p too_small (Some m)]
      else []
  | Min n m =>
      if (String.length s <? n)%nat then [mkIssue p too_small (Some m)]
      else []
  | Regex re m =>
      if re s then [] else [mkIssue p invalid_string (Some m)]
  end.

(** [z.string({ required_error }).check1(..).check2(..)] *)
Definition string_ (required_error : option string) (checks : list Check)
           (p : string) (v : value) : Parsed string :=
  match v with
  | Str s =>
      match flat_map (run_check p s) checks with
      | [] => inr s
      | issues => inl issues
      end
  | Undefined => inl [mkIssue p invalid_type required_error]
  | _ => inl [mkIssue p invalid_type None]
  end.

(** [schema.optional()] *)
Definition optional {T} (schema : string -> value -> Parsed T)
           (p : string) (v : value) : Parsed (option T) :=
  match v with
  | Undefined => inr None
  | _ => match schema p v with
         | inr t => inr (Some t)
         | inl issues => inl issues
         end
  end.

(** [z.enum([...])] *)
Definition enum (options : list string) (p : string) (v : value)
  : Parsed string :=
  match v with
  | Str s =>
      if existsb (String.eqb s) options then inr s
      else inl [mkIssue p invalid_enum_value None]
  | _ => inl [mkIssue p invalid_type None]
  end.

(** [/^\d+$/]: one or more decimal digits and nothing else. *)
Definition is_digit (c : ascii) : bool :=
  let n := nat_of_ascii c in ((48 <=? n) && (n <=? 57))%nat.

Definition digits_only (s : string) : bool :=
  negb (String.eqb s "") && forallb is_digit (list_ascii_of_string s).

End Zod.

(** ** CitizenRegistry: the citizen form *)

Module CitizenRegistry.

(** The shape of the form object; [F] is the type of a required field
    and [O] that of an optional one. *)
Record FormOf (F O : Type) : Type := mkForm {
  aadhar_number : F;
  village_id : F;
  name : F;
  dob : F;
  age : F;
  gender : F;
  address : F;
  marital_status : F;
  father_name : F;
  mother_name : F;
  spouse_name : O;
  status : F;
  education : F;
  occupation : F;
  remarks : O
}.
Arguments mkForm {F O}.
Arguments aadhar_number {F O}.
Arguments village_id {F O}.
Arguments name {F O}.
Arguments dob {F O}.
Arguments age {F O}.
Arguments gender {F O}.
Arguments address {F O}.
Arguments marital_status {F O}.
Arguments father_name {F O}.
Arguments mother_name {F O}.
Arguments spouse_name {F O}.
Arguments status {F O}.
Arguments education {F O}.
Arguments occupation {F O}.
Arguments remarks {F O}.

(** [z.infer<typeof citizenFormSchema>] *)
Definition CitizenFormValues : Type := FormOf string (option string).
(** What the resolver is given: any value in any field. *)
Definition RawForm : Type := FormOf value value.
(** [Partial<CitizenFormValues>]: [None] is a key that is not there. *)
Definition PartialForm : Type := FormOf (option value) (option value).

Definition citizenFormSchema (raw : RawForm) : Zod.Parsed CitizenFormValues :=
  let s := @inr (list Zod.Issue) _ in
  Zod.ap (Zod.ap (Zod.ap (Zod.ap (Zod.ap (Zod.ap (Zod.ap (Zod.ap
  (Zod.ap (Zod.ap (Zod.ap (Zod.ap (Zod.ap (Zod.ap (Zod.ap
    (s (@mkForm string (option string)))
    (Zod.string_ None
       [Zod.Length 12 "Aadhar number must be exactly 12 digits";
        Zod.Regex Zod.digits_only "Aadhar number must contain only digits"]
       "aadhar_number" (aadhar_number raw)))
    (Zod.string_ (Some "Please select a village") []
       "village_id" (village_id raw)))
    (Zod.string_ None [Zod.Min 2 "Name must be at least 2 characters"]
       "name" (name raw)))
    (Zod.string_ None [] "dob" (dob raw)))
    (Zod.string_ None [Zod.Regex Zod.digits_only "Age must be a number"]
       "age" (age raw)))
    (Zod.enum ["male"; "female"; "other"] "gender" (gender raw)))
    (Zod.string_ None [Zod.Min 5 "Address must be at least 5 characters"]
       "address" (address raw)))
    (Zod.enum ["single"; "married"; "divorced"; "widowed"]
       "marital_status" (marital_status raw)))
    (Zod.string_ None
       [Zod.Min 2 "Father's name must be at least 2 characters"]
       "father_name" (father_name raw)))
    (Zod.string_ None
       [Zod.Min 2 "Mother's name must be at least 2 characters"]
       "mother_name" (mother_name raw)))
    (Zod.optional (Zod.string_ None []) "spouse_name" (spouse_name raw)))
    (Zod.enum ["alive"; "dead"] "status" (status raw)))
    (Zod.string_ None [] "education" (education raw)))
    (Zod.string_ None [] "occupation" (occupation raw)))
    (Zod.optional (Zod.string_ None []) "remarks" (remarks raw)).

(** The form passes validation. *)
Definition valid (raw : RawForm) : bool :=
  Zod.passes (citizenFormSchema raw).

(** Edits of single fields ([field.onChange]). *)
Definition set_village_id (v : value) (raw : RawForm) : RawForm :=
  mkForm (aadhar_number raw) v (name raw) (dob raw) (age raw)
         (gender raw) (address raw) (marital_status raw)
         (father_name raw) (mother_name raw) (spouse_name raw)
         (status raw) (education raw) (occupation raw) (remarks raw).

Definition set_parents (father mother : value) (raw : RawForm) : RawForm :=
  mkForm (aadhar_number raw) (village_id raw) (name raw) (dob raw)
         (age raw) (gender raw) (address raw) (marital_status raw)
         father mother (spouse_name raw)
         (status raw) (education raw) (occupation raw) (remarks raw).

Definition set_optional (spouse rem : value) (raw : RawForm) : RawForm :=
  mkForm (aadhar_number raw) (village_id raw) (name raw) (dob raw)
         (age raw) (gender raw) (address raw) (marital_status raw)
         (father_name raw) (mother_name raw) spouse
         (status raw) (education raw) (occupation raw) rem.

Definition or_default (d : value) (o : option value) : value :=
  match o with
  | Some v => v
  | None => d
  end.

(** [defaultValues]: the literal, overridden by the keys of
    [initialData]; a numeric [village_id] becomes its decimal string. *)
Definition defaultValues (initialData : PartialForm) : RawForm :=
  let e := Str "" in
  mkForm
    (or_default e (aadhar_number initialData))
    (match or_default e (village_id initialData) with
     | Number n => Str (number_toString n)
     | v => v
     end)
    (or_default e (name initialData))
    (or_default e (dob initialData))
    (or_default e (age initialData))
    (or_default (Str "male") (gender initialData))
    (or_default e (address initialData))
    (or_default (Str "single") (marital_status initialData))
    (or_default e (father_name initialData))
    (or_default e (mother_name initialData))
    (or_default e (spouse_name initialData))
    (or_default (Str "alive") (status initialData))
    (or_default e (education initialData))
    (or_default e (occupation initialData))
    (or_default e (remarks initialData)).

(** [{}] *)
Definition no_initialData : PartialForm :=
  mkForm None None None None None None None None None None None None
         None None None.

(** [s || null] *)
Definition or_null (o : option string) : option string :=
  match o with
  | Some s => if String.eqb s "" then None else Some s
  | None => None
  end.

(** The object [citizenData] built from the validated form. *)
Definition citizenData (data : CitizenFormValues) : Citizen.t :=
  Citizen.mk
    (aadhar_number data)
    (name data)
    (dob data)
    (parseInt (age data))
    (gender data)
    (address data)
    (marital_status data)
    (father_name data)
    (mother_name data)
    (or_null (spouse_name data))
    (education data)
    (occupation data)
    (parseInt (village_id data))
    (status data)
    (or_null (remarks data)).

Record State : Type := mkState {
  isSubmitting : bool;
  error : option string;
  activeTab : string;
  values : RawForm;
  fieldErrors : list Zod.Issue
}.

Definition initial (initialData : PartialForm) : State :=
  mkState false None "personal" (defaultValues initialData) [].

Section Component.
(** The component lives in a tree of state [W]; [getR]/[setR] reach
    its own cells. *)
Context {W : Type}.
Variable getR : W -> State.
Variable setR : State -> W -> W.

(** The props. *)
Variable initialData : PartialForm.
Variable onUpdate : option (Citizen.t -> M W unit).
Variable onAdd : option (Citizen.t -> M W unit).
Variable onSave : option (CitizenFormValues -> M W unit).

Definition own (f : State -> State) : M W unit :=
  zoom getR setR (modify f).

Definition setIsSubmitting (b : bool) : M W unit :=
  own (fun s => mkState b (error s) (activeTab s) (values s)
                        (fieldErrors s)).
Definition setError (e : option string) : M W unit :=
  own (fun s => mkState (isSubmitting s) e (activeTab s) (values s)
                        (fieldErrors s)).
Definition form_reset (v : RawForm) : M W unit :=
  own (fun s => mkState (isSubmitting s) (error s) (activeTab s) v []).
Definition setFieldErrors (i : list Zod.Issue) : M W unit :=
  own (fun s => mkState (isSubmitting s) (error s) (activeTab s)
                        (values s) i).

(** [if (cb) cb(x)] *)
Definition call {X} (cb : option (X -> M W unit)) (x : X) : M W unit :=
  match cb with
  | Some f => f x
  | None => ret tt
  end.

(** [if (error) throw new Error(error.message)] *)
Definition throw_new_error_if (e : option PostgrestError) : M W unit :=
  match e with
  | Some err => throw (JsError (message err))
  | None => ret tt
  end.

(** [handleSubmit(data)]; [resp] is what the component's own store
    call (update or insert) resolves to.  A callback is run to its end
    where it is called: the handlers passed by [Home] catch whatever
    they throw, so nothing of theirs reaches the [catch] clause here. *)
Definition handleSubmit (data : CitizenFormValues) (resp : Response unit)
  : M W unit :=
  finally
    (try_catch
       (setIsSubmitting true ;;
        setError None ;;
        (if truthy (or_default Undefined (aadhar_number initialData))
         then
           throw_new_error_if (Db.error resp) ;;
           call onUpdate (citizenData data) ;;
           toast (mkToast "Success"
                    "Citizen record has been updated successfully."
                    "default")
         else
           throw_new_error_if (Db.error resp) ;;
           call onAdd (citizenData data) ;;
           toast (mkToast "Success"
                    "Citizen record has been added successfully."
                    "default") ;;
           form_reset (defaultValues initialData)) ;;
        call onSave data)
       (fun err =>
          setError
            (Some (match err with
                   | JsError m => m
                   | Thrown _ =>
                       "An error occurred while saving the citizen record."
                   end))))
    (setIsSubmitting false).

(** [form.handleSubmit(handleSubmit)]: the resolver runs first and
    [handleSubmit] is called only with a form that passed it. *)
Definition onSubmit (render : W) (resp : Response unit) : M W unit :=
  match citizenFormSchema (values (getR render)) with
  | inl issues => setFieldErrors issues
  | inr data => setFieldErrors [] ;; handleSubmit data resp
  end.

End Component.

End CitizenRegistry.

(** ** The component tree: Home with its two children *)

Module App.

Record State : Type := mkState {
  home : Home.State;
  management : VillageManagement.State;
  registry : CitizenRegistry.State
}.

Definition in_home {A} (m : M Home.State A) : M State A :=
  zoom home (fun h s => mkState h (management s) (registry s)) m.

Definition in_management {A} (m : M VillageManagement.State A)
  : M State A :=
  zoom management (fun v s => mkState (home s) v (registry s)) m.

Definition setRegistry (r : CitizenRegistry.State) (s : State) : State :=
  mkState (home s) (management s) r.

(** Submitting the citizen form as [Home] renders it: [onAdd] and
    [onUpdate] are Home's handlers, which issue a store call of their
    own ([homeResp]); no [onSave] is passed. *)
Definition submitCitizen (render : State)
           (initialData : CitizenRegistry.PartialForm)
           (registryResp homeResp : Response unit) : M State unit :=
  CitizenRegistry.onSubmit registry setRegistry initialData
    (Some (fun c =>
             in_home (Home.handleUpdateCitizen (home render) c homeResp)))
    (Some (fun c =>
             in_home (Home.handleAddCitizen (home render) c homeResp)))
    None render registryResp.

(** Confirming the delete dialog of the management tab.  The component
    takes no props: the handler it runs is its own. *)
Definition deleteVillage (render : State) (resp : Response unit)
  : M State unit :=
  in_management
    (VillageManagement.handleDeleteVillage (management render) resp).

End App.

(** ** CitizenTable: the footer line and the sort direction *)

Module TableFooter.

Import CitizenTable.

(** [setSortOrder(order)] *)
Definition setSortOrder (order : SortOrder) (st : State) : State :=
  mkState (searchTerm st) (currentPage st) (searchType st) (sortField st)
          order.

Section Locale.
Variable toLowerCase : string -> string.
Variable localeCompare : string -> string -> Z.

(** "Showing [showingFrom] to [showingTo] of [showingOf] citizens". *)
Definition showingOf (citizens : list Citizen.t) (st : State) : Z :=
  len (sortedCitizens toLowerCase localeCompare citizens st).

Definition showingFrom (citizens : list Citizen.t) (st : State) : Z :=
  if 0 <? showingOf citizens st then startIndex st + 1 else 0.

Definition showingTo (citizens : list Citizen.t) (st : State) : Z :=
  Z.min (startIndex st + itemsPerPage) (showingOf citizens st).

End Locale.

End TableFooter.

(** ** Home: the dashboard filter and the edit button *)

Module Dashboard.

(** The cells of the village selector and of the search box. *)
Record State : Type := mkState {
  selectedVillage : option string;
  searchQuery : string;
  searchType : string
}.

Definition initial : State := mkState None "" "name".

(** [!selectedVillage || selectedVillage === "all" ||
     citizen.village_id === parseInt(selectedVillage)] *)
Definition matchesVillage (st : State) (citizen : Citizen.t) : bool :=
  match selectedVillage st with
  | None => true
  | Some v =>
      if String.eqb v "" then true
      else if String.eqb v "all" then true
      else strict_eq (Citizen.village_id citizen) (parseInt v)
  end.

Section Locale.
Variable toLowerCase : string -> string.

(** [filteredCitizens] of the top-level view: what the table is given. *)
Definition filteredCitizens (citizens : list Citizen.t) (st : State)
  : list Citizen.t :=
  filter
    (fun citizen =>
       if String.eqb (searchQuery st) "" then matchesVillage st citizen
       else if String.eqb (searchType st) "name" then
         matchesVillage st citizen
         && includes (toLowerCase (Citizen.name citizen))
                     (toLowerCase (searchQuery st))
       else if String.eqb (searchType st) "aadhar" then
         matchesVillage st citizen
         && includes (Citizen.aadhar_number citizen) (searchQuery st)
       else matchesVillage st citizen)
    citizens.

End Locale.

(** [value || ""] on a string. *)
Definition or_empty (s : string) : string :=
  if truthy (Str s) then s else "".

(** A nullable text column as a property value. *)
Definition nullable (o : option string) : value :=
  match o with
  | Some s => Str s
  | None => Null
  end.

(** The [onEdit] handler: the row with its [village_id] as a string,
    which becomes the [initialData] of the citizen form. *)
Definition citizenToEdit (citizen : Citizen.t) : CitizenRegistry.PartialForm :=
  CitizenRegistry.mkForm
    (Some (Str (Citizen.aadhar_number citizen)))
    (Some (Str (or_empty (number_toString (Citizen.village_id citizen)))))
    (Some (Str (Citizen.name citizen)))
    (Some (Str (Citizen.dob citizen)))
    (Some (Number (Citizen.age citizen)))
    (Some (Str (Citizen.gender citizen)))
    (Some (Str (Citizen.address citizen)))
    (Some (Str (Citizen.marital_status citizen)))
    (Some (Str (Citizen.father_name citizen)))
    (Some (Str (Citizen.mother_name citizen)))
    (Some (nullable (Citizen.spouse_name citizen)))
    (Some (Str (Citizen.status citizen)))
    (Some (Str (Citizen.education citizen)))
    (Some (Str (Citizen.occupation citizen)))
    (Some (nullable (Citizen.remarks citizen))).

(** Retyping the age field of the form. *)
Definition set_age (v : value) (raw : CitizenRegistry.RawForm)
  : CitizenRegistry.RawForm :=
  CitizenRegistry.mkForm
    (CitizenRegistry.aadhar_number raw) (CitizenRegistry.village_id raw)
    (CitizenRegistry.name raw) (CitizenRegistry.dob raw) v
    (CitizenRegistry.gender raw) (CitizenRegistry.address raw)
    (CitizenRegistry.marital_status raw) (CitizenRegistry.father_name raw)
    (CitizenRegistry.mother_name raw) (CitizenRegistry.spouse_name raw)
    (CitizenRegistry.status raw) (CitizenRegistry.education raw)
    (CitizenRegistry.occupation raw) (CitizenRegistry.remarks raw).

End Dashboard.

(** ** VillageManagement: the add and edit dialogs *)

Module VillageForms.

Record FormOf (F : Type) : Type := mkForm {
  village_name : F;
  district_name : F;
  pincode : F
}.
Arguments mkForm {F}.
Arguments village_name {F}.
Arguments district_name {F}.
Arguments pincode {F}.

(** [z.infer<typeof villageSchema>] *)
Definition VillageFormValues : Type := FormOf string.
Definition RawForm : Type := FormOf value.

(** [/^\d{6}$/] *)
Definition six_digits (s : string) : bool :=
  (String.length s =? 6)%nat
  && forallb Zod.is_digit (list_ascii_of_string s).

Definition villageSchema (raw : RawForm) : Zod.Parsed VillageFormValues :=
  Zod.ap (Zod.ap (Zod.ap
    (@inr (list Zod.Issue) _ (@mkForm string))
    (Zod.string_ None
       [Zod.Min 2 "Village name must be at least 2 characters"]
       "village_name" (village_name raw)))
    (Zod.string_ None
       [Zod.Min 2 "District name must be at least 2 characters"]
       "district_name" (district_name raw)))
    (Zod.string_ None
       [Zod.Regex six_digits "Pincode must be a 6-digit number"]
       "pincode" (pincode raw)).

(** The [defaultValues] of both forms. *)
Definition blank : RawForm := mkForm (Str "") (Str "") (Str "").

(** The component's cells together with the values of its two forms. *)
Record State : Type := mkState {
  cells : VillageManagement.State;
  addForm : RawForm;
  editForm : RawForm
}.

Definition initial : State :=
  mkState VillageManagement.initial blank blank.

Definition on_cells (f : VillageManagement.State -> VillageManagement.State)
  : M State unit :=
  modify (fun s => mkState (f (cells s)) (addForm s) (editForm s)).

Definition setVillages (v : list VillageRow.t) : M State unit :=
  on_cells (fun c =>
    VillageManagement.mkState v (VillageManagement.isLoading c)
      (VillageManagement.isAddDialogOpen c)
      (VillageManagement.isEditDialogOpen c)
      (VillageManagement.isDeleteDialogOpen c)
      (VillageManagement.selectedVillage c)).
Definition setIsAddDialogOpen (b : bool) : M State unit :=
  on_cells (fun c =>
    VillageManagement.mkState (VillageManagement.villages c)
      (VillageManagement.isLoading c) b
      (VillageManagement.isEditDialogOpen c)
      (VillageManagement.isDeleteDialogOpen c)
      (VillageManagement.selectedVillage c)).
Definition setIsEditDialogOpen (b : bool) : M State unit :=
  on_cells (fun c =>
    VillageManagement.mkState (VillageManagement.villages c)
      (VillageManagement.isLoading c)
      (VillageManagement.isAddDialogOpen c) b
      (VillageManagement.isDeleteDialogOpen c)
      (VillageManagement.selectedVillage c)).
Definition setSelectedVillage (v : option VillageRow.t) : M State unit :=
  on_cells (fun c =>
    VillageManagement.mkState (VillageManagement.villages c)
      (VillageManagement.isLoading c)
      (VillageManagement.isAddDialogOpen c)
      (VillageManagement.isEditDialogOpen c)
      (VillageManagement.isDeleteDialogOpen c) v).
Definition addForm_reset (v : RawForm) : M State unit :=
  modify (fun s => mkState (cells s) v (editForm s)).
Definition editForm_reset (v : RawForm) : M State unit :=
  modify (fun s => mkState (cells s) (addForm s) v).

(** [{ ...village, ...data }] *)
Definition merge (village : VillageRow.t) (data : VillageFormValues)
  : VillageRow.t :=
  VillageRow.mk (VillageRow.village_id village) (village_name data)
                (district_name data) (pincode data).

(** [openEditDialog(village)] *)
Definition openEditDialog (village : VillageRow.t) : M State unit :=
  setSelectedVillage (Some village) ;;
  editForm_reset (mkForm (Str (VillageRow.village_name village))
                         (Str (VillageRow.district_name village))
                         (Str (VillageRow.pincode village))) ;;
  setIsEditDialogOpen true.

Section Handlers.
Variable render : State.

(** A toast without a [variant] is shown in the default one. *)
Definition handleAddVillage (data : VillageFormValues)
           (resp : Response VillageRow.t) : M State unit :=
  try_catch
    (throw_if (error resp) ;;
     match Db.data resp with
     | Some newVillage =>
         setVillages (VillageManagement.villages (cells render)
                      ++ [newVillage]) ;;
         setIsAddDialogOpen false ;;
         addForm_reset blank ;;
         toast (mkToast "Village Added"
                  (village_name data ++ " has been added successfully.")
                  "default")
     | None => ret tt
     end)
    (fun e =>
       console_error "Error adding village:" e ;;
       toast (mkToast "Error" "Failed to add village" "destructive")).

Definition handleEditVillage (data : VillageFormValues)
           (resp : Response unit) : M State unit :=
  match VillageManagement.selectedVillage (cells render) with
  | None => ret tt
  | Some selected =>
      try_catch
        (throw_if (error resp) ;;
         setVillages
           (map (fun village =>
                   if VillageRow.village_id village
                      =? VillageRow.village_id selected
                   then merge village data else village)
                (VillageManagement.villages (cells render))) ;;
         setIsEditDialogOpen false ;;
         setSelectedVillage None ;;
         toast (mkToast "Village Updated"
                  (village_name data ++ " has been updated successfully.")
                  "default"))
        (fun e =>
           console_error "Error updating village:" e ;;
           toast (mkToast "Error" "Failed to update village" "destructive"))
  end.

(** [editForm.handleSubmit(handleEditVillage)] and
    [addForm.handleSubmit(handleAddVillage)]: the handler is called only
    with values that passed [villageSchema]. *)
Definition submitEdit (resp : Response unit) : M State unit :=
  match villageSchema (editForm render) with
  | inl _ => ret tt
  | inr data => handleEditVillage data resp
  end.

Definition submitAdd (resp : Response VillageRow.t) : M State unit :=
  match villageSchema (addForm render) with
  | inl _ => ret tt
  | inr data => handleAddVillage data resp
  end.

End Handlers.

End VillageForms.

(** ** Login and logout *)

Module Login.

(** A row of [admins]. *)
Record Admin : Type := mkAdmin {
  id : Z;
  username : string;
  password : string
}.

Record LoginFormData : Type := mkFormData {
  form_username : string;
  form_password : string
}.

(** The component's cells, the browser's [localStorage] and the route
    last navigated to. *)
Record State : Type := mkState {
  formData : LoginFormData;
  error : string;
  isLoading : bool;
  localStorage : string -> option string;
  location : option string
}.

Definition initial (storage : string -> option string) : State :=
  mkState (mkFormData "" "") "" false storage None.

Definition setError (e : string) : M State unit :=
  modify (fun s => mkState (formData s) e (isLoading s) (localStorage s)
                           (location s)).
Definition setIsLoading (b : bool) : M State unit :=
  modify (fun s => mkState (formData s) (error s) b (localStorage s)
                           (location s)).
Definition navigate (path : string) : M State unit :=
  modify (fun s => mkState (formData s) (error s) (isLoading s)
                           (localStorage s) (Some path)).

(** [localStorage.setItem(key, v)] and [localStorage.removeItem(key)] *)
Definition setItem (key v : string) : M State unit :=
  modify (fun s =>
            mkState (formData s) (error s) (isLoading s)
                    (fun k => if String.eqb k key then Some v
                              else localStorage s k)
                    (location s)).
Definition removeItem (key : string) : M State unit :=
  modify (fun s =>
            mkState (formData s) (error s) (isLoading s)
                    (fun k => if String.eqb k key then None
                              else localStorage s k)
                    (location s)).

(** The effect run on mount: an authenticated visitor is sent on. *)
Definition onMount (render : State) : M State unit :=
  match localStorage render "isAuthenticated" with
  | Some v => if String.eqb v "true" then navigate "/" else ret tt
  | None => ret tt
  end.

(** [handleChange]: the two inputs are named [username] and
    [password]. *)
Definition handleChange (name v : string) : M State unit :=
  modify (fun s =>
            let prev := formData s in
            mkState
              (if String.eqb name "username"
               then mkFormData v (form_password prev)
               else if String.eqb name "password"
               then mkFormData (form_username prev) v
               else prev)
              (error s) (isLoading s) (localStorage s) (location s)).

(** [await]: the pending call resolves to a response or rejects. *)
Definition await {A} (r : Exn + A) : M State A :=
  match r with
  | inl x => throw x
  | inr a => ret a
  end.

(** [handleSubmit]; [result] is what the query for the one row with the
    typed user name and password comes to. *)
Definition handleSubmit (result : Exn + Response Admin) : M State unit :=
  setError "" ;;
  setIsLoading true ;;
  try_catch
    (resp <- await result ;;
     match Db.error resp, data resp with
     | None, Some row =>
         setItem "isAuthenticated" "true" ;;
         setItem "adminId" (number_toString (Num (id row))) ;;
         setItem "adminUsername" (username row) ;;
         navigate "/"
     | _, _ =>
         setError "Invalid username or password" ;;
         setIsLoading false
     end)
    (fun _ =>
       setError "An error occurred during login" ;;
       setIsLoading false).

(** The logout button of the top-level view. *)
Definition logout : M State unit :=
  removeItem "isAuthenticated" ;;
  removeItem "adminId" ;;
  removeItem "adminUsername" ;;
  navigate "/login".

(** The name in the header: [getItem("adminUsername") || "Admin"]. *)
Definition welcomeName (s : State) : string :=
  match localStorage s "adminUsername" with
  | Some n => if String.eqb n "" then "Admin" else n
  | None => "Admin"
  end.

End Login.

(** ** Sample data: the seed rows of the initial migration *)

Module Sample.

Definition rampur : VillageRow.t := VillageRow.mk 1 "Rampur" "Jaipur" "302001".
Definition shyampur : VillageRow.t :=
  VillageRow.mk 2 "Shyampur" "Ajmer" "305001".
Definition ganeshpur : VillageRow.t :=
  VillageRow.mk 3 "Ganeshpur" "Udaipur" "313001".

Definition raj : Citizen.t :=
  Citizen.mk "123456789012" "Raj Kumar" "1985-05-15" (Num 38) "Male"
    "House No. 123, Rampur" "Married" "Mohan Lal" "Kamla Devi"
    (Some "Sunita Devi") "Graduate" "Farmer" (Num 1) "alive" None.
Definition priya : Citizen.t :=
  Citizen.mk "234567890123" "Priya Singh" "1990-08-22" (Num 33) "Female"
    "House No. 456, Shyampur" "Married" "Ramesh Singh" "Geeta Singh"
    (Some "Vikram Singh") "Post Graduate" "Teacher" (Num 2) "alive" None.
Definition amit : Citizen.t :=
  Citizen.mk "345678901234" "Amit Sharma" "1995-03-10" (Num 28) "Male"
    "House No. 789, Ganeshpur" "Unmarried" "Suresh Sharma" "Radha Sharma"
    None "Graduate" "Software Engineer" (Num 3) "alive" None.

(** A further resident of Shyampur, of Priya's age. *)
Definition vikram : Citizen.t :=
  Citizen.mk "456789012345" "Vikram Singh" "1990-01-05" (Num 33) "Male"
    "House No. 456, Shyampur" "Married" "Mahesh Singh" "Asha Singh"
    (Some "Priya Singh") "Graduate" "Clerk" (Num 2) "alive" None.

Definition digit (n : nat) : string :=
  String (ascii_of_nat (48 + n)) EmptyString.

(** Resident number [n] (below 100) of Rampur. *)
Definition resident (n : nat) : Citizen.t :=
  Citizen.mk ("9000000000" ++ digit (n / 10) ++ digit (n mod 10))
    ("Resident " ++ digit (n / 10) ++ digit (n mod 10))
    "1980-01-01" (Num (20 + Z.of_nat n)) "Female"
    "Main Road, Rampur" "single" "Ram Lal" "Sita Devi" None
    "Graduate" "Farmer" (Num 1) "alive" None.

(** Twenty-five citizens: three pages of the table. *)
Definition registry25 : list Citizen.t :=
  [raj; priya; amit] ++ map resident (seq 0 22).

(** A host whose strings compare by code unit and whose lower-casing
    acts on the letters A to Z. *)
Definition lower (c : ascii) : ascii :=
  let n := nat_of_ascii c in
  if ((65 <=? n) && (n <=? 90))%nat then ascii_of_nat (n + 32) else c.

Fixpoint toLowerCase (s : string) : string :=
  match s with
  | EmptyString => EmptyString
  | String c s' => String (lower c) (toLowerCase s')
  end.

Definition localeCompare (a b : string) : Z :=
  match String.compare a b with
  | Eq => 0
  | Lt => -1
  | Gt => 1
  end.

(** The citizen form as a clerk fills it in for a new resident; the
    village selection and the parents' names are left open here. *)
Definition form (village father mother : value) : CitizenRegistry.RawForm :=
  CitizenRegistry.mkForm
    (Str "567890123456") village (Str "Meena Kumari") (Str "1992-11-02")
    (Str "31") (Str "female") (Str "House No. 12, Rampur") (Str "single")
    father mother (Str "") (Str "alive") (Str "Graduate") (Str "Weaver")
    (Str "").

Definition new_citizen_form : CitizenRegistry.RawForm :=
  form (Str "1") (Str "Mohan Lal") (Str "Kamla Devi").

(** The values of that form once validated. *)
Definition new_citizen_data : CitizenRegistry.CitizenFormValues :=
  CitizenRegistry.mkForm
    "567890123456" "1" "Meena Kumari" "1992-11-02" "31" "female"
    "House No. 12, Rampur" "single" "Mohan Lal" "Kamla Devi" (Some "")
    "alive" "Graduate" "Weaver" (Some "").

(** The registration tab holding the form [raw], ready to submit. *)
Definition registering (raw : CitizenRegistry.RawForm) : App.State :=
  App.mkState
    (Home.mkState "citizens"
       (map Home.of_row [rampur; shyampur; ganeshpur])
       [raj; priya; amit] false)
    VillageManagement.initial
    (CitizenRegistry.mkState false None "socioeconomic" raw []).

(** Priya's record opened for editing, her occupation changed. *)
Definition priya_initialData : CitizenRegistry.PartialForm :=
  CitizenRegistry.mkForm
    (Some (Str "234567890123")) (Some (Str "2")) (Some (Str "Priya Singh"))
    (Some (Str "1990-08-22")) (Some (Str "33")) (Some (Str "female"))
    (Some (Str "House No. 456, Shyampur")) (Some (Str "married"))
    (Some (Str "Ramesh Singh")) (Some (Str "Geeta Singh"))
    (Some (Str "Vikram Singh")) (Some (Str "alive"))
    (Some (Str "Post Graduate")) (Some (Str "Headmistress")) None.

(** The values of that form once validated. *)
Definition priya_edited : CitizenRegistry.CitizenFormValues :=
  CitizenRegistry.mkForm
    "234567890123" "2" "Priya Singh" "1990-08-22" "33" "female"
    "House No. 456, Shyampur" "married" "Ramesh Singh" "Geeta Singh"
    (Some "Vikram Singh") "alive" "Post Graduate" "Headmistress" (Some "").

Definition editing_priya : App.State :=
  App.mkState
    (Home.mkState "citizens"
       (map Home.of_row [rampur; shyampur; ganeshpur])
       [raj; priya; amit] false)
    VillageManagement.initial
    (CitizenRegistry.initial priya_initialData).

Definition connection_lost : PostgrestError :=
  mkError "connection lost" "08006".

End Sample.

(** * Properties *)

(** ** Lists, slices and the stable sort *)

Section ListFacts.
Context {A : Type}.
Implicit Types (l : list A) (cmp : A -> A -> number).

Lemma length_insert cmp x l :
  List.length (insert cmp x l) = S (List.length l).
Proof.
  induction l as [|y l IH]; simpl; [reflexivity|].
  destruct (before (cmp x y)); simpl; [reflexivity|].
  now rewrite IH.
Qed.

Lemma length_sort cmp l : List.length (sort cmp l) = List.length l.
Proof.
  induction l as [|x l IH]; simpl; [reflexivity|].
  unfold sort in *. now rewrite length_insert, IH.
Qed.

Lemma len_sort cmp l : len (sort cmp l) = len l.
Proof. unfold len. now rewrite length_sort. Qed.

(** Inserting [x] puts it in front of the members of any class [p]
    whose members the comparator does not order after one another. *)
Lemma filter_insert cmp (p : A -> bool) x l :
  (forall a b, p a = true -> p b = true -> before (cmp a b) = true) ->
  filter p (insert cmp x l) = filter p (x :: l).
Proof.
  intros Hp. induction l as [|y l IH]; [reflexivity|].
  cbn [insert]. destruct (before (cmp x y)) eqn:Hxy; [reflexivity|].
  cbn [filter] in *. destruct (p y) eqn:Hy.
  - destruct (p x) eqn:Hx.
    + rewrite (Hp x y Hx Hy) in Hxy. discriminate.
    + now rewrite IH.
  - exact IH.
Qed.

Lemma filter_sort cmp (p : A -> bool) l :
  (forall a b, p a = true -> p b = true -> before (cmp a b) = true) ->
  filter p (sort cmp l) = filter p l.
Proof.
  intros Hp. induction l as [|x l IH]; [reflexivity|].
  change (sort cmp (x :: l)) with (insert cmp x (sort cmp l)).
  rewrite (filter_insert _ _ _ _ Hp). cbn [filter]. now rewrite IH.
Qed.

Lemma slice_window l (i : nat) :
  slice l (Z.of_nat i * 10) (Z.of_nat i * 10 + 10)
  = firstn 10 (skipn (i * 10) l).
Proof.
  unfold slice, rel_index, len.
  destruct (Z.ltb_spec (Z.of_nat i * 10) 0) as [H|_]; [lia|].
  destruct (Z.ltb_spec (Z.of_nat i * 10 + 10) 0) as [H|_]; [lia|].
  destruct (Nat.le_gt_cases (i * 10) (List.length l)) as [Hle|Hgt].
  - replace (Z.to_nat (Z.min (Z.of_nat i * 10) (Z.of_nat (List.length l))))
      with (i * 10)%nat by lia.
    set (rest := skipn (i * 10) l).
    assert (Hrest : List.length rest = (List.length l - i * 10)%nat)
      by (unfold rest; now rewrite length_skipn).
    destruct (Nat.le_gt_cases 10 (List.length rest)) as [Hbig|Hsmall].
    + f_equal. lia.
    + rewrite (firstn_all2 (n := 10)) by lia.
      apply firstn_all2. lia.
  - rewrite (skipn_all2 (n := i * 10)) by lia.
    rewrite skipn_all2 by lia. now rewrite !firstn_nil.
Qed.

(** Consecutive windows of width [k] that cover [l] add up to [l]. *)
Lemma concat_windows (k : nat) :
  forall (m : nat) l,
    (List.length l <= m * k)%nat ->
    List.concat (map (fun i => firstn k (skipn (i * k) l)) (seq 0 m)) = l.
Proof.
  induction m as [|m IH]; intros l Hlen.
  - destruct l; [reflexivity|simpl in Hlen; lia].
  - cbn [seq map List.concat]. rewrite <- seq_shift, map_map.
    rewrite (map_ext _ (fun i => firstn k (skipn (i * k) (skipn k l)))).
    + rewrite IH by (rewrite length_skipn; lia).
      simpl. apply firstn_skipn.
    + intros i. rewrite skipn_skipn. do 2 f_equal. lia.
Qed.

Lemma ceil_div_covers (n : Z) : n <= ceil_div n 10 * 10.
Proof.
  unfold ceil_div.
  pose proof (Z.div_mod (- n) 10 ltac:(lia)) as E.
  pose proof (Z.mod_pos_bound (- n) 10 ltac:(lia)) as B. lia.
Qed.

End ListFacts.

(** ** The sort is the stable sort

    ECMAScript fixes the result of [sort] when the comparator is
    consistent on the values sorted: the result is sorted, and values
    the comparator holds equal keep their order.  The three facts below
    show that [sort] meets this description and that only one list
    does. *)

Section StableSort.
Context {A : Type}.
Variable cmp : A -> A -> number.

(** The values being sorted. *)
Variable dom : A -> Prop.

Local Abbreviation le := (fun a b => before (cmp a b) = true).

Local Abbreviation equiv := (JS.equiv cmp).

Hypothesis le_total : forall a b, dom a -> dom b -> le a b \/ le b a.
Hypothesis le_trans :
  forall a b c, dom a -> dom b -> dom c -> le a b -> le b c -> le a c.

Lemma equiv_refl a : dom a -> equiv a a = true.
Proof.
  intros Ha. unfold equiv. destruct (le_total a a Ha Ha) as [H|H];
    now rewrite H.
Qed.

Lemma equiv_sym a b : equiv a b = equiv b a.
Proof. unfold equiv. apply andb_comm. Qed.

Lemma insert_perm x l : Permutation (insert cmp x l) (x :: l).
Proof.
  induction l as [|y l IH]; cbn; [reflexivity|].
  destruct (before (cmp x y)); [reflexivity|].
  rewrite IH. apply perm_swap.
Qed.

Lemma sort_perm l : Permutation (sort cmp l) l.
Proof.
  induction l as [|x l IH]; [reflexivity|].
  change (sort cmp (x :: l)) with (insert cmp x (sort cmp l)).
  now rewrite insert_perm, IH.
Qed.

Lemma insert_sorted x l :
  dom x -> Forall dom l ->
  StronglySorted le l -> StronglySorted le (insert cmp x l).
Proof.
  intros Hx Hl Hs. induction Hs as [|y l Hs IH Hy]; cbn.
  - constructor; constructor.
  - inversion Hl as [|? ? Hdy Hdl]; subst.
    destruct (before (cmp x y)) eqn:Hxy.
    + constructor; [now constructor|].
      constructor; [exact Hxy|].
      rewrite Forall_forall in *. intros z Hz.
      apply (le_trans x y z); auto.
    + constructor; [now apply IH|].
      apply (Permutation_Forall (Permutation_sym (insert_perm x l))).
      constructor; [|exact Hy].
      destruct (le_total x y Hx Hdy) as [H|H]; [congruence|exact H].
  Qed.

Lemma sort_sorted l : Forall dom l -> StronglySorted le (sort cmp l).
Proof.
  induction l as [|x l IH]; intros Hl; [constructor|].
  inversion Hl; subst.
  change (sort cmp (x :: l)) with (insert cmp x (sort cmp l)).
  apply insert_sorted; auto.
  now apply (Permutation_Forall (Permutation_sym (sort_perm l))).
Qed.

(** Members of one class are not ordered after one another: the sort
    keeps each class in its order. *)
Lemma insert_stable x y s :
  dom x -> dom y -> Forall dom s ->
  filter (equiv x) (insert cmp y s) = filter (equiv x) (y :: s).
Proof.
  intros Hx Hy Hs. induction s as [|z s IHs]; [reflexivity|].
  inversion Hs as [|? ? Hz Hs']; subst.
  cbn [insert]. destruct (before (cmp y z)) eqn:Hyz; [reflexivity|].
  cbn [filter] in *. rewrite (IHs Hs').
  destruct (JS.equiv cmp x z) eqn:Exz, (JS.equiv cmp x y) eqn:Exy;
    try reflexivity.
  exfalso. unfold JS.equiv in Exz, Exy.
  apply andb_true_iff in Exz as [Hxz Hzx], Exy as [Hxy Hyx].
  rewrite (le_trans y x z Hy Hx Hz Hyx Hxz) in Hyz. discriminate.
Qed.

Lemma sort_stable l x :
  dom x -> Forall dom l ->
  filter (equiv x) (sort cmp l) = filter (equiv x) l.
Proof.
  intros Hx Hl. induction l as [|y l IH]; [reflexivity|].
  inversion Hl as [|? ? Hy Hl']; subst.
  change (sort cmp (y :: l)) with (insert cmp y (sort cmp l)).
  rewrite insert_stable; auto.
  - cbn [filter]. now rewrite IH.
  - now apply (Permutation_Forall (Permutation_sym (sort_perm l))).
Qed.

(** A sorted list is determined by its classes. *)
Lemma stable_sorted_unique l1 :
  forall l2,
    Forall dom l1 -> Forall dom l2 ->
    StronglySorted le l1 -> StronglySorted le l2 ->
    (forall x, dom x -> filter (equiv x) l1 = filter (equiv x) l2) ->
    l1 = l2.
Proof.
  induction l1 as [|a t1 IH]; intros l2 H1 H2 S1 S2 Hc.
  - destruct l2 as [|b t2]; [reflexivity|].
    inversion H2 as [|? ? Hb _]; subst.
    specialize (Hc b Hb). cbn in Hc. now rewrite (equiv_refl b Hb) in Hc.
  - inversion H1 as [|? ? Ha H1']; subst.
    inversion S1 as [|? ? S1' La]; subst.
    destruct l2 as [|b t2].
    { specialize (Hc a Ha). cbn in Hc. now rewrite (equiv_refl a Ha) in Hc. }
    inversion H2 as [|? ? Hb H2']; subst.
    inversion S2 as [|? ? S2' Lb]; subst.
    assert (Eab : equiv a b = true).
    { destruct (equiv a b) eqn:E; [reflexivity|exfalso].
      pose proof (Hc a Ha) as Ca. pose proof (Hc b Hb) as Cb.
      cbn [filter] in Ca, Cb.
      rewrite (equiv_refl a Ha), E in Ca.
      rewrite (equiv_refl b Hb), equiv_sym, E in Cb.
      assert (Ia : In a t2).
      { apply (filter_In (equiv a)). rewrite <- Ca. now left. }
      assert (Ib : In b t1).
      { apply (filter_In (equiv b)). rewrite Cb. now left. }
      rewrite Forall_forall in La, Lb.
      unfold equiv in E. now rewrite (La b Ib), (Lb a Ia) in E. }
    pose proof (Hc a Ha) as Ca. cbn [filter] in Ca.
    rewrite (equiv_refl a Ha), Eab in Ca. injection Ca as <- _.
    f_equal. apply IH; auto.
    intros x Hx. specialize (Hc x Hx). cbn [filter] in Hc.
    destruct (equiv x a); [now injection Hc|exact Hc].
Qed.

(** Whatever algorithm the engine runs, a sorted result that keeps each
    class in its order is [sort cmp l]. *)
Lemma sort_characterised l l' :
  Forall dom l -> Forall dom l' ->
  StronglySorted le l' ->
  (forall x, dom x -> filter (equiv x) l' = filter (equiv x) l) ->
  l' = sort cmp l.
Proof.
  intros Hl Hl' Hs Hc. apply stable_sorted_unique; auto.
  - now apply (Permutation_Forall (Permutation_sym (sort_perm l))).
  - now apply sort_sorted.
  - intros x Hx. now rewrite sort_stable, Hc.
Qed.

End StableSort.

(** ** CitizenTable *)

Section CitizenTableFacts.
Import CitizenTable.
Variable toLowerCase : string -> string.
Variable localeCompare : string -> string -> Z.

Local Abbreviation filtered := (filteredCitizens toLowerCase).
Local Abbreviation sorted := (sortedCitizens toLowerCase localeCompare).
Local Abbreviation pageCount := (totalPages toLowerCase localeCompare).
Local Abbreviation page := (paginatedCitizens toLowerCase localeCompare).

Lemma push_range_from_1 (T : Z) :
  push_range 1 T = map Page (page_indices T).
Proof.
  unfold push_range, page_indices.
  replace (T - 1 + 1) with T by lia.
  rewrite <- seq_shift, !map_map. apply map_ext. intros k. f_equal. lia.
Qed.

Lemma sorted_setCurrentPage citizens st p :
  sorted citizens (setCurrentPage p st) = sorted citizens st.
Proof. reflexivity. Qed.

Lemma pageCount_filtered citizens st :
  pageCount citizens st = ceil_div (len (filtered citizens st)) itemsPerPage.
Proof. unfold totalPages, sortedCitizens. now rewrite len_sort. Qed.

Lemma page_of_index citizens st (i : nat) :
  page citizens (setCurrentPage (Z.of_nat (S i)) st)
  = firstn 10 (skipn (i * 10) (sorted citizens st)).
Proof.
  unfold paginatedCitizens, startIndex, itemsPerPage.
  rewrite sorted_setCurrentPage. cbn [currentPage setCurrentPage].
  replace (Z.of_nat (S i) - 1) with (Z.of_nat i) by lia.
  apply slice_window.
Qed.

End CitizenTableFacts.

(** The comparators of the table are consistent on citizens whose age
    is a number, given a [localeCompare] that is a total preorder. *)
Section Comparators.
Import CitizenTable.
Variable localeCompare : string -> string -> Z.
Hypothesis locale_total :
  forall s t, localeCompare s t <= 0 \/ localeCompare t s <= 0.
Hypothesis locale_trans :
  forall s t u,
    localeCompare s t <= 0 -> localeCompare t u <= 0 ->
    localeCompare s u <= 0.

Local Abbreviation has_age := (fun c : Citizen.t => Citizen.age c <> NaN).

Lemma compareCitizens_total field order (a b : Citizen.t) :
  has_age a -> has_age b ->
  before (compareCitizens localeCompare field order a b) = true
  \/ before (compareCitizens localeCompare field order b a) = true.
Proof.
  intros Ha Hb. cbv beta in Ha, Hb.
  destruct field, order; cbn; rewrite ?Z.leb_le;
    try apply locale_total.
  all: destruct (Citizen.age a) as [|x], (Citizen.age b) as [|y];
    try congruence; cbn; rewrite !Z.leb_le; lia.
Qed.

Lemma compareCitizens_trans field order (a b c : Citizen.t) :
  has_age a -> has_age b -> has_age c ->
  before (compareCitizens localeCompare field order a b) = true ->
  before (compareCitizens localeCompare field order b c) = true ->
  before (compareCitizens localeCompare field order a c) = true.
Proof.
  intros Ha Hb Hc. cbv beta in Ha, Hb, Hc.
  destruct field, order; cbn; rewrite ?Z.leb_le;
    eauto using locale_trans.
  all: destruct (Citizen.age a) as [|x], (Citizen.age b) as [|y],
         (Citizen.age c) as [|z]; try congruence; cbn;
    rewrite !Z.leb_le; lia.
Qed.

(** The table's sorted sequence is the only sorted arrangement of the
    filtered citizens that keeps the order inside each class. *)
Lemma sortedCitizens_characterised toLowerCase citizens st l' :
  Forall has_age citizens -> Forall has_age l' ->
  let cmp := compareCitizens localeCompare (sortField st) (sortOrder st) in
  StronglySorted (fun a b => before (cmp a b) = true) l' ->
  (forall x, has_age x ->
             filter (JS.equiv cmp x) l'
             = filter (JS.equiv cmp x) (filteredCitizens toLowerCase citizens st))
  ->
  l' = sortedCitizens toLowerCase localeCompare citizens st.
Proof.
  intros Hc Hl' cmp Hs Hclass.
  apply (sort_characterised cmp has_age); auto.
  - intros a b. apply compareCitizens_total.
  - intros a b c. apply compareCitizens_trans.
  - unfold filteredCitizens. rewrite Forall_forall in *.
    intros x Hx. apply filter_In in Hx. now apply Hc.
Qed.

End Comparators.

(** C5.  For [T >= 1] pages and a current page [1 <= C <= T], the strip
    of page numbers is [1 .. T] when [T <= 5]; [1,2,3,4,ellipsis,T] when
    [T > 5] and [C <= 3]; [1,ellipsis,T-3,T-2,T-1,T] when [T > 5] and
    [C >= T-2]; and [1,ellipsis,C-1,C,C+1,ellipsis,T] otherwise.  With
    [T = 12] page 1 gives [1,2,3,4,ellipsis,12] and page 10 gives
    [1,ellipsis,9,10,11,12]; [T = 4] gives [1,2,3,4]. *)
Theorem getPageNumbers_window (T C : Z) :
  1 <= T -> 1 <= C <= T ->
  let pages := CitizenTable.getPageNumbers T C in
  let P := CitizenTable.Page in
  let E := CitizenTable.Ellipsis in
  (T <= 5 -> pages = map P (CitizenTable.page_indices T))
  /\ (5 < T -> C <= 3 -> pages = [P 1; P 2; P 3; P 4; E; P T])
  /\ (5 < T -> T - 2 <= C ->
      pages = [P 1; E; P (T - 3); P (T - 2); P (T - 1); P T])
  /\ (5 < T -> 3 < C < T - 2 ->
      pages = [P 1; E; P (C - 1); P C; P (C + 1); E; P T])
  /\ CitizenTable.getPageNumbers 12 1 = [P 1; P 2; P 3; P 4; E; P 12]
  /\ CitizenTable.getPageNumbers 12 10 = [P 1; E; P 9; P 10; P 11; P 12]
  /\ CitizenTable.getPageNumbers 4 C = [P 1; P 2; P 3; P 4].
Proof.
  intros HT HC pages P E. subst pages.
  unfold CitizenTable.getPageNumbers, CitizenTable.maxVisiblePages.
  repeat split.
  - intros H. destruct (Z.leb_spec T 5); [|lia].
    apply push_range_from_1.
  - intros H H3. destruct (Z.leb_spec T 5); [lia|].
    destruct (Z.leb_spec C 3); [|lia]. reflexivity.
  - intros H H3. destruct (Z.leb_spec T 5); [lia|].
    destruct (Z.leb_spec C 3); [lia|].
    destruct (Z.geb_spec C (T - 2)); [|lia].
    unfold CitizenTable.push_range.
    replace (T - (T - 3) + 1) with 4 by lia.
    change (Z.to_nat 4) with 4%nat. cbn [seq map app].
    subst P E.
    repeat (apply (f_equal2 (@cons _));
            [first [reflexivity | apply f_equal; lia]|]).
    reflexivity.
  - intros H H3. destruct (Z.leb_spec T 5); [lia|].
    destruct (Z.leb_spec C 3); [lia|].
    destruct (Z.geb_spec C (T - 2)); [lia|]. reflexivity.
Qed.

(** The strip of page 10 of 12, obtained from the general statement. *)
Lemma getPageNumbers_window_witness :
  1 <= 12 /\ 1 <= 10 <= 12 /\
  CitizenTable.getPageNumbers 12 10
  = [CitizenTable.Page 1; CitizenTable.Ellipsis; CitizenTable.Page 9;
     CitizenTable.Page 10; CitizenTable.Page 11; CitizenTable.Page 12].
Proof.
  assert (H1 : 1 <= 12) by lia.
  assert (H2 : 1 <= 10 <= 12) by lia.
  split; [exact H1|]. split; [exact H2|].
  destruct (getPageNumbers_window 12 10 H1 H2) as (_ & _ & H & _).
  apply H; lia.
Defined.

(** C6.  The pages [1 .. pageCount], one after the other, are the whole
    filtered and sorted sequence: each of its elements appears once, at
    its place. *)
Theorem pages_partition (toLowerCase : string -> string)
        (localeCompare : string -> string -> Z)
        (citizens : list Citizen.t) (st : CitizenTable.State) :
  List.concat
    (map (fun p =>
            CitizenTable.paginatedCitizens toLowerCase localeCompare citizens
              (CitizenTable.setCurrentPage p st))
         (CitizenTable.page_indices
            (CitizenTable.totalPages toLowerCase localeCompare citizens st)))
  = CitizenTable.sortedCitizens toLowerCase localeCompare citizens st.
Proof.
  unfold CitizenTable.page_indices.
  rewrite map_map, <- seq_shift, map_map.
  rewrite (map_ext _ _ (page_of_index toLowerCase localeCompare citizens st)).
  apply (concat_windows 10).
  pose proof (ceil_div_covers
                (len (CitizenTable.sortedCitizens toLowerCase localeCompare
                        citizens st))) as H.
  unfold CitizenTable.totalPages, CitizenTable.itemsPerPage, len in *. lia.
Qed.

(** Records with the same sort key are not ordered after one another by
    the comparator, whatever the field and the direction. *)
Lemma same_key_before (toLowerCase : string -> string)
      (localeCompare : string -> string -> Z)
      (field : CitizenTable.SortField) (order : CitizenTable.SortOrder)
      (k : CitizenTable.Key) (a b : Citizen.t) :
  (forall s, localeCompare s s <= 0) ->
  CitizenTable.key_eqb (CitizenTable.sortKey field a) k = true ->
  CitizenTable.key_eqb (CitizenTable.sortKey field b) k = true ->
  before (CitizenTable.compareCitizens localeCompare field order a b) = true.
Proof.
  intros Hrefl Ha Hb.
  destruct field, k as [s|[|z]]; cbn in Ha, Hb; try discriminate;
    try (apply String.eqb_eq in Ha, Hb);
    destruct order; cbn; rewrite ?Ha, ?Hb;
    try (apply Z.leb_le; apply Hrefl).
  all: destruct (Citizen.age a) as [|x], (Citizen.age b) as [|y];
    try discriminate; try reflexivity.
  all: apply Z.eqb_eq in Ha, Hb; subst; cbn; apply Z.leb_le; lia.
Qed.

(** C4.  The sort is stable.  The comparator is consistent on the
    citizens listed when [localeCompare] is a total preorder and no age
    is [NaN]; the language then fixes the result of [sort], and that
    result keeps, for every key, the records with that key in the order
    they had in the filtered sequence, for each of the three fields and
    both directions.  It is sorted, and it is the only sorted
    arrangement that keeps the records the comparator holds equal in
    their order.  Ages 38, 33, 28 sorted by age descending give 38, 33,
    28, and two records of equal age keep their order, ascending and
    descending. *)
Theorem sort_is_stable (toLowerCase : string -> string)
        (localeCompare : string -> string -> Z)
        (citizens : list Citizen.t) (st : CitizenTable.State)
        (k : CitizenTable.Key) :
  (forall s t, localeCompare s t <= 0 \/ localeCompare t s <= 0) ->
  (forall s t u, localeCompare s t <= 0 -> localeCompare t u <= 0 ->
                 localeCompare s u <= 0) ->
  Forall (fun c => Citizen.age c <> NaN) citizens ->
  let same c :=
    CitizenTable.key_eqb (CitizenTable.sortKey (CitizenTable.sortField st) c) k
  in
  let by_age order :=
    CitizenTable.mkState "" 1 CitizenTable.ByName CitizenTable.SortAge order in
  let sorted := CitizenTable.sortedCitizens toLowerCase localeCompare in
  let filtered := CitizenTable.filteredCitizens toLowerCase citizens st in
  let cmp :=
    CitizenTable.compareCitizens localeCompare (CitizenTable.sortField st)
      (CitizenTable.sortOrder st) in
  filter same (sorted citizens st) = filter same filtered
  /\ StronglySorted (fun a b => before (cmp a b) = true) (sorted citizens st)
  /\ (forall l',
         Forall (fun c => Citizen.age c <> NaN) l' ->
         StronglySorted (fun a b => before (cmp a b) = true) l' ->
         (forall x, Citizen.age x <> NaN ->
                    filter (JS.equiv cmp x) l' = filter (JS.equiv cmp x) filtered) ->
         l' = sorted citizens st)
  /\ map Citizen.age
         (sorted [Sample.raj; Sample.priya; Sample.amit]
                 (by_age CitizenTable.Desc))
     = [Num 38; Num 33; Num 28]
  /\ (forall order,
        sorted [Sample.priya; Sample.vikram] (by_age order)
        = [Sample.priya; Sample.vikram]
        /\ sorted [Sample.vikram; Sample.priya] (by_age order)
           = [Sample.vikram; Sample.priya]).
Proof.
  intros Htot Htrans Hage same by_age sorted filtered cmp.
  assert (Hf : Forall (fun c => Citizen.age c <> NaN) filtered).
  { subst filtered. unfold CitizenTable.filteredCitizens.
    rewrite Forall_forall in *. intros x Hx.
    apply filter_In in Hx. now apply Hage. }
  split; [|split; [|split; [|split]]].
  - apply filter_sort. intros a b Ha Hb.
    apply (same_key_before toLowerCase) with (k := k); auto.
    intros s. now destruct (Htot s s).
  - apply (sort_sorted cmp (fun c => Citizen.age c <> NaN)); auto.
    + intros a b. apply (compareCitizens_total localeCompare Htot).
    + intros a b c. apply (compareCitizens_trans localeCompare Htrans).
  - intros l' Hl' Hs Hc.
    now apply (sortedCitizens_characterised localeCompare Htot Htrans).
  - reflexivity.
  - intros [|]; split; reflexivity.
Qed.

Lemma Sample_compare_lexical (s t : string) :
  String.compare s t = String_as_OT.compare s t.
Proof.
  revert t. induction s as [|a s IH]; intros [|b t]; reflexivity.
Qed.

Lemma Sample_localeCompare_le (s t : string) :
  Sample.localeCompare s t <= 0 <-> s = t \/ String_as_OT.lt s t.
Proof.
  unfold Sample.localeCompare. rewrite Sample_compare_lexical.
  destruct (String_as_OT.compare_spec s t) as [E|L|G].
  - split; [now left|lia].
  - split; [now right|lia].
  - split; [lia|]. intros [E|L].
    + subst. now apply (StrictOrder_Irreflexive t) in G.
    + exfalso. apply (StrictOrder_Irreflexive s).
      now transitivity t.
Qed.

Lemma Sample_localeCompare_total (s t : string) :
  Sample.localeCompare s t <= 0 \/ Sample.localeCompare t s <= 0.
Proof.
  rewrite !Sample_localeCompare_le.
  destruct (String_as_OT.compare_spec s t) as [E|L|G]; auto.
Qed.

Lemma Sample_localeCompare_trans (s t u : string) :
  Sample.localeCompare s t <= 0 -> Sample.localeCompare t u <= 0 ->
  Sample.localeCompare s u <= 0.
Proof.
  rewrite !Sample_localeCompare_le.
  intros [->|L1] [->|L2]; auto.
  right. now transitivity t.
Qed.

(** Priya and Vikram, both 33, stay in snapshot order when the four
    sample rows are sorted by age. *)
Lemma sort_is_stable_witness :
  let citizens := [Sample.raj; Sample.priya; Sample.amit; Sample.vikram] in
  (forall s t, Sample.localeCompare s t <= 0 \/ Sample.localeCompare t s <= 0)
  /\ (forall s t u,
         Sample.localeCompare s t <= 0 -> Sample.localeCompare t u <= 0 ->
         Sample.localeCompare s u <= 0)
  /\ Forall (fun c => Citizen.age c <> NaN) citizens
  /\ filter (fun c =>
              CitizenTable.key_eqb
                (CitizenTable.sortKey CitizenTable.SortAge c)
                (CitizenTable.KNumber (Num 33)))
            (CitizenTable.sortedCitizens Sample.toLowerCase
               Sample.localeCompare citizens
               (CitizenTable.mkState "" 1 CitizenTable.ByName
                  CitizenTable.SortAge CitizenTable.Asc))
     = [Sample.priya; Sample.vikram].
Proof.
  intros citizens.
  assert (Hage : Forall (fun c => Citizen.age c <> NaN) citizens)
    by (repeat constructor; discriminate).
  split; [exact Sample_localeCompare_total|].
  split; [exact Sample_localeCompare_trans|].
  split; [exact Hage|].
  exact (proj1 (sort_is_stable Sample.toLowerCase Sample.localeCompare
                  citizens
                  (CitizenTable.mkState "" 1 CitizenTable.ByName
                     CitizenTable.SortAge CitizenTable.Asc)
                  (CitizenTable.KNumber (Num 33))
                  Sample_localeCompare_total Sample_localeCompare_trans
                  Hage)).
Defined.

Section Pagination.
Import CitizenTable.
Variable toLowerCase : string -> string.
Variable localeCompare : string -> string -> Z.

Local Abbreviation filtered := (filteredCitizens toLowerCase).
Local Abbreviation sorted := (sortedCitizens toLowerCase localeCompare).
Local Abbreviation pageCount := (totalPages toLowerCase localeCompare).
Local Abbreviation page := (paginatedCitizens toLowerCase localeCompare).
Local Abbreviation step := (CitizenTable.step toLowerCase localeCompare).

(** The page size: a page never holds more than ten records. *)
Lemma page_at_most_10 citizens st :
  (List.length (page citizens st) <= 10)%nat.
Proof.
  unfold paginatedCitizens, slice. rewrite length_firstn.
  unfold rel_index, itemsPerPage.
  set (n := len (sorted citizens st)). set (start := startIndex st).
  assert (0 <= n) by (unfold n, len; lia).
  destruct (Z.ltb_spec start 0), (Z.ltb_spec (start + 10) 0); lia.
Qed.

(** Within [1 .. pageCount] the page is not empty. *)
Lemma page_in_range_nonempty citizens st :
  1 <= currentPage st <= pageCount citizens st ->
  page citizens st <> [].
Proof.
  intros [Hlo Hhi].
  pose (i := Z.to_nat (currentPage st - 1)).
  assert (Hst : st = setCurrentPage (Z.of_nat (S i)) st).
  { subst i. destruct st as [t p ty f o]. unfold setCurrentPage.
    cbn [currentPage searchTerm searchType sortField sortOrder] in *.
    f_equal. lia. }
  rewrite Hst, page_of_index.
  unfold totalPages, ceil_div, itemsPerPage, len in Hhi.
  assert (Hlt : (i * 10 < List.length (sorted citizens st))%nat).
  { pose proof (Z.div_mod (- Z.of_nat (List.length (sorted citizens st)))
                  10 ltac:(lia)) as E.
    pose proof (Z.mod_pos_bound
                  (- Z.of_nat (List.length (sorted citizens st))) 10
                  ltac:(lia)) as B.
    unfold i. lia. }
  intros Hnil. apply (f_equal (@List.length _)) in Hnil.
  rewrite length_firstn, length_skipn in Hnil.
  cbn [List.length] in Hnil. lia.
Qed.

(** Past the last page the slice is empty. *)
Lemma page_beyond_empty citizens st :
  len (filtered citizens st) <= startIndex st ->
  page citizens st = [].
Proof.
  intros H. unfold paginatedCitizens, slice, sortedCitizens.
  rewrite len_sort.
  assert (0 <= len (filtered citizens st)) by (unfold len; lia).
  unfold rel_index, itemsPerPage.
  destruct (Z.ltb_spec (startIndex st) 0); [lia|].
  destruct (Z.ltb_spec (startIndex st + 10) 0); [lia|].
  replace (Z.to_nat (Z.max _ 0)) with 0%nat by lia. reflexivity.
Qed.

(** "Previous" and "Next" keep a page index inside [1 .. pageCount]. *)
Lemma previous_next_clamp citizens st e :
  e = ClickPrevious \/ e = ClickNext ->
  1 <= currentPage st <= pageCount citizens st ->
  1 <= currentPage (step citizens st e) <= pageCount citizens st.
Proof.
  intros [-> | ->] H; cbn [CitizenTable.step];
    destruct (Z.ltb_spec 1 (pageCount citizens st)); cbn; lia.
Qed.

(** "Next" on the last page and "Previous" on the first stay there. *)
Lemma next_on_last_page citizens st :
  currentPage st = pageCount citizens st ->
  currentPage (step citizens st ClickNext) = currentPage st.
Proof.
  intros H. cbn [CitizenTable.step].
  destruct (Z.ltb_spec 1 (pageCount citizens st)); cbn; lia.
Qed.

Lemma previous_on_first_page citizens st :
  currentPage st = 1 ->
  currentPage (step citizens st ClickPrevious) = 1.
Proof.
  intros H. cbn [CitizenTable.step].
  destruct (Z.ltb_spec 1 (pageCount citizens st)); cbn; lia.
Qed.

(** Typing in the search box leaves the page index as it was. *)
Lemma search_keeps_page citizens st term :
  currentPage (step citizens st (TypeSearch term)) = currentPage st.
Proof. reflexivity. Qed.

End Pagination.

(** C1.  The page size is ten and the page count is the ceiling of the
    filtered count over ten, but the page index is clamped only by the
    "Previous" and "Next" buttons.  On three pages of citizens, going to
    page 3 and then searching for the identifier part "2345" leaves the
    index at 3 of 1 page: two citizens match and the page shown is
    empty. *)
Theorem stale_page_after_search (toLowerCase : string -> string)
        (localeCompare : string -> string -> Z) :
  let st :=
    CitizenTable.run toLowerCase localeCompare Sample.registry25
      CitizenTable.initial
      [CitizenTable.ClickNext; CitizenTable.ClickNext;
       CitizenTable.ChooseSearch CitizenTable.ByAadhar;
       CitizenTable.TypeSearch "2345"] in
  CitizenTable.currentPage st = 3
  /\ CitizenTable.filteredCitizens toLowerCase Sample.registry25 st
     = [Sample.raj; Sample.priya]
  /\ CitizenTable.totalPages toLowerCase localeCompare Sample.registry25 st
     = 1
  /\ CitizenTable.paginatedCitizens toLowerCase localeCompare
       Sample.registry25 st = [].
Proof.
  assert (HT : forall p,
             CitizenTable.totalPages toLowerCase localeCompare
               Sample.registry25
               (CitizenTable.mkState "" p CitizenTable.ByName
                  CitizenTable.SortName CitizenTable.Asc) = 3).
  { intros p. rewrite pageCount_filtered. reflexivity. }
  assert (Hst :
            CitizenTable.run toLowerCase localeCompare Sample.registry25
              CitizenTable.initial
              [CitizenTable.ClickNext; CitizenTable.ClickNext;
               CitizenTable.ChooseSearch CitizenTable.ByAadhar;
               CitizenTable.TypeSearch "2345"]
            = CitizenTable.mkState "2345" 3 CitizenTable.ByAadhar
                CitizenTable.SortName CitizenTable.Asc).
  { unfold CitizenTable.run, CitizenTable.initial.
    cbn [fold_left]. unfold CitizenTable.step at 4.
    rewrite HT. cbn [Z.ltb Z.compare Pos.compare Pos.compare_cont].
    unfold CitizenTable.setCurrentPage at 1.
    cbn [CitizenTable.searchTerm CitizenTable.currentPage
         CitizenTable.searchType CitizenTable.sortField
         CitizenTable.sortOrder].
    unfold CitizenTable.step at 3.
    rewrite HT. reflexivity. }
  intros st. subst st. rewrite Hst.
  assert (Hf : CitizenTable.filteredCitizens toLowerCase Sample.registry25
                 (CitizenTable.mkState "2345" 3 CitizenTable.ByAadhar
                    CitizenTable.SortName CitizenTable.Asc)
               = [Sample.raj; Sample.priya]) by reflexivity.
  split; [reflexivity|]. split; [exact Hf|]. split.
  - rewrite pageCount_filtered, Hf. reflexivity.
  - apply page_beyond_empty. rewrite Hf. cbv. discriminate.
Qed.

(** ** Home: the mutation handlers *)

Section FilterFacts.
Context {A : Type}.

Lemma filter_keeps (p : A -> bool) (l : list A) (x : A) :
  In x (filter p l) <-> In x l /\ p x = true.
Proof. apply filter_In. Qed.

Lemma filter_idem (p : A -> bool) (l : list A) :
  filter p (filter p l) = filter p l.
Proof.
  induction l as [|x l IH]; [reflexivity|].
  cbn. destruct (p x) eqn:E; cbn; rewrite ?E, IH; reflexivity.
Qed.
End FilterFacts.

Lemma strict_neq_spec (a : number) (k : Z) :
  strict_neq a (Num k) = true <-> a <> Num k.
Proof.
  unfold strict_neq, strict_eq. destruct a as [|z]; cbn.
  - split; [discriminate|reflexivity].
  - rewrite negb_true_iff, Z.eqb_neq. split; congruence.
Qed.

Lemma string_neqb_spec (s t : string) :
  negb (String.eqb s t) = true <-> s <> t.
Proof. now rewrite negb_true_iff, String.eqb_neq. Qed.

Lemma Z_neqb_spec (x y : Z) : negb (x =? y) = true <-> x <> y.
Proof. now rewrite negb_true_iff, Z.eqb_neq. Qed.

(** C10.  With the remote delete acknowledged, deleting citizen [k]
    removes from the citizens cache exactly the entries whose
    [aadhar_number] is [k]; the citizens with another number stay as they
    are and in the same order, and the villages cache is untouched. *)
Theorem handleDeleteCitizen_frame (s : Home.State) (k : string)
        (resp : Response unit) :
  error resp = None ->
  let s' := st (exec (Home.handleDeleteCitizen s k resp) s) in
  let other c := negb (String.eqb (Citizen.aadhar_number c) k) in
  (forall c, In c (Home.citizens s') <->
             In c (Home.citizens s) /\ Citizen.aadhar_number c <> k)
  /\ Home.citizens s' = filter other (Home.citizens s)
  /\ filter other (Home.citizens s') = filter other (Home.citizens s)
  /\ Home.villages s' = Home.villages s.
Proof.
  intros Hack s' other. subst s'.
  unfold exec, Home.handleDeleteCitizen, try_catch, bind, throw_if.
  rewrite Hack. cbn.
  split; [|split; [reflexivity|split; [apply filter_idem|reflexivity]]].
  intros c. rewrite filter_keeps. now rewrite string_neqb_spec.
Qed.

(** Deleting Priya from the three seed citizens. *)
Lemma handleDeleteCitizen_frame_witness :
  error (ok tt) = None
  /\ Home.citizens
       (st (exec (Home.handleDeleteCitizen
                    (Home.mkState "dashboard" []
                       [Sample.raj; Sample.priya; Sample.amit] false)
                    "234567890123" (ok tt))
                 (Home.mkState "dashboard" []
                    [Sample.raj; Sample.priya; Sample.amit] false)))
     = [Sample.raj; Sample.amit].
Proof.
  split; [reflexivity|].
  exact (proj1 (proj2 (handleDeleteCitizen_frame
                         (Home.mkState "dashboard" []
                            [Sample.raj; Sample.priya; Sample.amit] false)
                         "234567890123" (ok tt) eq_refl))).
Defined.

(** X24.  [Home.handleDeleteVillage], its delete acknowledged, removes
    from the villages cache the village with [V]'s identifier and from
    the citizens cache every citizen whose [village_id] is that
    identifier; everything else stays, in order.  The management tab's
    own handler, whose state is a village list, removes the selected
    village from that list and nothing else. *)
Theorem handleDeleteVillage_cascade (s : Home.State) (V : Home.Village)
        (m : VillageManagement.State) (selected : VillageRow.t)
        (resp : Response unit) :
  In V (Home.villages s) ->
  VillageManagement.selectedVillage m = Some selected ->
  error resp = None ->
  let s' := st (exec (Home.handleDeleteVillage s (Home.id V) resp) s) in
  let m' := st (exec (VillageManagement.handleDeleteVillage m resp) m) in
  (~ In V (Home.villages s')
   /\ (forall v, In v (Home.villages s') <->
                 In v (Home.villages s) /\ Home.id v <> Home.id V)
   /\ Home.villages s'
      = filter (fun v => negb (Home.id v =? Home.id V)) (Home.villages s))
  /\ ((forall c, In c (Home.citizens s') <->
                 In c (Home.citizens s)
                 /\ Citizen.village_id c <> Num (Home.id V))
      /\ Home.citizens s'
         = filter (fun c => strict_neq (Citizen.village_id c)
                                       (Num (Home.id V)))
                  (Home.citizens s))
  /\ ((forall v, In v (VillageManagement.villages m') <->
                 In v (VillageManagement.villages m)
                 /\ VillageRow.village_id v <> VillageRow.village_id selected)
      /\ VillageManagement.villages m'
         = filter (fun v => negb (VillageRow.village_id v
                                  =? VillageRow.village_id selected))
                  (VillageManagement.villages m)).
Proof.
  intros HV Hsel Hack s' m'. subst s' m'.
  unfold exec, Home.handleDeleteVillage, VillageManagement.handleDeleteVillage,
    try_catch, bind, throw_if.
  rewrite Hsel, Hack. cbn.
  assert (Hv : forall v,
             In v (filter (fun v => negb (Home.id v =? Home.id V))
                          (Home.villages s)) <->
             In v (Home.villages s) /\ Home.id v <> Home.id V).
  { intros v. now rewrite filter_keeps, Z_neqb_spec. }
  assert (Hc : forall c,
             In c (filter (fun c => strict_neq (Citizen.village_id c)
                                               (Num (Home.id V)))
                          (Home.citizens s)) <->
             In c (Home.citizens s)
             /\ Citizen.village_id c <> Num (Home.id V)).
  { intros c. now rewrite filter_keeps, strict_neq_spec. }
  assert (Hm : forall v,
             In v (filter (fun v => negb (VillageRow.village_id v
                                          =? VillageRow.village_id selected))
                          (VillageManagement.villages m)) <->
             In v (VillageManagement.villages m)
             /\ VillageRow.village_id v <> VillageRow.village_id selected).
  { intros v. now rewrite filter_keeps, Z_neqb_spec. }
  split; [|split].
  - split; [|split; [exact Hv | reflexivity]].
    intros HIn. apply Hv in HIn. now destruct HIn.
  - split; [exact Hc | reflexivity].
  - split; [exact Hm | reflexivity].
Qed.

(** Deleting Shyampur: its two residents go, Raj and Amit stay. *)
Lemma handleDeleteVillage_cascade_witness :
  let s := Home.mkState "villages"
             (map Home.of_row
                  [Sample.rampur; Sample.shyampur; Sample.ganeshpur])
             [Sample.raj; Sample.priya; Sample.amit; Sample.vikram] false in
  let m := VillageManagement.mkState
             [Sample.rampur; Sample.shyampur; Sample.ganeshpur]
             false false false true (Some Sample.shyampur) in
  In (Home.of_row Sample.shyampur) (Home.villages s)
  /\ VillageManagement.selectedVillage m = Some Sample.shyampur
  /\ error (ok tt) = None
  /\ Home.villages (st (exec (Home.handleDeleteVillage s 2 (ok tt)) s))
     = map Home.of_row [Sample.rampur; Sample.ganeshpur]
  /\ Home.citizens (st (exec (Home.handleDeleteVillage s 2 (ok tt)) s))
     = [Sample.raj; Sample.amit]
  /\ VillageManagement.villages
       (st (exec (VillageManagement.handleDeleteVillage m (ok tt)) m))
     = [Sample.rampur; Sample.ganeshpur].
Proof.
  intros s m.
  assert (HV : In (Home.of_row Sample.shyampur) (Home.villages s))
    by (right; left; reflexivity).
  destruct (handleDeleteVillage_cascade s (Home.of_row Sample.shyampur) m
              Sample.shyampur (ok tt) HV eq_refl eq_refl)
    as ((_ & _ & Hvil) & (_ & Hcit) & (_ & Hman)).
  split; [exact HV|]. split; [reflexivity|]. split; [reflexivity|].
  split; [exact Hvil|]. split; [exact Hcit | exact Hman].
Defined.

(** After the management tab's delete, the caches of [Home] are as
    before: they follow only when the change feed reloads them. *)
Lemma management_delete_leaves_home (s : App.State) (resp : Response unit) :
  App.home (st (exec (App.deleteVillage s resp) s)) = App.home s.
Proof.
  unfold exec, App.deleteVillage, App.in_management, zoom. cbn.
  now destruct (VillageManagement.handleDeleteVillage _ _ _).
Qed.

(** C2.  The delete that the management tab performs does not cascade.
    The tab is rendered without reading its props and runs a handler of
    its own, which knows the tab's village list only.  With Shyampur
    selected in the delete dialog and the delete acknowledged, that list
    loses Shyampur and the tab reports the deletion, while the caches of
    [Home] still hold Shyampur and its two residents.
    [Home.handleDeleteVillage], which no event reaches, removes all
    three from the same caches. *)
Theorem management_delete_skips_cascade :
  let home :=
    Home.mkState "villages"
      (map Home.of_row [Sample.rampur; Sample.shyampur; Sample.ganeshpur])
      [Sample.raj; Sample.priya; Sample.amit; Sample.vikram] false in
  let s :=
    App.mkState home
      (VillageManagement.mkState
         [Sample.rampur; Sample.shyampur; Sample.ganeshpur]
         false false false true (Some Sample.shyampur))
      (CitizenRegistry.initial CitizenRegistry.no_initialData) in
  let out := exec (App.deleteVillage s (ok tt)) s in
  let sibling :=
    exec (Home.handleDeleteVillage home
            (VillageRow.village_id Sample.shyampur) (ok tt)) home in
  VillageManagement.villages (App.management (st out))
  = [Sample.rampur; Sample.ganeshpur]
  /\ toasts out
     = [mkToast "Village Deleted" "Shyampur has been deleted successfully."
                "destructive"]
  /\ Home.villages (App.home (st out))
     = map Home.of_row [Sample.rampur; Sample.shyampur; Sample.ganeshpur]
  /\ Home.citizens (App.home (st out))
     = [Sample.raj; Sample.priya; Sample.amit; Sample.vikram]
  /\ filter (fun c => strict_eq (Citizen.village_id c)
                                (Num (VillageRow.village_id Sample.shyampur)))
            (Home.citizens (App.home (st out)))
     = [Sample.priya; Sample.vikram]
  /\ Home.villages (st sibling)
     = map Home.of_row [Sample.rampur; Sample.ganeshpur]
  /\ Home.citizens (st sibling) = [Sample.raj; Sample.amit].
Proof. cbv zeta. repeat split. Qed.

(** C7.  When the fetch of the villages or of the citizens fails,
    [fetchData] leaves both caches as they were and reports the error;
    when both succeed, each cache is replaced by the fetched table. *)
Theorem fetchData_all_or_nothing (s : Home.State)
        (villagesResp : Response (list VillageRow.t))
        (citizensResp : Response (list Citizen.t)) :
  let out := exec (Home.fetchData villagesResp citizensResp) s in
  (forall e,
      error villagesResp = Some e
      \/ (error villagesResp = None /\ error citizensResp = Some e) ->
      Home.villages (st out) = Home.villages s
      /\ Home.citizens (st out) = Home.citizens s
      /\ console out = [("Error fetching data:", Thrown e)])
  /\ (forall villagesData citizensData,
         villagesResp = ok villagesData ->
         citizensResp = ok citizensData ->
         Home.villages (st out) = map Home.of_row villagesData
         /\ Home.citizens (st out) = citizensData
         /\ console out = []).
Proof.
  intros out. subst out.
  unfold exec, Home.fetchData, finally, try_catch, bind, throw_if.
  split.
  - intros e [Hv | [Hv Hc]]; rewrite Hv; [|rewrite Hc]; cbn;
      repeat split; reflexivity.
  - intros vs cs -> ->. cbn. repeat split; reflexivity.
Qed.

(** A failed citizens fetch keeps the loaded snapshot; a successful
    reload replaces it. *)
Lemma fetchData_all_or_nothing_witness :
  let s := Home.mkState "dashboard" [Home.of_row Sample.rampur]
             [Sample.raj] false in
  let e := Sample.connection_lost in
  (error (ok [Sample.rampur]) = None
   /\ error (@failed (list Citizen.t) e) = Some e)
  /\ Home.citizens
       (st (exec (Home.fetchData (ok [Sample.rampur]) (failed e)) s))
     = [Sample.raj]
  /\ Home.citizens
       (st (exec (Home.fetchData (ok [Sample.rampur; Sample.shyampur])
                                 (ok [Sample.raj; Sample.priya])) s))
     = [Sample.raj; Sample.priya].
Proof.
  intros s e.
  assert (H : error (ok [Sample.rampur]) = None
              /\ error (@failed (list Citizen.t) e) = Some e)
    by (split; reflexivity).
  split; [exact H|]. split.
  - exact (proj1 (proj2 (proj1 (fetchData_all_or_nothing s
                                  (ok [Sample.rampur]) (failed e))
                           e (or_intror H)))).
  - exact (proj1 (proj2 (proj2 (fetchData_all_or_nothing s
                                  (ok [Sample.rampur; Sample.shyampur])
                                  (ok [Sample.raj; Sample.priya]))
                           _ _ eq_refl eq_refl))).
Defined.

(** C3.  A failed update leaves the citizens cache as it was, and the
    cache changes only when the calls were acknowledged.  The error is
    reported where it is caught and handed on to nobody: the form, whose
    own update call comes first, shows its message and does not call
    [onUpdate]; [handleUpdateCitizen] writes a failure of its own call
    to the console and returns as after a success, so that the form
    which called it reports the update as done. *)
Theorem failed_update_leaves_cache (s : App.State)
        (initialData : CitizenRegistry.PartialForm)
        (data : CitizenRegistry.CitizenFormValues)
        (updatedCitizen : Citizen.t)
        (registryResp homeResp : Response unit) :
  truthy (CitizenRegistry.or_default Undefined
            (CitizenRegistry.aadhar_number initialData)) = true ->
  CitizenRegistry.citizenFormSchema
    (CitizenRegistry.values (App.registry s)) = inr data ->
  let returned :=
    fst (Home.handleUpdateCitizen (App.home s) updatedCitizen homeResp
           (start (App.home s))) in
  let direct :=
    exec (Home.handleUpdateCitizen (App.home s) updatedCitizen homeResp)
         (App.home s) in
  let out := exec (App.submitCitizen s initialData registryResp homeResp) s in
  let label := "Error updating citizen:" in
  let success :=
    mkToast "Success" "Citizen record has been updated successfully."
            "default" in
  (forall e, error homeResp = Some e ->
             st direct = App.home s
             /\ console direct = [(label, Thrown e)]
             /\ toasts direct = []
             /\ returned = inr tt)
  /\ (forall e, error registryResp = Some e ->
                App.home (st out) = App.home s
                /\ CitizenRegistry.error (App.registry (st out))
                   = Some (message e)
                /\ console out = []
                /\ toasts out = [])
  /\ (forall e, error registryResp = None -> error homeResp = Some e ->
                App.home (st out) = App.home s
                /\ console out = [(label, Thrown e)]
                /\ CitizenRegistry.error (App.registry (st out)) = None
                /\ toasts out = [success])
  /\ (error registryResp = None -> error homeResp = None ->
      Home.citizens (App.home (st out))
      = map (fun citizen =>
               if String.eqb (Citizen.aadhar_number citizen)
                    (CitizenRegistry.aadhar_number data)
               then CitizenRegistry.citizenData data else citizen)
            (Home.citizens (App.home s))).
Proof.
  intros Hedit Hvalid returned direct out label success.
  subst returned direct out label success.
  unfold exec, App.submitCitizen, CitizenRegistry.onSubmit.
  rewrite Hvalid.
  unfold CitizenRegistry.handleSubmit, Home.handleUpdateCitizen,
    CitizenRegistry.throw_new_error_if, CitizenRegistry.call,
    App.in_home, finally, try_catch, bind, throw_if.
  rewrite Hedit.
  split; [|split; [|split]].
  - intros e ->. cbn. split; [now destruct (App.home s)|].
    split; [reflexivity|]. split; reflexivity.
  - intros e ->. cbn. split; [reflexivity|].
    split; [reflexivity|]. split; reflexivity.
  - intros e -> ->. cbn. split; [now destruct s as [[] ? ?]|].
    split; [reflexivity|]. split; reflexivity.
  - intros -> ->. reflexivity.
Qed.

(** Priya's edit is submitted while the store is unreachable: the cache
    still holds her old record and the form shows the message. *)
Lemma failed_update_leaves_cache_witness :
  let s := Sample.editing_priya in
  let out :=
    exec (App.submitCitizen s Sample.priya_initialData
            (failed Sample.connection_lost) (ok tt)) s in
  truthy (CitizenRegistry.or_default Undefined
            (CitizenRegistry.aadhar_number Sample.priya_initialData)) = true
  /\ CitizenRegistry.citizenFormSchema
       (CitizenRegistry.values (App.registry s)) = inr Sample.priya_edited
  /\ error (@failed unit Sample.connection_lost)
     = Some Sample.connection_lost
  /\ Home.citizens (App.home (st out))
     = [Sample.raj; Sample.priya; Sample.amit]
  /\ CitizenRegistry.error (App.registry (st out)) = Some "connection lost".
Proof.
  intros s out.
  assert (Hedit :
            truthy (CitizenRegistry.or_default Undefined
                      (CitizenRegistry.aadhar_number Sample.priya_initialData))
            = true) by reflexivity.
  assert (Hvalid :
            CitizenRegistry.citizenFormSchema
              (CitizenRegistry.values (App.registry s))
            = inr Sample.priya_edited) by reflexivity.
  assert (Herr : error (@failed unit Sample.connection_lost)
                 = Some Sample.connection_lost) by reflexivity.
  destruct (failed_update_leaves_cache s Sample.priya_initialData
              Sample.priya_edited Sample.priya
              (failed Sample.connection_lost) (ok tt) Hedit Hvalid)
    as (_ & Hfail & _).
  destruct (Hfail Sample.connection_lost Herr) as (Hhome & Herror & _).
  split; [exact Hedit|]. split; [exact Hvalid|]. split; [exact Herr|].
  split; [|exact Herror].
  exact (f_equal Home.citizens Hhome).
Defined.

(** Priya's edit once more, the form's own update acknowledged and the
    update issued by [handleUpdateCitizen] refused: the handler returns
    as after a success, the form shows no error and reports the update
    as done; the refusal is on the console only. *)
Lemma failed_update_not_surfaced :
  let s := Sample.editing_priya in
  let e := Sample.connection_lost in
  let returned :=
    fst (Home.handleUpdateCitizen (App.home s)
           (CitizenRegistry.citizenData Sample.priya_edited) (failed e)
           (start (App.home s))) in
  let out :=
    exec (App.submitCitizen s Sample.priya_initialData (ok tt) (failed e))
         s in
  error (@failed unit e) = Some e
  /\ returned = inr tt
  /\ returned <> inl (Thrown e)
  /\ CitizenRegistry.error (App.registry (st out)) = None
  /\ toasts out
     = [mkToast "Success" "Citizen record has been updated successfully."
                "default"]
  /\ console out = [("Error updating citizen:", Thrown e)]
  /\ Home.citizens (App.home (st out))
     = [Sample.raj; Sample.priya; Sample.amit].
Proof.
  cbv zeta.
  split; [reflexivity|]. split; [reflexivity|]. split; [discriminate|].
  split; [reflexivity|]. split; [reflexivity|]. split; reflexivity.
Qed.

(** ** CitizenRegistry: the form schema *)

Section SchemaFacts.
Import Zod CitizenRegistry.

Lemma ap_inr {A B} (f : Parsed (A -> B)) (a : Parsed A) (b : B) :
  ap f a = inr b -> exists g x, f = inr g /\ a = inr x /\ b = g x.
Proof.
  destruct f as [i|g], a as [j|x]; cbn; try discriminate.
  intros [= <-]. now exists g, x.
Qed.

Lemma string_inr re checks p v s :
  string_ re checks p v = inr s ->
  v = Str s /\ flat_map (run_check p s) checks = [].
Proof.
  destruct v as [| |t|n]; cbn; try discriminate.
  destruct (flat_map (run_check p t) checks) eqn:E; [|discriminate].
  intros [= <-]. now split.
Qed.

Lemma min_passes p s n m :
  flat_map (run_check p s) [Min n m] = [] -> (n <= String.length s)%nat.
Proof.
  unfold flat_map, run_check.
  destruct (Nat.ltb_spec (String.length s) n); [discriminate|].
  intros _. assumption.
Qed.

(** Every field of a form that passed the schema, in key order. *)
Lemma schema_fields (raw : RawForm) (data : CitizenFormValues) :
  citizenFormSchema raw = inr data ->
  father_name raw = Str (father_name data)
  /\ mother_name raw = Str (mother_name data)
  /\ (2 <= String.length (father_name data))%nat
  /\ (2 <= String.length (mother_name data))%nat.
Proof.
  unfold citizenFormSchema. intros H.
  repeat match type of H with
         | ap _ _ = inr _ =>
             let g := fresh "g" in
             let x := fresh "x" in
             let Hg := fresh "Hg" in
             let Hx := fresh "Hx" in
             apply ap_inr in H as (g & x & H & Hx & Hg)
         end.
  injection H as <-. subst. cbn.
  repeat match goal with
         | Hx : string_ _ _ _ _ = inr _ |- _ =>
             apply string_inr in Hx as [? ?]
         end.
  repeat split; try assumption; eapply min_passes; eassumption.
Qed.

End SchemaFacts.

Section ValidityFacts.
Import Zod CitizenRegistry.

Lemma passes_ap {A B} (f : Parsed (A -> B)) (a : Parsed A) :
  passes (ap f a) = passes f && passes a.
Proof. now destruct f, a. Qed.

(** A form is valid when each of its fifteen fields is. *)
Lemma valid_fields (raw : RawForm) :
  valid raw
  = passes (string_ None
              [Length 12 "Aadhar number must be exactly 12 digits";
               Regex digits_only "Aadhar number must contain only digits"]
              "aadhar_number" (aadhar_number raw))
    && passes (string_ (Some "Please select a village") []
                 "village_id" (village_id raw))
    && passes (string_ None [Min 2 "Name must be at least 2 characters"]
                 "name" (name raw))
    && passes (string_ None [] "dob" (dob raw))
    && passes (string_ None [Regex digits_only "Age must be a number"]
                 "age" (age raw))
    && passes (enum ["male"; "female"; "other"] "gender" (gender raw))
    && passes (string_ None
                 [Min 5 "Address must be at least 5 characters"]
                 "address" (address raw))
    && passes (enum ["single"; "married"; "divorced"; "widowed"]
                 "marital_status" (marital_status raw))
    && passes (string_ None
                 [Min 2 "Father's name must be at least 2 characters"]
                 "father_name" (father_name raw))
    && passes (string_ None
                 [Min 2 "Mother's name must be at least 2 characters"]
                 "mother_name" (mother_name raw))
    && passes (optional (string_ None []) "spouse_name" (spouse_name raw))
    && passes (enum ["alive"; "dead"] "status" (status raw))
    && passes (string_ None [] "education" (education raw))
    && passes (string_ None [] "occupation" (occupation raw))
    && passes (optional (string_ None []) "remarks" (remarks raw)).
Proof.
  unfold valid, citizenFormSchema. now rewrite !passes_ap.
Qed.

Lemma optional_empty_passes p (v : value) :
  v = Undefined \/ v = Str "" ->
  passes (optional (string_ None []) p v) = true.
Proof. now intros [-> | ->]. Qed.

Lemma issues_ap {A B} (f : Parsed (A -> B)) (a : Parsed A) :
  issues (ap f a) = (issues f ++ issues a)%list.
Proof. destruct f, a; cbn; now rewrite ?app_nil_r. Qed.

Lemma short_name_fails p m (v : value) :
  v = Undefined \/ v = Str "" ->
  passes (string_ None [Min 2 m] p v) = false.
Proof. now intros [-> | ->]. Qed.

End ValidityFacts.

(** A form that does not pass the schema goes no further than the
    resolver: its issues are shown at the fields, and the handler that
    talks to the store is not called, whatever the props. *)
Lemma rejected_form_is_not_submitted (s : App.State)
      (initialData : CitizenRegistry.PartialForm)
      (registryResp homeResp : Response unit) :
  CitizenRegistry.valid (CitizenRegistry.values (App.registry s)) = false ->
  exec (App.submitCitizen s initialData registryResp homeResp) s
  = mkEnv
      (App.setRegistry
         (CitizenRegistry.mkState
            (CitizenRegistry.isSubmitting (App.registry s))
            (CitizenRegistry.error (App.registry s))
            (CitizenRegistry.activeTab (App.registry s))
            (CitizenRegistry.values (App.registry s))
            (Zod.issues
               (CitizenRegistry.citizenFormSchema
                  (CitizenRegistry.values (App.registry s)))))
         s)
      [] [].
Proof.
  unfold CitizenRegistry.valid, exec, App.submitCitizen,
    CitizenRegistry.onSubmit.
  destruct (CitizenRegistry.citizenFormSchema
              (CitizenRegistry.values (App.registry s))) as [i|data];
    [reflexivity|discriminate].
Qed.

(** An empty or absent parent's name is reported at its field. *)
Lemma empty_parent_issue (raw : CitizenRegistry.RawForm)
      (father mother : value) :
  (father = Undefined \/ father = Str "")
  \/ (mother = Undefined \/ mother = Str "") ->
  exists i,
    In i (Zod.issues
            (CitizenRegistry.citizenFormSchema
               (CitizenRegistry.set_parents father mother raw)))
    /\ (Zod.path i = "father_name" \/ Zod.path i = "mother_name").
Proof.
  intros H. unfold CitizenRegistry.citizenFormSchema.
  cbn [CitizenRegistry.set_parents CitizenRegistry.father_name
       CitizenRegistry.mother_name].
  destruct H as [[-> | ->] | [-> | ->]]; eexists;
    (split; [rewrite !issues_ap, !in_app_iff|]).
  - do 6 left. right. cbn. left. reflexivity.
  - now left.
  - do 6 left. right. cbn. left. reflexivity.
  - now left.
  - do 5 left. right. cbn. left. reflexivity.
  - now right.
  - do 5 left. right. cbn. left. reflexivity.
  - now right.
Qed.

(** C8.  In the citizen form spouse name and remarks are optional, and
    father name and mother name are not: a form that passes validation
    has a father name and a mother name of at least two characters,
    it still passes when spouse name and remarks are emptied or absent,
    and it is rejected when the father name or the mother name is
    emptied or absent.  Submitting the rejected form, to create or to
    update, shows an issue at the parent's field and does nothing else:
    the caches, the typed values and the form's state stay, nothing is
    reported, and the outcome is the same whatever the store would
    answer, for the store is not asked. *)
Theorem parents_required_spouse_optional
        (raw : CitizenRegistry.RawForm)
        (data : CitizenRegistry.CitizenFormValues) :
  CitizenRegistry.citizenFormSchema raw = inr data ->
  (CitizenRegistry.father_name raw = Str (CitizenRegistry.father_name data)
   /\ CitizenRegistry.mother_name raw = Str (CitizenRegistry.mother_name data)
   /\ (2 <= String.length (CitizenRegistry.father_name data))%nat
   /\ (2 <= String.length (CitizenRegistry.mother_name data))%nat)
  /\ (forall spouse rem,
         spouse = Undefined \/ spouse = Str "" ->
         rem = Undefined \/ rem = Str "" ->
         CitizenRegistry.valid (CitizenRegistry.set_optional spouse rem raw)
         = true)
  /\ (forall father mother,
         (father = Undefined \/ father = Str "")
         \/ (mother = Undefined \/ mother = Str "") ->
         CitizenRegistry.valid (CitizenRegistry.set_parents father mother raw)
         = false)
  /\ (forall father mother (s : App.State)
             (initialData : CitizenRegistry.PartialForm)
             (registryResp homeResp : Response unit),
         (father = Undefined \/ father = Str "")
         \/ (mother = Undefined \/ mother = Str "") ->
         CitizenRegistry.values (App.registry s)
         = CitizenRegistry.set_parents father mother raw ->
         let out :=
           exec (App.submitCitizen s initialData registryResp homeResp) s in
         let form := App.registry (st out) in
         App.home (st out) = App.home s
         /\ App.management (st out) = App.management s
         /\ toasts out = [] /\ console out = []
         /\ CitizenRegistry.values form
            = CitizenRegistry.values (App.registry s)
         /\ CitizenRegistry.isSubmitting form
            = CitizenRegistry.isSubmitting (App.registry s)
         /\ CitizenRegistry.error form
            = CitizenRegistry.error (App.registry s)
         /\ CitizenRegistry.fieldErrors form
            = Zod.issues
                (CitizenRegistry.citizenFormSchema
                   (CitizenRegistry.set_parents father mother raw))
         /\ (exists i, In i (CitizenRegistry.fieldErrors form)
                       /\ (Zod.path i = "father_name"
                           \/ Zod.path i = "mother_name"))
         /\ (forall registryResp' homeResp',
                exec (App.submitCitizen s initialData registryResp'
                        homeResp') s = out)).
Proof.
  intros H. split; [now apply schema_fields|].
  assert (Hv : CitizenRegistry.valid raw = true)
    by (unfold CitizenRegistry.valid; now rewrite H).
  rewrite valid_fields in Hv. rewrite !andb_true_iff in Hv.
  destruct Hv as [[[[[[[[[[[[[[H1 H2] H3] H4] H5] H6] H7] H8] H9] H10]
                        H11] H12] H13] H14] H15].
  assert (Hrejected :
            forall father mother,
              (father = Undefined \/ father = Str "")
              \/ (mother = Undefined \/ mother = Str "") ->
              CitizenRegistry.valid
                (CitizenRegistry.set_parents father mother raw) = false).
  { intros father mother Hfm. rewrite valid_fields.
    cbn [CitizenRegistry.set_parents CitizenRegistry.aadhar_number
         CitizenRegistry.village_id CitizenRegistry.name CitizenRegistry.dob
         CitizenRegistry.age CitizenRegistry.gender CitizenRegistry.address
         CitizenRegistry.marital_status CitizenRegistry.father_name
         CitizenRegistry.mother_name CitizenRegistry.spouse_name
         CitizenRegistry.status CitizenRegistry.education
         CitizenRegistry.occupation CitizenRegistry.remarks].
    rewrite H1, H2, H3, H4, H5, H6, H7, H8, H11, H12, H13, H14, H15.
    destruct Hfm as [Hf | Hm].
    + now rewrite (short_name_fails _ _ _ Hf).
    + rewrite (short_name_fails _ _ _ Hm). cbn. now rewrite andb_false_r. }
  split; [|split; [exact Hrejected|]].
  - intros spouse rem Hs Hr. rewrite valid_fields.
    cbn [CitizenRegistry.set_optional CitizenRegistry.aadhar_number
         CitizenRegistry.village_id CitizenRegistry.name CitizenRegistry.dob
         CitizenRegistry.age CitizenRegistry.gender CitizenRegistry.address
         CitizenRegistry.marital_status CitizenRegistry.father_name
         CitizenRegistry.mother_name CitizenRegistry.spouse_name
         CitizenRegistry.status CitizenRegistry.education
         CitizenRegistry.occupation CitizenRegistry.remarks].
    rewrite H1, H2, H3, H4, H5, H6, H7, H8, H9, H10, H12, H13, H14.
    now rewrite !optional_empty_passes.
  - intros father mother s initialData registryResp homeResp Hfm Hvals
           out form.
    assert (Hinvalid :
              CitizenRegistry.valid (CitizenRegistry.values (App.registry s))
              = false)
      by (rewrite Hvals; now apply Hrejected).
    assert (Hout : forall r1 r2,
               exec (App.submitCitizen s initialData r1 r2) s = out).
    { intros r1 r2. subst out.
      now rewrite !(rejected_form_is_not_submitted s initialData _ _
                      Hinvalid). }
    subst form out.
    rewrite (rejected_form_is_not_submitted s initialData registryResp
               homeResp Hinvalid) in *.
    cbn [st toasts console App.setRegistry App.home App.management
         App.registry CitizenRegistry.values CitizenRegistry.isSubmitting
         CitizenRegistry.error CitizenRegistry.fieldErrors].
    rewrite Hvals.
    split; [reflexivity|]. split; [reflexivity|].
    split; [reflexivity|]. split; [reflexivity|].
    split; [reflexivity|]. split; [reflexivity|].
    split; [reflexivity|]. split; [reflexivity|].
    split; [now apply empty_parent_issue|].
    intros r1 r2. rewrite (Hout r1 r2). now rewrite Hvals.
Qed.

(** The filled-in form for a new resident, and what becomes of it when
    the optional fields are absent or the parents' names are blank;
    submitted with blank names as an update, it leaves the cache alone
    and reports nothing. *)
Lemma parents_required_spouse_optional_witness :
  let blank_parents :=
    CitizenRegistry.set_parents (Str "") (Str "") Sample.new_citizen_form in
  let s := Sample.registering blank_parents in
  let out :=
    exec (App.submitCitizen s Sample.priya_initialData (ok tt) (ok tt)) s in
  CitizenRegistry.citizenFormSchema Sample.new_citizen_form
  = inr Sample.new_citizen_data
  /\ CitizenRegistry.valid
       (CitizenRegistry.set_optional Undefined Undefined
          Sample.new_citizen_form) = true
  /\ CitizenRegistry.valid blank_parents = false
  /\ Home.citizens (App.home (st out))
     = [Sample.raj; Sample.priya; Sample.amit]
  /\ toasts out = [].
Proof.
  intros blank_parents s out.
  assert (H : CitizenRegistry.citizenFormSchema Sample.new_citizen_form
              = inr Sample.new_citizen_data) by reflexivity.
  assert (Hblank : (Str "" = Undefined \/ Str "" = Str "")
                   \/ (Str "" = Undefined \/ Str "" = Str ""))
    by (left; right; reflexivity).
  destruct (parents_required_spouse_optional Sample.new_citizen_form
              Sample.new_citizen_data H) as (_ & Hopt & Hpar & Hsubmit).
  destruct (Hsubmit (Str "") (Str "") s Sample.priya_initialData
              (ok tt) (ok tt) Hblank eq_refl)
    as (Hhome & _ & Htoasts & _).
  split; [exact H|]. split; [apply Hopt; left; reflexivity|].
  split; [exact (Hpar (Str "") (Str "") Hblank)|].
  split; [exact (f_equal Home.citizens Hhome)|exact Htoasts].
Defined.

(** The form of C8 with the parents' names left empty: it would pass
    with the names filled in, and as it is the schema rejects it with
    the two messages; submitting it reaches neither the store nor the
    cache. *)
Lemma empty_parents_rejected :
  let raw :=
    CitizenRegistry.set_parents (Str "") (Str "") Sample.new_citizen_form in
  let s := Sample.registering raw in
  let out :=
    exec (App.submitCitizen s CitizenRegistry.no_initialData (ok tt) (ok tt))
         s in
  CitizenRegistry.valid Sample.new_citizen_form = true
  /\ CitizenRegistry.father_name raw = Str ""
  /\ CitizenRegistry.mother_name raw = Str ""
  /\ CitizenRegistry.valid raw = false
  /\ Zod.issues (CitizenRegistry.citizenFormSchema raw)
     = [Zod.mkIssue "father_name" Zod.too_small
          (Some "Father's name must be at least 2 characters");
        Zod.mkIssue "mother_name" Zod.too_small
          (Some "Mother's name must be at least 2 characters")]
  /\ App.home (st out) = App.home s
  /\ toasts out = []
  /\ CitizenRegistry.fieldErrors (App.registry (st out))
     = Zod.issues (CitizenRegistry.citizenFormSchema raw).
Proof. cbv zeta. repeat split. Qed.

(** C9.  There is a form, valid in every other field, whose village
    selection is still the default empty string and which passes the
    schema; the citizen built from it has [village_id = parseInt("")],
    which is [NaN] and equal to no village key.  The "Please select a
    village" issue is raised for that field only when the value is
    absent. *)
Theorem empty_village_passes :
  exists (raw : CitizenRegistry.RawForm)
         (data : CitizenRegistry.CitizenFormValues),
    CitizenRegistry.village_id raw
    = CitizenRegistry.village_id
        (CitizenRegistry.defaultValues CitizenRegistry.no_initialData)
    /\ CitizenRegistry.village_id raw = Str ""
    /\ CitizenRegistry.valid (CitizenRegistry.set_village_id (Str "1") raw)
       = true
    /\ CitizenRegistry.citizenFormSchema raw = inr data
    /\ Citizen.village_id (CitizenRegistry.citizenData data) = parseInt ""
    /\ parseInt "" = NaN
    /\ (forall key : Z,
           strict_eq (Citizen.village_id (CitizenRegistry.citizenData data))
                     (Num key) = false)
    /\ (forall v : value,
           In (Zod.mkIssue "village_id" Zod.invalid_type
                 (Some "Please select a village"))
              (Zod.issues
                 (CitizenRegistry.citizenFormSchema
                    (CitizenRegistry.set_village_id v raw)))
           <-> v = Undefined).
Proof.
  exists (CitizenRegistry.set_village_id (Str "") Sample.new_citizen_form).
  eexists.
  split; [reflexivity|]. split; [reflexivity|]. split; [reflexivity|].
  split; [reflexivity|]. split; [reflexivity|]. split; [reflexivity|].
  split; [reflexivity|].
  intros v. destruct v as [| |t|n]; cbn.
  - split; [reflexivity|]. intros _. left. reflexivity.
  - split; [|discriminate]. intros [H|[]]. discriminate.
  - split; [|discriminate]. intros [].
  - split; [|discriminate]. intros [H|[]]. discriminate.
Qed.

(** Submitted with both store calls acknowledged, that form puts a
    citizen without a village at the end of the cache. *)
Lemma empty_village_reaches_cache :
  let raw := CitizenRegistry.set_village_id (Str "") Sample.new_citizen_form in
  let s := Sample.registering raw in
  let out :=
    exec (App.submitCitizen s CitizenRegistry.no_initialData (ok tt) (ok tt))
         s in
  map Citizen.village_id (Home.citizens (App.home (st out)))
  = [Num 1; Num 2; Num 3; NaN]
  /\ CitizenRegistry.fieldErrors (App.registry (st out)) = [].
Proof. cbv zeta. split; reflexivity. Qed.

(** * Further properties of the components *)

(** ** CitizenTable: sorting, the strip and the footer *)

Section SortDirections.
Context {A : Type}.

Lemma StronglySorted_snoc (R : A -> A -> Prop) (l : list A) (x : A) :
  StronglySorted R l -> Forall (fun y => R y x) l ->
  StronglySorted R (l ++ [x]).
Proof.
  intros Hs Hx. induction Hs as [|a l Hs IH Ha]; cbn.
  - constructor; constructor.
  - inversion Hx as [|? ? Rax Hx']; subst.
    constructor; [now apply IH|].
    apply Forall_app. split; [exact Ha|]. now constructor.
Qed.

Lemma StronglySorted_rev (R : A -> A -> Prop) (l : list A) :
  StronglySorted R l -> StronglySorted (fun a b => R b a) (rev l).
Proof.
  intros Hs. induction Hs as [|a l Hs IH Ha]; cbn; [constructor|].
  apply StronglySorted_snoc; [exact IH|]. now apply Forall_rev.
Qed.

Lemma rev_short (l : list A) : (List.length l <= 1)%nat -> rev l = l.
Proof. destruct l as [|a [|b l]]; cbn; [reflexivity..|lia]. Qed.

Lemma equiv_flip (cmp : A -> A -> number) (x y : A) :
  JS.equiv (fun a b => cmp b a) x y = JS.equiv cmp x y.
Proof. unfold JS.equiv. apply andb_comm. Qed.

End SortDirections.

Lemma compareCitizens_desc (localeCompare : string -> string -> Z)
      (field : CitizenTable.SortField) (a b : Citizen.t) :
  CitizenTable.compareCitizens localeCompare field CitizenTable.Desc a b
  = CitizenTable.compareCitizens localeCompare field CitizenTable.Asc b a.
Proof. now destruct field. Qed.

(** X1.  Sorting only rearranges: the sorted sequence is a permutation
    of the filtered one, so neither the sort field, the direction nor
    the page index changes the number of pages. *)
Theorem sorting_only_rearranges (toLowerCase : string -> string)
        (localeCompare : string -> string -> Z)
        (citizens : list Citizen.t) (st : CitizenTable.State) :
  Permutation
    (CitizenTable.sortedCitizens toLowerCase localeCompare citizens st)
    (CitizenTable.filteredCitizens toLowerCase citizens st)
  /\ (forall field order p,
         CitizenTable.totalPages toLowerCase localeCompare citizens
           (CitizenTable.mkState (CitizenTable.searchTerm st) p
              (CitizenTable.searchType st) field order)
         = CitizenTable.totalPages toLowerCase localeCompare citizens st).
Proof.
  split; [apply sort_perm|].
  intros field order p. now rewrite !pageCount_filtered.
Qed.

(** X2.  When no two listed citizens compare as equal, the descending
    sequence is the ascending one reversed (with ties it is not: equal
    keys keep their order in both directions). *)
Theorem descending_reverses_ascending (toLowerCase : string -> string)
        (localeCompare : string -> string -> Z)
        (citizens : list Citizen.t) (st : CitizenTable.State) :
  (forall s t, localeCompare s t <= 0 \/ localeCompare t s <= 0) ->
  (forall s t u, localeCompare s t <= 0 -> localeCompare t u <= 0 ->
                 localeCompare s u <= 0) ->
  Forall (fun c => Citizen.age c <> NaN) citizens ->
  (forall x,
      Citizen.age x <> NaN ->
      (List.length
         (filter (JS.equiv (CitizenTable.compareCitizens localeCompare
                              (CitizenTable.sortField st) CitizenTable.Asc) x)
                 (CitizenTable.filteredCitizens toLowerCase citizens st))
       <= 1)%nat) ->
  CitizenTable.sortedCitizens toLowerCase localeCompare citizens
    (TableFooter.setSortOrder CitizenTable.Desc st)
  = rev (CitizenTable.sortedCitizens toLowerCase localeCompare citizens
           (TableFooter.setSortOrder CitizenTable.Asc st)).
Proof.
  intros Htot Htrans Hage Hties.
  unfold CitizenTable.sortedCitizens.
  change (CitizenTable.filteredCitizens toLowerCase citizens
            (TableFooter.setSortOrder CitizenTable.Desc st))
    with (CitizenTable.filteredCitizens toLowerCase citizens st).
  change (CitizenTable.filteredCitizens toLowerCase citizens
            (TableFooter.setSortOrder CitizenTable.Asc st))
    with (CitizenTable.filteredCitizens toLowerCase citizens st).
  cbn [TableFooter.setSortOrder CitizenTable.sortField
       CitizenTable.sortOrder].
  set (F := CitizenTable.filteredCitizens toLowerCase citizens st).
  set (f := CitizenTable.sortField st) in *.
  set (up := CitizenTable.compareCitizens localeCompare f CitizenTable.Asc)
    in *.
  set (down := CitizenTable.compareCitizens localeCompare f
                 CitizenTable.Desc).
  set (dom := fun c : Citizen.t => Citizen.age c <> NaN) in *.
  assert (HF : Forall dom F).
  { unfold F, CitizenTable.filteredCitizens. rewrite Forall_forall in *.
    intros x Hx. apply filter_In in Hx. now apply Hage. }
  assert (Hup : Forall dom (sort up F))
    by now apply (Permutation_Forall (Permutation_sym (sort_perm up F))).
  assert (Hdown : Forall dom (sort down F))
    by now apply (Permutation_Forall (Permutation_sym (sort_perm down F))).
  apply (stable_sorted_unique down dom).
  - intros a b. apply (compareCitizens_total localeCompare Htot).
  - exact Hdown.
  - now apply Forall_rev.
  - apply (sort_sorted down dom); auto.
    + intros a b. apply (compareCitizens_total localeCompare Htot).
    + intros a b c.
      apply (compareCitizens_trans localeCompare Htrans).
  - assert (Hs : StronglySorted (fun a b => before (up a b) = true)
                   (sort up F)).
    { apply (sort_sorted up dom); auto.
      - intros a b. apply (compareCitizens_total localeCompare Htot).
      - intros a b c.
        apply (compareCitizens_trans localeCompare Htrans). }
    apply StronglySorted_rev in Hs.
    eapply StronglySorted_ind with (P := StronglySorted _); eauto.
    + constructor.
    + intros a l Hl IH Ha. constructor; [exact IH|].
      rewrite Forall_forall in *. intros y Hy.
      unfold down. rewrite compareCitizens_desc. now apply Ha.
  - intros x Hx.
    assert (Hext : forall y, JS.equiv down x y = JS.equiv up x y).
    { intros y. unfold JS.equiv, down, up.
      rewrite !compareCitizens_desc. apply andb_comm. }
    rewrite (sort_stable down dom); auto;
      [|intros a b c; apply (compareCitizens_trans localeCompare Htrans)].
    rewrite filter_rev, !(filter_ext _ _ Hext).
    rewrite (sort_stable up dom); auto;
      [|intros a b c; apply (compareCitizens_trans localeCompare Htrans)].
    symmetry. apply rev_short. now apply Hties.
Qed.

Lemma age_equiv (localeCompare : string -> string -> Z)
      (x c : Citizen.t) (a b : Z) :
  Citizen.age x = Num a -> Citizen.age c = Num b ->
  JS.equiv (CitizenTable.compareCitizens localeCompare CitizenTable.SortAge
              CitizenTable.Asc) x c
  = (a =? b).
Proof.
  intros Ea Eb. unfold JS.equiv, CitizenTable.compareCitizens.
  rewrite Ea, Eb. unfold sub, before.
  destruct (Z.leb_spec (a - b) 0), (Z.leb_spec (b - a) 0),
    (Z.eqb_spec a b); cbn [andb]; try reflexivity; lia.
Qed.

(** The three seed citizens have different ages: by age, descending is
    ascending reversed. *)
Lemma descending_reverses_ascending_witness :
  let st := CitizenTable.mkState "" 1 CitizenTable.ByName
              CitizenTable.SortAge CitizenTable.Asc in
  let citizens := [Sample.raj; Sample.priya; Sample.amit] in
  Forall (fun c => Citizen.age c <> NaN) citizens
  /\ map Citizen.age
         (CitizenTable.sortedCitizens Sample.toLowerCase Sample.localeCompare
            citizens (TableFooter.setSortOrder CitizenTable.Desc st))
     = rev [Num 28; Num 33; Num 38].
Proof.
  intros st citizens.
  assert (Hage : Forall (fun c => Citizen.age c <> NaN) citizens)
    by (repeat constructor; discriminate).
  split; [exact Hage|].
  rewrite (descending_reverses_ascending Sample.toLowerCase
             Sample.localeCompare citizens st
             Sample_localeCompare_total Sample_localeCompare_trans Hage).
  - reflexivity.
  - intros x Hx. destruct (Citizen.age x) as [|a] eqn:Ea; [congruence|].
    change (CitizenTable.filteredCitizens Sample.toLowerCase citizens st)
      with [Sample.raj; Sample.priya; Sample.amit].
    cbn [CitizenTable.sortField st filter].
    rewrite (age_equiv _ x Sample.raj a 38 Ea eq_refl),
      (age_equiv _ x Sample.priya a 33 Ea eq_refl),
      (age_equiv _ x Sample.amit a 28 Ea eq_refl).
    destruct (Z.eqb_spec a 38), (Z.eqb_spec a 33), (Z.eqb_spec a 28);
      cbn [List.length]; lia.
Defined.

Lemma push_range_last_four (T : Z) :
  CitizenTable.push_range (T - 3) T
  = [CitizenTable.Page (T - 3); CitizenTable.Page (T - 2);
     CitizenTable.Page (T - 1); CitizenTable.Page T].
Proof.
  unfold CitizenTable.push_range.
  replace (T - (T - 3) + 1) with 4 by lia.
  change (Z.to_nat 4) with 4%nat. cbn [seq map].
  repeat (apply (f_equal2 (@cons _));
          [first [reflexivity | apply f_equal; lia]|]).
  reflexivity.
Qed.

Lemma push_range_In (lo hi p : Z) :
  In (CitizenTable.Page p) (CitizenTable.push_range lo hi) <->
  lo <= p <= hi.
Proof.
  unfold CitizenTable.push_range. rewrite in_map_iff. split.
  - intros (k & [= <-] & Hk). apply in_seq in Hk. lia.
  - intros H. exists (Z.to_nat (p - lo)). split; [f_equal; lia|].
    apply in_seq. lia.
Qed.

Lemma push_range_length (lo hi : Z) :
  List.length (CitizenTable.push_range lo hi) = Z.to_nat (hi - lo + 1).
Proof.
  unfold CitizenTable.push_range. now rewrite length_map, length_seq.
Qed.

(** The strip shows only pages that exist. *)
Lemma strip_pages_exist (T C p : Z) :
  1 <= T -> 1 <= C <= T ->
  In (CitizenTable.Page p) (CitizenTable.getPageNumbers T C) ->
  1 <= p <= T.
Proof.
  intros HT HC. unfold CitizenTable.getPageNumbers,
    CitizenTable.maxVisiblePages.
  destruct (Z.leb_spec T 5).
  - now rewrite push_range_In.
  - destruct (Z.leb_spec C 3).
    + rewrite in_app_iff, push_range_In. cbn [In].
      intros [Hin|[Hin|[Hin|[]]]]; [lia|discriminate|injection Hin; lia].
    + destruct (Z.geb_spec C (T - 2)).
      * rewrite in_app_iff, push_range_In. cbn [In].
        intros [[Hin|[Hin|[]]]|Hin]; [injection Hin; lia|discriminate|lia].
      * cbn [In].
        intros [Hin|[Hin|[Hin|[Hin|[Hin|[Hin|[Hin|[]]]]]]]];
          first [discriminate | injection Hin; lia].
Qed.

(** X3.  For a page index inside [1 .. T] the strip of page numbers
    starts with page 1, ends with page [T], contains the current page,
    shows only pages of [1 .. T] and has at most seven entries. *)
Theorem strip_shows_current_page (T C : Z) :
  1 <= T -> 1 <= C <= T ->
  let pages := CitizenTable.getPageNumbers T C in
  In (CitizenTable.Page C) pages
  /\ hd_error pages = Some (CitizenTable.Page 1)
  /\ last pages CitizenTable.Ellipsis = CitizenTable.Page T
  /\ (forall p, In (CitizenTable.Page p) pages -> 1 <= p <= T)
  /\ (List.length pages <= 7)%nat.
Proof.
  intros HT HC pages.
  split; [|split; [|split; [|split]]];
    try (intros p; now apply strip_pages_exist).
  all: subst pages;
    unfold CitizenTable.getPageNumbers, CitizenTable.maxVisiblePages.
  all: destruct (Z.leb_spec T 5) as [H5|H5].
  all: try (assert (HT5 : T = 1 \/ T = 2 \/ T = 3 \/ T = 4 \/ T = 5) by lia).
  - now apply push_range_In.
  - destruct (Z.leb_spec C 3).
    + apply in_app_iff. left. apply push_range_In. lia.
    + destruct (Z.geb_spec C (T - 2)).
      * apply in_app_iff. right. apply push_range_In. lia.
      * cbn [In]. auto 6.
  - destruct HT5 as [->|[->|[->|[->| ->]]]]; reflexivity.
  - destruct (Z.leb_spec C 3); [reflexivity|].
    destruct (Z.geb_spec C (T - 2)); reflexivity.
  - destruct HT5 as [->|[->|[->|[->| ->]]]]; reflexivity.
  - destruct (Z.leb_spec C 3); [reflexivity|].
    destruct (Z.geb_spec C (T - 2)); [|reflexivity].
    now rewrite push_range_last_four.
  - rewrite push_range_length. lia.
  - destruct (Z.leb_spec C 3).
    + rewrite length_app, push_range_length. cbn. lia.
    + destruct (Z.geb_spec C (T - 2)).
      * rewrite length_app, push_range_length. cbn [List.length]. lia.
      * cbn. lia.
Qed.

(** The strip of page 6 of 12. *)
Lemma strip_shows_current_page_witness :
  1 <= 12 /\ 1 <= 6 <= 12
  /\ In (CitizenTable.Page 6) (CitizenTable.getPageNumbers 12 6)
  /\ (List.length (CitizenTable.getPageNumbers 12 6) <= 7)%nat.
Proof.
  assert (H1 : 1 <= 12) by lia.
  assert (H2 : 1 <= 6 <= 12) by lia.
  destruct (strip_shows_current_page 12 6 H1 H2) as (Hin & _ & _ & _ & Hlen).
  split; [exact H1|]. split; [exact H2|]. split; [exact Hin|exact Hlen].
Defined.

Section Navigation.
Import CitizenTable.
Variable toLowerCase : string -> string.
Variable localeCompare : string -> string -> Z.

Local Abbreviation pageCount := (totalPages toLowerCase localeCompare).
Local Abbreviation page := (paginatedCitizens toLowerCase localeCompare).
Local Abbreviation step := (CitizenTable.step toLowerCase localeCompare).

(** Whatever is not typed into the search box or chosen as search mode
    leaves the number of pages as it is. *)
Lemma navigation_keeps_pageCount citizens st e :
  (forall term, e <> TypeSearch term) ->
  (forall t, e <> ChooseSearch t) ->
  pageCount citizens (step citizens st e) = pageCount citizens st.
Proof.
  intros Hterm Htype. rewrite !pageCount_filtered.
  destruct e as [term|t|f| | |p]; cbn [CitizenTable.step].
  - now elim (Hterm term).
  - now elim (Htype t).
  - now destruct (sortField_eqb (sortField st) f).
  - now destruct (1 <? _).
  - now destruct (1 <? _).
  - now destruct (_ && _).
Qed.

Lemma navigation_keeps_page_in_range citizens st e :
  (forall term, e <> TypeSearch term) ->
  (forall t, e <> ChooseSearch t) ->
  1 <= currentPage st <= pageCount citizens st ->
  1 <= currentPage (step citizens st e) <= pageCount citizens st.
Proof.
  intros Hterm Htype Hin.
  destruct e as [term|t|f| | |p].
  - now elim (Hterm term).
  - now elim (Htype t).
  - cbn [CitizenTable.step].
    now destruct (sortField_eqb (sortField st) f).
  - apply previous_next_clamp; auto.
  - apply previous_next_clamp; auto.
  - cbn [CitizenTable.step].
    destruct (1 <? pageCount citizens st); cbn [andb]; [|exact Hin].
    destruct (existsb _ _) eqn:Hp; [|exact Hin].
    cbn [currentPage setCurrentPage].
    apply existsb_exists in Hp as (i & Hi & Hpi).
    destruct i as [q|]; [|discriminate].
    cbn in Hpi. apply Z.eqb_eq in Hpi. subst q.
    apply (strip_pages_exist _ (currentPage st)); auto. lia.
Qed.

End Navigation.

(** X4.  Starting from a page index inside [1 .. pageCount], any
    sequence of clicks on Previous, Next, a page link or a column header
    keeps the index inside it, and the page shown is never empty. *)
Theorem navigation_never_shows_empty_page
        (toLowerCase : string -> string)
        (localeCompare : string -> string -> Z)
        (citizens : list Citizen.t) (st : CitizenTable.State)
        (es : list CitizenTable.Event) :
  1 <= CitizenTable.currentPage st
    <= CitizenTable.totalPages toLowerCase localeCompare citizens st ->
  Forall (fun e => (forall term, e <> CitizenTable.TypeSearch term)
                   /\ (forall t, e <> CitizenTable.ChooseSearch t)) es ->
  let st' := CitizenTable.run toLowerCase localeCompare citizens st es in
  1 <= CitizenTable.currentPage st'
    <= CitizenTable.totalPages toLowerCase localeCompare citizens st'
  /\ CitizenTable.paginatedCitizens toLowerCase localeCompare citizens st'
     <> [].
Proof.
  intros Hin Hes st'. subst st'.
  assert (H : 1 <= CitizenTable.currentPage
                     (CitizenTable.run toLowerCase localeCompare citizens
                        st es)
              <= CitizenTable.totalPages toLowerCase localeCompare citizens
                   (CitizenTable.run toLowerCase localeCompare citizens
                      st es)).
  { revert st Hin. induction Hes as [|e es [Hterm Htype] Hes IH];
      intros st Hin; [exact Hin|].
    unfold CitizenTable.run. cbn [fold_left]. apply IH.
    rewrite navigation_keeps_pageCount by assumption.
    now apply navigation_keeps_page_in_range. }
  split; [exact H|]. now apply page_in_range_nonempty.
Qed.

(** Paging to the end of the sample registry and sorting by age. *)
Lemma navigation_never_shows_empty_page_witness :
  let es := [CitizenTable.ClickNext; CitizenTable.ClickPage 3;
             CitizenTable.ClickNext;
             CitizenTable.ClickHeader CitizenTable.SortAge] in
  let st' := CitizenTable.run Sample.toLowerCase Sample.localeCompare
               Sample.registry25 CitizenTable.initial es in
  1 <= CitizenTable.currentPage CitizenTable.initial
    <= CitizenTable.totalPages Sample.toLowerCase Sample.localeCompare
         Sample.registry25 CitizenTable.initial
  /\ CitizenTable.paginatedCitizens Sample.toLowerCase Sample.localeCompare
       Sample.registry25 st' <> [].
Proof.
  intros es st'.
  assert (Hin : 1 <= CitizenTable.currentPage CitizenTable.initial
                <= CitizenTable.totalPages Sample.toLowerCase
                     Sample.localeCompare Sample.registry25
                     CitizenTable.initial)
    by (vm_compute; split; discriminate).
  split; [exact Hin|].
  apply (navigation_never_shows_empty_page Sample.toLowerCase
           Sample.localeCompare Sample.registry25 CitizenTable.initial es
           Hin).
  repeat constructor; discriminate.
Defined.

(** X5.  For a page index inside [1 .. pageCount] the footer line counts
    the rows shown: "Showing a to b of n" has [1 <= a <= b <= n] and
    [b - a + 1] rows are on the page. *)
Theorem footer_counts_rows (toLowerCase : string -> string)
        (localeCompare : string -> string -> Z)
        (citizens : list Citizen.t) (st : CitizenTable.State) :
  1 <= CitizenTable.currentPage st
    <= CitizenTable.totalPages toLowerCase localeCompare citizens st ->
  let a := TableFooter.showingFrom toLowerCase localeCompare citizens st in
  let b := TableFooter.showingTo toLowerCase localeCompare citizens st in
  let n := TableFooter.showingOf toLowerCase localeCompare citizens st in
  1 <= a <= b /\ b <= n
  /\ len (CitizenTable.paginatedCitizens toLowerCase localeCompare
            citizens st) = b - a + 1.
Proof.
  intros [Hlo Hhi] a b n. subst a b n.
  unfold TableFooter.showingFrom, TableFooter.showingTo,
    TableFooter.showingOf.
  pose (i := Z.to_nat (CitizenTable.currentPage st - 1)).
  assert (Hst : st = CitizenTable.setCurrentPage (Z.of_nat (S i)) st).
  { subst i. destruct st as [t p ty f o].
    unfold CitizenTable.setCurrentPage.
    cbn [CitizenTable.currentPage CitizenTable.searchTerm
         CitizenTable.searchType CitizenTable.sortField
         CitizenTable.sortOrder] in *.
    f_equal. lia. }
  assert (Hstart : CitizenTable.startIndex st = Z.of_nat i * 10).
  { unfold CitizenTable.startIndex, CitizenTable.itemsPerPage. lia. }
  pose proof (page_of_index toLowerCase localeCompare citizens st i) as Hp.
  rewrite <- Hst in Hp. rewrite Hp, Hstart. clear Hp Hst.
  unfold CitizenTable.totalPages, ceil_div, CitizenTable.itemsPerPage, len
    in *.
  set (m := List.length (CitizenTable.sortedCitizens toLowerCase
                           localeCompare citizens st)) in *.
  pose proof (Z.div_mod (- Z.of_nat m) 10 ltac:(lia)) as E.
  pose proof (Z.mod_pos_bound (- Z.of_nat m) 10 ltac:(lia)) as B.
  assert (Hlt : (i * 10 < m)%nat) by lia.
  rewrite length_firstn, length_skipn.
  destruct (Z.ltb_spec 0 (Z.of_nat m)); lia.
Qed.

(** The last page of the sample registry: "Showing 21 to 25 of 25". *)
Lemma footer_counts_rows_witness :
  let st := CitizenTable.mkState "" 3 CitizenTable.ByName
              CitizenTable.SortAge CitizenTable.Asc in
  1 <= CitizenTable.currentPage st
    <= CitizenTable.totalPages Sample.toLowerCase Sample.localeCompare
         Sample.registry25 st
  /\ len (CitizenTable.paginatedCitizens Sample.toLowerCase
            Sample.localeCompare Sample.registry25 st)
     = 25 - 21 + 1.
Proof.
  intros st.
  assert (Hin : 1 <= CitizenTable.currentPage st
                <= CitizenTable.totalPages Sample.toLowerCase
                     Sample.localeCompare Sample.registry25 st)
    by (vm_compute; split; discriminate).
  split; [exact Hin|].
  exact (proj2 (proj2 (footer_counts_rows Sample.toLowerCase
                         Sample.localeCompare Sample.registry25 st Hin))).
Defined.

(** ** Strings: [includes] and [parseInt] *)

Lemma prefix_spec (t s : string) :
  String.prefix t s = true <-> exists post, s = t ++ post.
Proof.
  revert s. induction t as [|a t IH]; intros s.
  - destruct s; cbn; (split; [intros _; eexists; reflexivity|reflexivity]).
  - destruct s as [|b s]; cbn.
    + split; [discriminate|]. intros [post H]. discriminate.
    + destruct (ascii_dec a b) as [->|Hne].
      * rewrite IH. split; intros [post H]; exists post.
        -- now rewrite H.
        -- now injection H.
      * split; [discriminate|]. intros [post H]. injection H as H1 _.
        congruence.
Qed.

Lemma includes_unfold (s t : string) :
  includes s t
  = if String.prefix t s then true
    else match s with
         | EmptyString => false
         | String _ s' => includes s' t
         end.
Proof. now destruct s. Qed.

(** [s.includes(t)] holds exactly when [t] occurs in [s]. *)
Lemma includes_spec (s t : string) :
  includes s t = true <-> exists pre post, s = pre ++ t ++ post.
Proof.
  induction s as [|c s IH]; rewrite includes_unfold.
  - destruct (String.prefix t "") eqn:Hp.
    + apply prefix_spec in Hp as [post H].
      split; [intros _; now exists "", post|reflexivity].
    + split; [discriminate|]. intros (pre & post & H).
      destruct pre; [|discriminate]. cbn in H.
      assert (String.prefix t "" = true)
        by (apply prefix_spec; now exists post).
      congruence.
  - destruct (String.prefix t (String c s)) eqn:Hp.
    + apply prefix_spec in Hp as [post H].
      split; [intros _; now exists "", post|reflexivity].
    + rewrite IH. split.
      * intros (pre & post & H). exists (String c pre), post.
        cbn. now rewrite H.
      * intros (pre & post & H). destruct pre as [|c' pre].
        -- cbn in H.
           assert (String.prefix t (String c s) = true)
             by (apply prefix_spec; now exists post).
           congruence.
        -- cbn in H. injection H as _ H. now exists pre, post.
Qed.

(** X6.  The table lists a citizen exactly when it is in the snapshot
    and the search term occurs in its Aadhar number (search by Aadhar)
    or, lower-cased, in its lower-cased name (search by name); the empty
    term lists everybody. *)
Theorem search_is_substring_match (toLowerCase : string -> string)
        (citizens : list Citizen.t) (st : CitizenTable.State)
        (c : Citizen.t) :
  (In c (CitizenTable.filteredCitizens toLowerCase citizens st) <->
   In c citizens
   /\ (CitizenTable.searchTerm st = ""
       \/ exists pre post,
            match CitizenTable.searchType st with
            | CitizenTable.ByAadhar =>
                Citizen.aadhar_number c
                = pre ++ CitizenTable.searchTerm st ++ post
            | CitizenTable.ByName =>
                toLowerCase (Citizen.name c)
                = pre ++ toLowerCase (CitizenTable.searchTerm st) ++ post
            end))
  /\ (CitizenTable.searchTerm st = "" ->
      CitizenTable.filteredCitizens toLowerCase citizens st = citizens).
Proof.
  unfold CitizenTable.filteredCitizens. split.
  - rewrite filter_In. unfold CitizenTable.matches.
    destruct (String.eqb_spec (CitizenTable.searchTerm st) "") as [E|E].
    + split; [intros [H _]; auto|intros [H _]; auto].
    + destruct (CitizenTable.searchType st); rewrite includes_spec;
        split; intros [H1 H2]; (split; [exact H1|]); tauto.
  - intros E. apply forallb_filter_id. apply forallb_forall.
    intros x _. unfold CitizenTable.matches. now rewrite E.
Qed.

Lemma digit_char (c : ascii) :
  Zod.is_digit c = true ->
  exists d, 0 <= d <= 9 /\ digit_value 10 c = Some d.
Proof.
  destruct c as [[] [] [] [] [] [] [] []]; cbv; try discriminate;
    intros _; eexists; (split; [|reflexivity]); split; discriminate.
Qed.

Lemma digit_value_nonneg (c : ascii) (d : Z) :
  digit_value 10 c = Some d -> 0 <= d.
Proof.
  unfold digit_value.
  set (n := Z.of_nat (nat_of_ascii c)).
  destruct (Z.leb_spec 48 n), (Z.leb_spec n 57); cbn [andb].
  all: try (destruct (_ <? 10); intros [= <-]; lia).
  all: destruct (Z.leb_spec 97 n), (Z.leb_spec n 122); cbn [andb];
    try (destruct (_ <? 10); intros [= <-]; lia).
  all: destruct (Z.leb_spec 65 n), (Z.leb_spec n 90); cbn [andb];
    try (destruct (_ <? 10); intros [= <-]; lia); discriminate.
Qed.

Lemma digits_prefix_nonneg (s : string) :
  forall a, 0 <= a ->
            exists m, digits_prefix 10 s (Some a) = Some m /\ 0 <= m.
Proof.
  induction s as [|c s IH]; intros a Ha; cbn [digits_prefix].
  - now exists a.
  - destruct (digit_value 10 c) as [d|] eqn:Hd; [|now exists a].
    apply IH. apply digit_value_nonneg in Hd. lia.
Qed.

Lemma digits_only_cons (c : ascii) (s : string) :
  Zod.digits_only (String c s) = true ->
  Zod.is_digit c = true
  /\ (s = "" \/ Zod.digits_only s = true).
Proof.
  unfold Zod.digits_only. cbn. intros H.
  apply andb_true_iff in H as [Hc Hs]. split; [exact Hc|].
  destruct s as [|c' s]; [now left|right]. exact Hs.
Qed.

Lemma parseInt_from_digit (c : ascii) (s : string) :
  Zod.is_digit c = true ->
  (forall s', s <> String "x" s') -> (forall s', s <> String "X" s') ->
  parseInt (String c s)
  = match digits_prefix 10 (String c s) None with
    | Some m => Num m
    | None => NaN
    end.
Proof.
  intros Hc Hx HX.
  destruct c as [[] [] [] [] [] [] [] []]; try discriminate Hc.
  all: cbv -[digits_prefix Z.mul].
  all: try (destruct (digits_prefix _ _ _); rewrite ?Z.mul_1_l; reflexivity).
  destruct s as [|c2 s2].
  - reflexivity.
  - destruct c2 as [[] [] [] [] [] [] [] []];
      try (now elim (Hx s2)); try (now elim (HX s2)).
    all: destruct (digits_prefix _ _ _); rewrite ?Z.mul_1_l; reflexivity.
Qed.

Lemma parseInt_minus_digit (c : ascii) (s : string) :
  Zod.is_digit c = true ->
  (forall s', s <> String "x" s') -> (forall s', s <> String "X" s') ->
  parseInt (String "-" (String c s))
  = match digits_prefix 10 (String c s) None with
    | Some m => Num (- m)
    | None => NaN
    end.
Proof.
  intros Hc Hx HX.
  destruct c as [[] [] [] [] [] [] [] []]; try discriminate Hc.
  all: cbv -[digits_prefix Z.mul Z.opp].
  all: try (destruct (digits_prefix _ _ _); [f_equal; lia|reflexivity]).
  destruct s as [|c2 s2].
  - reflexivity.
  - destruct c2 as [[] [] [] [] [] [] [] []];
      try (now elim (Hx s2)); try (now elim (HX s2)).
    all: destruct (digits_prefix _ _ _); [f_equal; lia|reflexivity].
Qed.

Lemma digits_not_x (s : string) :
  s = "" \/ Zod.digits_only s = true ->
  (forall s', s <> String "x" s') /\ (forall s', s <> String "X" s').
Proof.
  intros [->|H]; [split; discriminate|].
  destruct s as [|c s]; [discriminate|].
  apply digits_only_cons in H as [Hc _].
  split; intros s' [= -> _]; discriminate.
Qed.

(** On a string of decimal digits [parseInt] reads the whole numeral:
    the result is a number, never negative. *)
Lemma parseInt_digits_only (s : string) :
  Zod.digits_only s = true ->
  exists m, 0 <= m /\ parseInt s = Num m
            /\ digits_prefix 10 s None = Some m.
Proof.
  intros H. destruct s as [|c s]; [discriminate|].
  destruct (digits_only_cons _ _ H) as [Hc Hs].
  destruct (digits_not_x s Hs) as [Hx HX].
  rewrite (parseInt_from_digit c s Hc Hx HX).
  cbn [digits_prefix].
  destruct (digit_char c Hc) as (d & Hd & ->).
  destruct (digits_prefix_nonneg s d (proj1 Hd)) as (m & -> & Hm).
  now exists m.
Qed.

Lemma digits_prefix_uint_acc (d : Decimal.uint) :
  forall p,
    digits_prefix 10 (NilEmpty.string_of_uint d) (Some (Z.pos p))
    = Some (Z.pos (Pos.of_uint_acc d p)).
Proof.
  induction d; intros p; cbn [NilEmpty.string_of_uint digits_prefix Pos.of_uint_acc];
    [reflexivity|..].
  all: match goal with
       | |- context [digit_value 10 ?c] =>
           let v := eval vm_compute in (digit_value 10 c) in
           change (digit_value 10 c) with v
       end.
  all: rewrite <- IHd; do 2 f_equal; lia.
Qed.

Lemma digits_prefix_uint (d : Decimal.uint) :
  digits_prefix 10 (NilEmpty.string_of_uint d) (Some 0)
  = Some (Z.of_N (Pos.of_uint d)).
Proof.
  induction d; cbn [NilEmpty.string_of_uint digits_prefix Pos.of_uint];
    [reflexivity|..].
  all: match goal with
       | |- context [digit_value 10 ?c] =>
           let v := eval vm_compute in (digit_value 10 c) in
           change (digit_value 10 c) with v
       end.
  - exact IHd.
  - apply (digits_prefix_uint_acc d 1).
  - apply (digits_prefix_uint_acc d 2).
  - apply (digits_prefix_uint_acc d 3).
  - apply (digits_prefix_uint_acc d 4).
  - apply (digits_prefix_uint_acc d 5).
  - apply (digits_prefix_uint_acc d 6).
  - apply (digits_prefix_uint_acc d 7).
  - apply (digits_prefix_uint_acc d 8).
  - apply (digits_prefix_uint_acc d 9).
Qed.

Lemma string_of_uint_digits (d : Decimal.uint) :
  forallb Zod.is_digit (list_ascii_of_string (NilEmpty.string_of_uint d)) = true.
Proof. induction d; cbn; auto. Qed.

Lemma numeral_of_positive (p : positive) :
  exists c s,
    NilZero.string_of_uint (Pos.to_uint p) = String c s
    /\ Zod.digits_only (String c s) = true
    /\ digits_prefix 10 (String c s) None = Some (Z.pos p).
Proof.
  pose proof (Unsigned.of_to p) as Hp.
  pose proof (digits_prefix_uint (Pos.to_uint p)) as Hv.
  pose proof (string_of_uint_digits (Pos.to_uint p)) as Hd.
  unfold NilZero.string_of_uint.
  rewrite Hp in Hv.
  destruct (Pos.to_uint p) as [|d|d|d|d|d|d|d|d|d|d] eqn:E;
    [discriminate Hp|..].
  all: eexists; eexists; (split; [reflexivity|]); (split; [exact Hd|]).
  all: exact Hv.
Qed.

Lemma toString_parses_back (n : number) :
  parseInt (number_toString n) = n
  /\ number_toString n <> "".
Proof.
  destruct n as [|[|p|p]]; [split; [reflexivity|discriminate]..| |].
  - unfold number_toString. cbn [Z.to_int NilZero.string_of_int].
    destruct (numeral_of_positive p) as (c & s & -> & Hd & Hv).
    split; [|discriminate].
    destruct (parseInt_digits_only _ Hd) as (m & _ & -> & Hm).
    congruence.
  - unfold number_toString. cbn [Z.to_int NilZero.string_of_int].
    destruct (numeral_of_positive p) as (c & s & -> & Hd & Hv).
    split; [|discriminate].
    destruct (digits_only_cons _ _ Hd) as [Hc Hs].
    destruct (digits_not_x s Hs) as [Hx HX].
    rewrite (parseInt_minus_digit c s Hc Hx HX), Hv. reflexivity.
Qed.


(** ** The dashboard filter and the edit button *)

Lemma strict_eq_spec (a : number) (k : Z) :
  strict_eq a (Num k) = true <-> a = Num k.
Proof.
  unfold strict_eq. destruct a as [|z].
  - split; discriminate.
  - rewrite Z.eqb_eq. split; congruence.
Qed.

Lemma matchesVillage_key (st : Dashboard.State) (k : Z) (c : Citizen.t) :
  Dashboard.selectedVillage st = Some (number_toString (Num k)) ->
  Dashboard.matchesVillage st c = true <-> Citizen.village_id c = Num k.
Proof.
  intros Hsel. unfold Dashboard.matchesVillage. rewrite Hsel.
  destruct (toString_parses_back (Num k)) as [Hrt Hne].
  destruct (String.eqb_spec (number_toString (Num k)) "") as [E|_];
    [contradiction|].
  destruct (String.eqb_spec (number_toString (Num k)) "all") as [E|_].
  - rewrite E in Hrt. discriminate Hrt.
  - rewrite Hrt. apply strict_eq_spec.
Qed.

(** X8.  With village [k] chosen in the selector the dashboard hands the
    table only citizens whose [village_id] is [k], and with an empty
    search box all of them; a citizen whose [village_id] is [NaN] is in
    none of these lists.  With "all" or nothing chosen and an empty
    search box the table gets the whole cache. *)
Theorem dashboard_selects_village (toLowerCase : string -> string)
        (citizens : list Citizen.t) (st : Dashboard.State) :
  (forall k c,
      Dashboard.selectedVillage st = Some (number_toString (Num k)) ->
      (In c (Dashboard.filteredCitizens toLowerCase citizens st) ->
       In c citizens /\ Citizen.village_id c = Num k)
      /\ (Dashboard.searchQuery st = "" ->
          In c citizens -> Citizen.village_id c = Num k ->
          In c (Dashboard.filteredCitizens toLowerCase citizens st)))
  /\ (Dashboard.selectedVillage st = None
      \/ Dashboard.selectedVillage st = Some "all" ->
      Dashboard.searchQuery st = "" ->
      Dashboard.filteredCitizens toLowerCase citizens st = citizens).
Proof.
  unfold Dashboard.filteredCitizens. split.
  - intros k c Hsel. split.
    + rewrite filter_In. intros [Hin Hm]. split; [exact Hin|].
      apply (matchesVillage_key st k c Hsel).
      destruct (String.eqb (Dashboard.searchQuery st) ""); [exact Hm|].
      destruct (String.eqb (Dashboard.searchType st) "name");
        [now apply andb_true_iff in Hm|].
      destruct (String.eqb (Dashboard.searchType st) "aadhar");
        [now apply andb_true_iff in Hm|exact Hm].
    + intros Hq Hin Hv. apply filter_In. split; [exact Hin|].
      rewrite Hq. cbn. now apply (matchesVillage_key st k c Hsel).
  - intros Hsel Hq. apply forallb_filter_id, forallb_forall.
    intros x _. rewrite Hq. cbn. unfold Dashboard.matchesVillage.
    now destruct Hsel as [-> | ->].
Qed.

(** Shyampur (key 2) chosen: of the four sample citizens Priya and
    Vikram are listed. *)
Lemma dashboard_selects_village_witness :
  let st := Dashboard.mkState (Some "2") "" "name" in
  Dashboard.selectedVillage st = Some (number_toString (Num 2))
  /\ (In Sample.priya
         (Dashboard.filteredCitizens Sample.toLowerCase
            [Sample.raj; Sample.priya; Sample.amit; Sample.vikram] st)
      -> Citizen.village_id Sample.priya = Num 2).
Proof.
  intros st.
  assert (Hsel : Dashboard.selectedVillage st
                 = Some (number_toString (Num 2))) by reflexivity.
  split; [exact Hsel|].
  intros Hin.
  exact (proj2 (proj1 (proj1 (dashboard_selects_village Sample.toLowerCase
                                [Sample.raj; Sample.priya; Sample.amit;
                                 Sample.vikram] st)
                         2 Sample.priya Hsel) Hin)).
Defined.

Section FormFields.
Import Zod CitizenRegistry.

Lemma length_passes p s n m :
  flat_map (run_check p s) [Length n m] = [] -> String.length s = n.
Proof.
  unfold flat_map, run_check.
  destruct (Nat.ltb_spec n (String.length s)); [discriminate|].
  destruct (Nat.ltb_spec (String.length s) n); [discriminate|].
  intros _. lia.
Qed.

Lemma regex_passes p s re m :
  flat_map (run_check p s) [Regex re m] = [] -> re s = true.
Proof.
  unfold flat_map, run_check. destruct (re s); [reflexivity|discriminate].
Qed.

Lemma enum_inr options p v s :
  enum options p v = inr s -> v = Str s /\ In s options.
Proof.
  destruct v as [| |t|n]; cbn; try discriminate.
  destruct (existsb (String.eqb t) options) eqn:E; [|discriminate].
  intros [= <-]. split; [reflexivity|].
  apply existsb_exists in E as (o & Ho & Eo).
  apply String.eqb_eq in Eo. now subst.
Qed.

Lemma optional_inr p v (o : option string) :
  optional (string_ None []) p v = inr o ->
  match o with
  | Some s => v = Str s
  | None => v = Undefined
  end.
Proof.
  destruct v as [| |t|n]; cbn; try discriminate; now intros [= <-].
Qed.

(** What the schema establishes, field by field. *)
Lemma schema_establishes (raw : RawForm) (data : CitizenFormValues) :
  citizenFormSchema raw = inr data ->
  (aadhar_number raw = Str (aadhar_number data)
   /\ String.length (aadhar_number data) = 12%nat
   /\ digits_only (aadhar_number data) = true)
  /\ village_id raw = Str (village_id data)
  /\ (2 <= String.length (name data))%nat
  /\ (age raw = Str (age data) /\ digits_only (age data) = true)
  /\ In (gender data) ["male"; "female"; "other"]
  /\ (5 <= String.length (address data))%nat
  /\ In (marital_status data) ["single"; "married"; "divorced"; "widowed"]
  /\ In (status data) ["alive"; "dead"].
Proof.
  unfold citizenFormSchema. intros H.
  repeat match type of H with
         | ap _ _ = inr _ =>
             let g := fresh "g" in
             let x := fresh "x" in
             let Hg := fresh "Hg" in
             let Hx := fresh "Hx" in
             apply ap_inr in H as (g & x & H & Hx & Hg)
         end.
  injection H as <-. subst. cbn.
  repeat match goal with
         | Hx : string_ _ _ _ _ = inr _ |- _ =>
             apply string_inr in Hx as [? ?]
         | Hx : enum _ _ _ = inr _ |- _ =>
             apply enum_inr in Hx as [? ?]
         end.
  repeat match goal with
         | Hc : flat_map _ [Length _ _; _] = [] |- _ =>
             change (flat_map ?f [?a; ?b])
               with (f a ++ flat_map f [b])%list in Hc;
             apply app_eq_nil in Hc as [? ?]
         end.
  repeat split; try assumption.
  - eapply length_passes.
    change (flat_map ?f [?a]) with (f a ++ [])%list.
    rewrite app_nil_r. eassumption.
  - eapply regex_passes; eassumption.
  - eapply min_passes; eassumption.
  - eapply regex_passes; eassumption.
  - eapply min_passes; eassumption.
Qed.

End FormFields.

(** X9.  What reaches the store from a form that passed validation: an
    Aadhar number of exactly twelve digits, an age that is a number and
    not negative, a name of at least two and an address of at least five
    characters, gender, marital status and status from their lists, and
    a spouse name and remarks that are absent rather than empty. *)
Theorem validated_citizen_is_well_formed
        (raw : CitizenRegistry.RawForm)
        (data : CitizenRegistry.CitizenFormValues) :
  CitizenRegistry.citizenFormSchema raw = inr data ->
  let c := CitizenRegistry.citizenData data in
  String.length (Citizen.aadhar_number c) = 12%nat
  /\ Zod.digits_only (Citizen.aadhar_number c) = true
  /\ (exists n, 0 <= n /\ Citizen.age c = Num n)
  /\ (2 <= String.length (Citizen.name c))%nat
  /\ (5 <= String.length (Citizen.address c))%nat
  /\ In (Citizen.gender c) ["male"; "female"; "other"]
  /\ In (Citizen.marital_status c)
        ["single"; "married"; "divorced"; "widowed"]
  /\ In (Citizen.status c) ["alive"; "dead"]
  /\ Citizen.spouse_name c <> Some ""
  /\ Citizen.remarks c <> Some "".
Proof.
  intros H c. subst c.
  destruct (schema_establishes raw data H)
    as ((_ & Hlen & Hdig) & _ & Hname & (_ & Hage) & Hg & Haddr & Hm & Hs).
  cbn [CitizenRegistry.citizenData Citizen.aadhar_number Citizen.age
       Citizen.name Citizen.address Citizen.gender Citizen.marital_status
       Citizen.status Citizen.spouse_name Citizen.remarks].
  repeat split; try assumption.
  - destruct (parseInt_digits_only _ Hage) as (n & Hn & Hp & _).
    now exists n.
  - unfold CitizenRegistry.or_null.
    destruct (CitizenRegistry.spouse_name data) as [s|]; [|discriminate].
    destruct (String.eqb_spec s ""); [discriminate|congruence].
  - unfold CitizenRegistry.or_null.
    destruct (CitizenRegistry.remarks data) as [s|]; [|discriminate].
    destruct (String.eqb_spec s ""); [discriminate|congruence].
Qed.

(** The new resident of the sample form is 31. *)
Lemma validated_citizen_is_well_formed_witness :
  CitizenRegistry.citizenFormSchema Sample.new_citizen_form
  = inr Sample.new_citizen_data
  /\ (exists n,
         0 <= n
         /\ Citizen.age (CitizenRegistry.citizenData Sample.new_citizen_data)
            = Num n)
  /\ Citizen.spouse_name (CitizenRegistry.citizenData Sample.new_citizen_data)
     <> Some "".
Proof.
  assert (H : CitizenRegistry.citizenFormSchema Sample.new_citizen_form
              = inr Sample.new_citizen_data) by reflexivity.
  destruct (validated_citizen_is_well_formed Sample.new_citizen_form
              Sample.new_citizen_data H)
    as (_ & _ & Hage & _ & _ & _ & _ & _ & Hsp & _).
  split; [exact H|]. split; [exact Hage|exact Hsp].
Defined.

(** X10.  The form values the edit button hands over never pass the
    schema as they are: the age is the number of the row, not the string
    the schema asks for, so it has to be retyped.  The Aadhar number and
    the village are carried over, and whatever else is edited, a form
    whose village field is left alone yields the citizen's old
    [village_id]. *)
Theorem edit_form_carries_key_and_village (c : Citizen.t) :
  let raw := CitizenRegistry.defaultValues (Dashboard.citizenToEdit c) in
  CitizenRegistry.valid raw = false
  /\ In (Zod.mkIssue "age" Zod.invalid_type None)
        (Zod.issues (CitizenRegistry.citizenFormSchema raw))
  /\ CitizenRegistry.aadhar_number raw = Str (Citizen.aadhar_number c)
  /\ CitizenRegistry.village_id raw
     = Str (number_toString (Citizen.village_id c))
  /\ (forall raw' data,
         CitizenRegistry.village_id raw' = CitizenRegistry.village_id raw ->
         CitizenRegistry.citizenFormSchema raw' = inr data ->
         Citizen.village_id (CitizenRegistry.citizenData data)
         = Citizen.village_id c).
Proof.
  intros raw.
  destruct (toString_parses_back (Citizen.village_id c))
    as [Hrt Hne].
  assert (Hv : CitizenRegistry.village_id raw
               = Str (number_toString (Citizen.village_id c))).
  { subst raw. cbn. unfold Dashboard.or_empty. cbn [truthy].
    destruct (String.eqb_spec (number_toString (Citizen.village_id c)) "");
      [contradiction|reflexivity]. }
  split; [|split; [|split; [reflexivity|split; [exact Hv|]]]].
  - rewrite valid_fields. subst raw.
    cbn [CitizenRegistry.defaultValues Dashboard.citizenToEdit
         CitizenRegistry.age CitizenRegistry.or_default].
    cbn [Zod.string_ Zod.passes]. now rewrite !andb_false_r.
  - unfold CitizenRegistry.citizenFormSchema. rewrite !issues_ap.
    rewrite !in_app_iff. do 10 left. right. subst raw. cbn. now left.
  - intros raw' data Hsame Hok.
    destruct (schema_establishes raw' data Hok) as (_ & Hvid & _).
    rewrite Hsame, Hv in Hvid. injection Hvid as Hvid.
    cbn [CitizenRegistry.citizenData Citizen.village_id].
    now rewrite <- Hvid.
Qed.

(** ** Home: the other handlers *)

(** X11.  A failed store call changes nothing: after a failed insert,
    update or delete of a village, or insert or delete of a citizen, the
    whole state of the view is as before and the console holds that one
    error. *)
Theorem failed_call_leaves_home_unchanged (s : Home.State)
        (e : PostgrestError) (row : option VillageRow.t) (u : option unit)
        (village : Home.Village) (citizen : Citizen.t) (key : Z)
        (aadhar : string) :
  let failed_with {A} (d : option A) : Response A := mkResponse d (Some e) in
  exec (Home.handleAddVillage s (failed_with row)) s
  = mkEnv s [("Error adding village:", Thrown e)] []
  /\ exec (Home.handleUpdateVillage s village (failed_with u)) s
     = mkEnv s [("Error updating village:", Thrown e)] []
  /\ exec (Home.handleDeleteVillage s key (failed_with u)) s
     = mkEnv s [("Error deleting village:", Thrown e)] []
  /\ exec (Home.handleAddCitizen s citizen (failed_with u)) s
     = mkEnv s [("Error adding citizen:", Thrown e)] []
  /\ exec (Home.handleDeleteCitizen s aadhar (failed_with u)) s
     = mkEnv s [("Error deleting citizen:", Thrown e)] [].
Proof. cbv zeta. repeat split. Qed.

Lemma map_replace_keys {A K : Type} (key : A -> K) (same : A -> bool)
      (new : A) (l : list A) :
  (forall x, same x = true -> key x = key new) ->
  map key (map (fun x => if same x then new else x) l) = map key l.
Proof.
  intros H. rewrite map_map. apply map_ext_in. intros x _.
  destruct (same x) eqn:E; [symmetry; now apply H|reflexivity].
Qed.

Lemma map_replace_absent {A : Type} (same : A -> bool) (new : A)
      (l : list A) :
  (forall x, In x l -> same x = false) ->
  map (fun x => if same x then new else x) l = l.
Proof.
  intros H. rewrite <- (map_id l) at 2. apply map_ext_in.
  intros x Hx. now rewrite (H x Hx).
Qed.

(** X12.  An acknowledged update of a citizen keeps the Aadhar numbers
    of the cache, their order and their count; every entry is the
    updated citizen or an entry of before with another number; when the
    number is not in the cache the cache stays as it was.  The villages
    are untouched and the view switches to the form's tab. *)
Theorem update_keeps_keys (s : Home.State) (updatedCitizen : Citizen.t) :
  let s' := st (exec (Home.handleUpdateCitizen s updatedCitizen (ok tt)) s) in
  map Citizen.aadhar_number (Home.citizens s')
  = map Citizen.aadhar_number (Home.citizens s)
  /\ (forall x, In x (Home.citizens s') ->
                x = updatedCitizen
                \/ (In x (Home.citizens s)
                    /\ Citizen.aadhar_number x
                       <> Citizen.aadhar_number updatedCitizen))
  /\ (~ In (Citizen.aadhar_number updatedCitizen)
           (map Citizen.aadhar_number (Home.citizens s)) ->
      Home.citizens s' = Home.citizens s)
  /\ Home.villages s' = Home.villages s
  /\ Home.activeTab s' = "citizens".
Proof.
  cbv zeta. cbn.
  split; [|split; [|split; [|split; reflexivity]]].
  - apply map_replace_keys. intros x Hx. now apply String.eqb_eq.
  - intros x Hx. apply in_map_iff in Hx as (y & <- & Hy).
    destruct (String.eqb_spec (Citizen.aadhar_number y)
                (Citizen.aadhar_number updatedCitizen)); auto.
  - intros Habsent. apply map_replace_absent. intros x Hx.
    apply String.eqb_neq. intros E. apply Habsent. rewrite <- E.
    now apply in_map.
Qed.

(** X13.  The handlers use the list of the render that created them.
    Two deletions confirmed from the same render, both acknowledged,
    leave only the second applied: the citizen deleted first is back in
    the cache.  Confirmed one render after the other, both are gone. *)
Theorem second_delete_from_same_render_undoes_first
        (s : Home.State) (k1 k2 : string) :
  let both_from_s :=
    st (exec (Home.handleDeleteCitizen s k1 (ok tt) ;;
              Home.handleDeleteCitizen s k2 (ok tt)) s) in
  let s1 := st (exec (Home.handleDeleteCitizen s k1 (ok tt)) s) in
  let one_after_the_other :=
    st (exec (Home.handleDeleteCitizen s1 k2 (ok tt)) s1) in
  (forall c, In c (Home.citizens both_from_s) <->
             In c (Home.citizens s) /\ Citizen.aadhar_number c <> k2)
  /\ (forall c, In c (Home.citizens one_after_the_other) <->
                In c (Home.citizens s)
                /\ Citizen.aadhar_number c <> k1
                /\ Citizen.aadhar_number c <> k2).
Proof.
  cbv zeta. cbn. split; intros c.
  - now rewrite filter_keeps, string_neqb_spec.
  - rewrite !filter_keeps, !string_neqb_spec. tauto.
Qed.

(** X14.  Registering a new citizen.  When the form's own insert fails
    the cache and the typed values stay and the form shows the message.
    When it succeeds the form is reset and reports success, whatever
    becomes of the insert that [Home] then issues itself; the citizen is
    appended to the cache only when that second insert is acknowledged
    too. *)
Theorem registering_a_citizen (s : App.State)
        (data : CitizenRegistry.CitizenFormValues)
        (registryResp homeResp : Response unit) :
  CitizenRegistry.citizenFormSchema
    (CitizenRegistry.values (App.registry s)) = inr data ->
  let out :=
    exec (App.submitCitizen s CitizenRegistry.no_initialData
            registryResp homeResp) s in
  let success :=
    mkToast "Success" "Citizen record has been added successfully."
            "default" in
  (forall e, error registryResp = Some e ->
             App.home (st out) = App.home s
             /\ CitizenRegistry.values (App.registry (st out))
                = CitizenRegistry.values (App.registry s)
             /\ CitizenRegistry.error (App.registry (st out))
                = Some (message e)
             /\ toasts out = [] /\ console out = [])
  /\ (error registryResp = None ->
      CitizenRegistry.values (App.registry (st out))
      = CitizenRegistry.defaultValues CitizenRegistry.no_initialData
      /\ CitizenRegistry.error (App.registry (st out)) = None
      /\ toasts out = [success])
  /\ (error registryResp = None -> error homeResp = None ->
      Home.citizens (App.home (st out))
      = (Home.citizens (App.home s)
         ++ [CitizenRegistry.citizenData data])%list)
  /\ (forall e, error registryResp = None -> error homeResp = Some e ->
                App.home (st out) = App.home s
                /\ console out = [("Error adding citizen:", Thrown e)]).
Proof.
  intros Hvalid out success. subst out success.
  unfold exec, App.submitCitizen, CitizenRegistry.onSubmit.
  rewrite Hvalid.
  unfold CitizenRegistry.handleSubmit, Home.handleAddCitizen,
    CitizenRegistry.throw_new_error_if, CitizenRegistry.call,
    App.in_home, finally, try_catch, bind, throw_if.
  cbn [CitizenRegistry.no_initialData CitizenRegistry.aadhar_number
       CitizenRegistry.or_default truthy].
  split; [|split; [|split]].
  - intros e ->. cbn. repeat split.
  - intros ->. destruct (error homeResp); cbn; repeat split.
  - intros -> ->. reflexivity.
  - intros e -> ->. cbn. split; [now destruct s as [[] ? ?]|reflexivity].
Qed.

(** The sample form registered while [Home]'s own insert is refused:
    the form reports success and the cache has three citizens still. *)
Lemma registering_a_citizen_witness :
  let s := Sample.registering Sample.new_citizen_form in
  let out :=
    exec (App.submitCitizen s CitizenRegistry.no_initialData (ok tt)
            (failed Sample.connection_lost)) s in
  CitizenRegistry.citizenFormSchema
    (CitizenRegistry.values (App.registry s)) = inr Sample.new_citizen_data
  /\ Home.citizens (App.home (st out))
     = [Sample.raj; Sample.priya; Sample.amit]
  /\ toasts out
     = [mkToast "Success" "Citizen record has been added successfully."
                "default"].
Proof.
  intros s out.
  assert (H : CitizenRegistry.citizenFormSchema
                (CitizenRegistry.values (App.registry s))
              = inr Sample.new_citizen_data) by reflexivity.
  destruct (registering_a_citizen s Sample.new_citizen_data (ok tt)
              (failed Sample.connection_lost) H)
    as (_ & Hok & _ & Hhome).
  destruct (Hok eq_refl) as (_ & _ & Htoast).
  destruct (Hhome Sample.connection_lost eq_refl eq_refl) as [Hsame _].
  split; [exact H|]. split; [|exact Htoast].
  exact (f_equal Home.citizens Hsame).
Defined.

(** ** VillageManagement: the two forms and their dialogs *)

Lemma six_digits_spec (s : string) :
  VillageForms.six_digits s = true
  <-> String.length s = 6%nat
      /\ Forall (fun c => (48 <= nat_of_ascii c <= 57)%nat)
                (list_ascii_of_string s).
Proof.
  unfold VillageForms.six_digits.
  rewrite andb_true_iff, Nat.eqb_eq, forallb_forall, Forall_forall.
  split; intros [Hlen Hall]; (split; [exact Hlen|]); intros c Hc;
    specialize (Hall c Hc); unfold Zod.is_digit in *; cbv zeta in *.
  - apply andb_true_iff in Hall as [H1 H2].
    apply Nat.leb_le in H1. apply Nat.leb_le in H2. lia.
  - apply andb_true_iff. split; apply Nat.leb_le; lia.
Qed.

Lemma min_accepts p s n m :
  (n <= String.length s)%nat ->
  Zod.string_ None [Zod.Min n m] p (Str s) = inr s.
Proof.
  intros H. unfold Zod.string_, flat_map, Zod.run_check.
  destruct (Nat.ltb_spec (String.length s) n); [lia|reflexivity].
Qed.

Lemma village_form_fields (raw : VillageForms.RawForm)
      (data : VillageForms.VillageFormValues) :
  VillageForms.villageSchema raw = inr data ->
  VillageForms.village_name raw = Str (VillageForms.village_name data)
  /\ VillageForms.district_name raw = Str (VillageForms.district_name data)
  /\ VillageForms.pincode raw = Str (VillageForms.pincode data).
Proof.
  unfold VillageForms.villageSchema. intros H.
  apply ap_inr in H as (g3 & pc & H & Hpc & ->).
  apply ap_inr in H as (g2 & dn & H & Hdn & ->).
  apply ap_inr in H as (g1 & vn & H & Hvn & ->).
  injection H as <-.
  apply string_inr in Hvn as [Evn _].
  apply string_inr in Hdn as [Edn _].
  apply string_inr in Hpc as [Epc _].
  now repeat split.
Qed.

(** X15.  The village form passes exactly when its three fields are
    strings, the two names have two characters or more, and the pincode
    is six characters, each a decimal digit; the validated values are
    the strings typed. *)
Theorem village_form_accepted_iff (raw : VillageForms.RawForm)
        (data : VillageForms.VillageFormValues) :
  VillageForms.villageSchema raw = inr data
  <-> raw = VillageForms.mkForm
              (Str (VillageForms.village_name data))
              (Str (VillageForms.district_name data))
              (Str (VillageForms.pincode data))
      /\ (2 <= String.length (VillageForms.village_name data))%nat
      /\ (2 <= String.length (VillageForms.district_name data))%nat
      /\ String.length (VillageForms.pincode data) = 6%nat
      /\ Forall (fun c => (48 <= nat_of_ascii c <= 57)%nat)
                (list_ascii_of_string (VillageForms.pincode data)).
Proof.
  unfold VillageForms.villageSchema. split.
  - intros H.
    apply ap_inr in H as (g3 & pc & H & Hpc & ->).
    apply ap_inr in H as (g2 & dn & H & Hdn & ->).
    apply ap_inr in H as (g1 & vn & H & Hvn & ->).
    injection H as <-.
    apply string_inr in Hvn as [Evn Cvn].
    apply string_inr in Hdn as [Edn Cdn].
    apply string_inr in Hpc as [Epc Cpc].
    apply min_passes in Cvn. apply min_passes in Cdn.
    apply regex_passes in Cpc. apply six_digits_spec in Cpc as [L6 D6].
    cbn [VillageForms.village_name VillageForms.district_name
         VillageForms.pincode].
    destruct raw as [a b c]. cbn in Evn, Edn, Epc. subst a b c.
    repeat (split; [assumption || reflexivity|]). exact D6.
  - intros (-> & Hvn & Hdn & L6 & D6). destruct data as [vn dn pc].
    cbn [VillageForms.village_name VillageForms.district_name
         VillageForms.pincode] in *.
    rewrite (min_accepts _ _ _ _ Hvn), (min_accepts _ _ _ _ Hdn).
    assert (Hpc : VillageForms.six_digits pc = true)
      by (apply six_digits_spec; now split).
    cbn. now rewrite Hpc.
Qed.

(** X16.  An acknowledged edit keeps the ids of the listed villages,
    their order and their count; every entry is one of before with
    another id, or the entry of the selected id with the three fields
    of the form.  The dialog is closed and the selection dropped. *)
Theorem edit_keeps_village_ids (s : VillageForms.State)
        (selected : VillageRow.t) (data : VillageForms.VillageFormValues) :
  VillageManagement.selectedVillage (VillageForms.cells s) = Some selected ->
  let before := VillageManagement.villages (VillageForms.cells s) in
  let out := exec (VillageForms.handleEditVillage s data (ok tt)) s in
  let after := VillageManagement.villages (VillageForms.cells (st out)) in
  map VillageRow.village_id after = map VillageRow.village_id before
  /\ (forall v, In v after ->
        (In v before
         /\ VillageRow.village_id v <> VillageRow.village_id selected)
        \/ (exists old, In old before
              /\ VillageRow.village_id old = VillageRow.village_id selected
              /\ v = VillageRow.mk (VillageRow.village_id old)
                       (VillageForms.village_name data)
                       (VillageForms.district_name data)
                       (VillageForms.pincode data)))
  /\ VillageManagement.isEditDialogOpen (VillageForms.cells (st out)) = false
  /\ VillageManagement.selectedVillage (VillageForms.cells (st out)) = None
  /\ toasts out
     = [mkToast "Village Updated"
          (VillageForms.village_name data ++ " has been updated successfully.")
          "default"].
Proof.
  intros Hsel before out after. subst before out after.
  unfold VillageForms.handleEditVillage. rewrite Hsel. cbn.
  split; [|split; [|repeat split]].
  - rewrite map_map. apply map_ext. intros v.
    now destruct (VillageRow.village_id v =? VillageRow.village_id selected).
  - intros v Hv. apply in_map_iff in Hv as (old & <- & Hold).
    destruct (Z.eqb_spec (VillageRow.village_id old)
                (VillageRow.village_id selected)) as [E|N].
    + right. exists old. now repeat split.
    + left. now split.
Qed.

(** Rampur selected and renamed. *)
Lemma edit_keeps_village_ids_witness :
  let s :=
    VillageForms.mkState
      (VillageManagement.mkState
         [Sample.rampur; Sample.shyampur; Sample.ganeshpur]
         false false true false (Some Sample.rampur))
      VillageForms.blank VillageForms.blank in
  let data := VillageForms.mkForm "Ramnagar" "Jaipur" "302002" in
  VillageManagement.selectedVillage (VillageForms.cells s)
  = Some Sample.rampur
  /\ map VillageRow.village_id
         (VillageManagement.villages
            (VillageForms.cells
               (st (exec (VillageForms.handleEditVillage s data (ok tt)) s))))
     = [1; 2; 3].
Proof.
  intros s data. split; [reflexivity|].
  exact (proj1 (edit_keeps_village_ids s Sample.rampur data eq_refl)).
Defined.

Lemma same_key_same_entry {A : Type} (key : A -> Z) (l : list A) (x y : A) :
  NoDup (map key l) -> In x l -> In y l -> key x = key y -> x = y.
Proof.
  induction l as [|a l IH]; cbn; [tauto|].
  intros Hnd [-> | Hx] [-> | Hy] E.
  - reflexivity.
  - apply NoDup_cons_iff in Hnd as [Ha _]. exfalso. apply Ha.
    rewrite E. now apply in_map.
  - apply NoDup_cons_iff in Hnd as [Ha _]. exfalso. apply Ha.
    rewrite <- E. now apply in_map.
  - apply NoDup_cons_iff in Hnd as [_ Hnd]. now apply IH.
Qed.

(** X17.  Opening the edit dialog on a listed village and saving
    without a change gives the list back as it was, when the ids of the
    list are distinct and the village's own fields pass the schema.
    When they do not pass, saving does nothing at all: the dialog stays
    open on the village. *)
Theorem edit_unchanged_roundtrip (s : VillageForms.State)
        (village : VillageRow.t) :
  NoDup (map VillageRow.village_id
             (VillageManagement.villages (VillageForms.cells s))) ->
  In village (VillageManagement.villages (VillageForms.cells s)) ->
  let opened := st (exec (VillageForms.openEditDialog village) s) in
  let out := exec (VillageForms.submitEdit opened (ok tt)) opened in
  let shown :=
    VillageForms.mkForm (Str (VillageRow.village_name village))
                        (Str (VillageRow.district_name village))
                        (Str (VillageRow.pincode village)) in
  VillageManagement.villages (VillageForms.cells (st out))
  = VillageManagement.villages (VillageForms.cells s)
  /\ (Zod.passes (VillageForms.villageSchema shown) = true ->
      VillageManagement.isEditDialogOpen (VillageForms.cells (st out))
      = false
      /\ VillageManagement.selectedVillage (VillageForms.cells (st out))
         = None)
  /\ (Zod.passes (VillageForms.villageSchema shown) = false ->
      st out = opened /\ toasts out = []
      /\ VillageManagement.isEditDialogOpen (VillageForms.cells opened)
         = true
      /\ VillageManagement.selectedVillage (VillageForms.cells opened)
         = Some village).
Proof.
  intros Hnd Hin opened out shown. subst opened out shown.
  unfold VillageForms.submitEdit.
  cbn [VillageForms.openEditDialog exec st VillageForms.editForm].
  change (VillageForms.editForm
            (st (exec (VillageForms.openEditDialog village) s)))
    with (VillageForms.mkForm (Str (VillageRow.village_name village))
            (Str (VillageRow.district_name village))
            (Str (VillageRow.pincode village))).
  destruct (VillageForms.villageSchema _) as [i|data] eqn:Hs.
  - cbn. split; [reflexivity|]. split; [discriminate|].
    intros _. repeat split.
  - apply village_form_fields in Hs as (Evn & Edn & Epc).
    cbn. split; [|split; [intros _; now split|discriminate]].
    rewrite <- (map_id (VillageManagement.villages (VillageForms.cells s)))
      at 2.
    apply map_ext_in. intros v Hv.
    destruct (Z.eqb_spec (VillageRow.village_id v)
                (VillageRow.village_id village)) as [E|N]; [|reflexivity].
    rewrite (same_key_same_entry VillageRow.village_id _ v village
               Hnd Hv Hin E).
    cbn in Evn, Edn, Epc.
    injection Evn as Evn. injection Edn as Edn. injection Epc as Epc.
    unfold VillageForms.merge. rewrite <- Evn, <- Edn, <- Epc.
    now destruct village.
Qed.

(** Shyampur opened and saved as it is. *)
Lemma edit_unchanged_roundtrip_witness :
  let s :=
    VillageForms.mkState
      (VillageManagement.mkState
         [Sample.rampur; Sample.shyampur; Sample.ganeshpur]
         false false false false None)
      VillageForms.blank VillageForms.blank in
  let opened := st (exec (VillageForms.openEditDialog Sample.shyampur) s) in
  NoDup (map VillageRow.village_id
             (VillageManagement.villages (VillageForms.cells s)))
  /\ In Sample.shyampur (VillageManagement.villages (VillageForms.cells s))
  /\ VillageManagement.villages
       (VillageForms.cells
          (st (exec (VillageForms.submitEdit opened (ok tt)) opened)))
     = [Sample.rampur; Sample.shyampur; Sample.ganeshpur].
Proof.
  intros s opened.
  assert (Hnd : NoDup (map VillageRow.village_id
                         (VillageManagement.villages (VillageForms.cells s)))).
  { cbn. repeat constructor; cbn; intuition discriminate. }
  assert (Hin : In Sample.shyampur
                   (VillageManagement.villages (VillageForms.cells s))).
  { cbn. right. left. reflexivity. }
  split; [exact Hnd|]. split; [exact Hin|].
  exact (proj1 (edit_unchanged_roundtrip s Sample.shyampur Hnd Hin)).
Defined.

(** X18.  A failed store call in the management tab leaves the list,
    the dialogs, the selection and both forms as they are, and shows a
    destructive toast; with no village selected the edit and delete
    handlers do nothing.  A failed load keeps the list too and ends the
    loading state. *)
Theorem failed_call_leaves_management_unchanged
        (s : VillageForms.State) (e : PostgrestError)
        (data : VillageForms.VillageFormValues)
        (row : option VillageRow.t) (u : option unit)
        (rows : option (list VillageRow.t)) :
  let failed_with {A} (d : option A) : Response A := mkResponse d (Some e) in
  let c := VillageForms.cells s in
  let error_toast text := [mkToast "Error" text "destructive"] in
  let add := exec (VillageForms.handleAddVillage s data (failed_with row)) s in
  let edit := exec (VillageForms.handleEditVillage s data (failed_with u)) s in
  let del := exec (VillageManagement.handleDeleteVillage c (failed_with u)) c in
  let load := exec (VillageManagement.fetchVillages (failed_with rows)) c in
  (st add = s /\ toasts add = error_toast "Failed to add village"
   /\ console add = [("Error adding village:", Thrown e)])
  /\ (st edit = s /\ st del = c)
  /\ (VillageManagement.selectedVillage c <> None ->
      toasts edit = error_toast "Failed to update village"
      /\ console edit = [("Error updating village:", Thrown e)]
      /\ toasts del
         = error_toast
             "Failed to delete village. Make sure there are no citizens associated with this village."
      /\ console del = [("Error deleting village:", Thrown e)])
  /\ (VillageManagement.selectedVillage c = None ->
      edit = mkEnv s [] [] /\ del = mkEnv c [] [])
  /\ (VillageManagement.villages (st load) = VillageManagement.villages c
      /\ VillageManagement.isLoading (st load) = false
      /\ toasts load = error_toast "Failed to load villages").
Proof.
  cbv zeta.
  unfold VillageForms.handleEditVillage, VillageManagement.handleDeleteVillage.
  destruct (VillageManagement.selectedVillage (VillageForms.cells s))
    as [selected|] eqn:Hsel.
  - split; [|split; [|split; [|split]]].
    + cbn. repeat split.
    + cbn. split; reflexivity.
    + intros _. cbn. repeat split.
    + discriminate.
    + cbn. repeat split.
  - split; [|split; [|split; [|split]]].
    + cbn. repeat split.
    + cbn. split; reflexivity.
    + intros H. now contradiction H.
    + intros _. cbn. split; reflexivity.
    + cbn. repeat split.
Qed.

(** The delete dialog open on Rampur while the store refuses. *)
Lemma failed_call_leaves_management_unchanged_witness :
  let s :=
    VillageForms.mkState
      (VillageManagement.mkState
         [Sample.rampur; Sample.shyampur; Sample.ganeshpur]
         false false false true (Some Sample.rampur))
      VillageForms.blank VillageForms.blank in
  let c := VillageForms.cells s in
  VillageManagement.selectedVillage c <> None
  /\ console (exec (VillageManagement.handleDeleteVillage c
                      (mkResponse None (Some Sample.connection_lost))) c)
     = [("Error deleting village:", Thrown Sample.connection_lost)].
Proof.
  intros s c.
  assert (H : VillageManagement.selectedVillage c <> None)
    by (cbn; discriminate).
  split; [exact H|].
  destruct (failed_call_leaves_management_unchanged s
              Sample.connection_lost
              (VillageForms.mkForm "Rampur" "Jaipur" "302001")
              None None None) as (_ & _ & Hsel & _).
  exact (proj2 (proj2 (proj2 (Hsel H)))).
Defined.

(** X19.  Submitting the add form never alters or removes a listed
    village.  The list grows, by the row the store returned, only when
    the form passed the schema and the insert was acknowledged with a
    row; the dialog is closed and the form blank again in that case and
    only then changed. *)
Theorem add_village_appends_stored_row (s : VillageForms.State)
        (resp : Response VillageRow.t) :
  let before := VillageManagement.villages (VillageForms.cells s) in
  let out := exec (VillageForms.submitAdd s resp) s in
  let after := VillageManagement.villages (VillageForms.cells (st out)) in
  (after = before /\ VillageForms.addForm (st out) = VillageForms.addForm s
   /\ VillageManagement.isAddDialogOpen (VillageForms.cells (st out))
      = VillageManagement.isAddDialogOpen (VillageForms.cells s))
  \/ (exists newVillage,
        after = (before ++ [newVillage])%list
        /\ data resp = Some newVillage /\ error resp = None
        /\ Zod.passes (VillageForms.villageSchema (VillageForms.addForm s))
           = true
        /\ VillageForms.addForm (st out) = VillageForms.blank
        /\ VillageManagement.isAddDialogOpen (VillageForms.cells (st out))
           = false).
Proof.
  cbv zeta. unfold VillageForms.submitAdd.
  destruct (VillageForms.villageSchema (VillageForms.addForm s))
    as [i|data] eqn:Hs; [left; now cbn|].
  unfold VillageForms.handleAddVillage.
  destruct resp as [[newVillage|] [e|]]; cbn;
    try (left; repeat split; fail).
  right. exists newVillage. repeat split.
Qed.

(** ** Login and logout *)

(** X20.  A login that fails stores nothing and goes nowhere: when the
    query is answered with an error, or with no row, the form shows
    "Invalid username or password"; when the call is rejected it shows
    "An error occurred during login".  In each case the browser's
    storage, the route and the typed values are as before and the
    button is enabled again. *)
Theorem failed_login_stores_nothing (s : Login.State) (x : Exn)
        (e : PostgrestError) (row : option Login.Admin) :
  let refused message out :=
    st out = Login.mkState (Login.formData s) message false
                           (Login.localStorage s) (Login.location s)
    /\ toasts out = [] /\ console out = [] in
  refused "Invalid username or password"
          (exec (Login.handleSubmit (inr (mkResponse row (Some e)))) s)
  /\ refused "Invalid username or password"
             (exec (Login.handleSubmit (inr (mkResponse None None))) s)
  /\ refused "An error occurred during login"
             (exec (Login.handleSubmit (inl x)) s).
Proof.
  cbv zeta. destruct row; cbn; repeat split.
Qed.

Lemma other_key (k key : string) : k <> key -> String.eqb k key = false.
Proof. apply String.eqb_neq. Qed.

(** X21.  Logging in and out again.  A query answered with a row marks
    the session, stores the row's user name, which the header then
    greets, and leads to the dashboard, as does mounting the login page
    afterwards.  Logging out removes the three entries, leaves every
    other entry of the storage as it was before the login, leads to the
    login page, and mounting that page then leads nowhere. *)
Theorem login_then_logout (s : Login.State) (row : Login.Admin) :
  let loggedIn := st (exec (Login.handleSubmit (inr (ok row))) s) in
  let loggedOut := st (exec Login.logout loggedIn) in
  let session := ["isAuthenticated"; "adminId"; "adminUsername"] in
  (Login.localStorage loggedIn "isAuthenticated" = Some "true"
   /\ Login.localStorage loggedIn "adminUsername" = Some (Login.username row)
   /\ Login.location loggedIn = Some "/"
   /\ Login.location (st (exec (Login.onMount loggedIn) loggedIn)) = Some "/"
   /\ Login.welcomeName loggedIn
      = (if String.eqb (Login.username row) "" then "Admin"
         else Login.username row))
  /\ (forall k, ~ In k session ->
                Login.localStorage loggedIn k = Login.localStorage s k
                /\ Login.localStorage loggedOut k = Login.localStorage s k)
  /\ (forall k, In k session -> Login.localStorage loggedOut k = None)
  /\ Login.location loggedOut = Some "/login"
  /\ st (exec (Login.onMount loggedOut) loggedOut) = loggedOut
  /\ Login.welcomeName loggedOut = "Admin".
Proof.
  cbv zeta. split; [|split; [|split; [|repeat split]]].
  - cbn. repeat split.
  - intros k Hk.
    assert (H1 : k <> "isAuthenticated") by (intros ->; apply Hk; cbn; tauto).
    assert (H2 : k <> "adminId") by (intros ->; apply Hk; cbn; tauto).
    assert (H3 : k <> "adminUsername") by (intros ->; apply Hk; cbn; tauto).
    cbn -[String.eqb].
    now rewrite (other_key _ _ H1), (other_key _ _ H2), (other_key _ _ H3).
  - intros k [<- | [<- | [<- | []]]]; reflexivity.
Qed.

(** ** Editing a citizen: from the table through the form and back *)

Section EditRoundTrip.
Import Zod CitizenRegistry.

(** Every field of a form that passed the schema is the string typed;
    an optional field is that or absent. *)
Lemma schema_reads_strings (raw : RawForm) (data : CitizenFormValues) :
  citizenFormSchema raw = inr data ->
  let absent_or o := match o with Some s => Str s | None => Undefined end in
  raw = mkForm (Str (aadhar_number data)) (Str (village_id data))
               (Str (name data)) (Str (dob data)) (Str (age data))
               (Str (gender data)) (Str (address data))
               (Str (marital_status data)) (Str (father_name data))
               (Str (mother_name data)) (absent_or (spouse_name data))
               (Str (status data)) (Str (education data))
               (Str (occupation data)) (absent_or (remarks data)).
Proof.
  unfold citizenFormSchema. intros H.
  repeat match type of H with
         | ap _ _ = inr _ =>
             let g := fresh "g" in
             let x := fresh "x" in
             let Hg := fresh "Hg" in
             let Hx := fresh "Hx" in
             apply ap_inr in H as (g & x & H & Hx & Hg)
         end.
  injection H as <-. subst. cbn.
  repeat match goal with
         | Hx : string_ _ _ _ _ = inr _ |- _ =>
             apply string_inr in Hx as [? _]
         | Hx : enum _ _ _ = inr _ |- _ =>
             apply enum_inr in Hx as [? _]
         | Hx : optional _ _ _ = inr _ |- _ =>
             apply optional_inr in Hx
         end.
  destruct raw. cbn in *. subst.
  repeat match goal with
         | o : option string |- _ => destruct o; subst
         end.
  all: reflexivity.
Qed.

End EditRoundTrip.

(** X22.  Editing a citizen and saving without another change than
    retyping the age as it was gives the same citizen back: whenever
    that form passes the schema, the object sent to the store and put in
    the cache is the row that was edited.  The spouse name and the
    remarks must not be stored as empty strings, which the form itself
    never stores. *)
Theorem edit_retyped_age_roundtrip (c : Citizen.t)
        (data : CitizenRegistry.CitizenFormValues) :
  Citizen.spouse_name c <> Some "" ->
  Citizen.remarks c <> Some "" ->
  CitizenRegistry.citizenFormSchema
    (Dashboard.set_age (Str (number_toString (Citizen.age c)))
       (CitizenRegistry.defaultValues (Dashboard.citizenToEdit c)))
  = inr data ->
  CitizenRegistry.citizenData data = c.
Proof.
  intros Hsp Hrm Hok. apply schema_reads_strings in Hok.
  destruct (toString_parses_back (Citizen.village_id c)) as [Hv Hne].
  destruct (toString_parses_back (Citizen.age c)) as [Ha _].
  destruct c as [aadhar nm dob age gender address marital father mother
                   spouse education occupation village status remarks].
  destruct data as [a1 a2 a3 a4 a5 a6 a7 a8 a9 a10 sp a12 a13 a14 rm].
  cbn [Citizen.spouse_name Citizen.remarks Citizen.village_id Citizen.age]
    in *.
  assert (Hor : Dashboard.or_empty (number_toString village)
                = number_toString village).
  { unfold Dashboard.or_empty. cbn [truthy].
    destruct (String.eqb_spec (number_toString village) "") as [E|_];
      [contradiction|reflexivity]. }
  unfold Dashboard.set_age, CitizenRegistry.defaultValues,
    Dashboard.citizenToEdit in Hok.
  cbn -[number_toString Dashboard.or_empty] in Hok.
  rewrite Hor in Hok.
  injection Hok as E1 E2 E3 E4 E5 E6 E7 E8 E9 E10 Esp E12 E13 E14 Erm.
  subst a1 a2 a3 a4 a5 a6 a7 a8 a9 a10 a12 a13 a14.
  unfold CitizenRegistry.citizenData. cbn -[number_toString parseInt].
  rewrite Hv, Ha.
  destruct spouse as [s|], sp as [t|]; try discriminate Esp;
    destruct remarks as [r|], rm as [q|]; try discriminate Erm.
  injection Esp as ->. injection Erm as ->. cbn.
  destruct (String.eqb_spec t "") as [->|_]; [now contradiction Hsp|].
  destruct (String.eqb_spec q "") as [->|_]; [now contradiction Hrm|].
  reflexivity.
Qed.

(** A row as the form stores one. *)
Lemma edit_retyped_age_roundtrip_witness :
  let c :=
    Citizen.mk "567890123456" "Meena Kumari" "1988-11-02" (Num 35) "female"
      "House No. 12, Rampur" "married" "Hari Lal" "Savitri Devi"
      (Some "Raj Kumar") "Graduate" "Teacher" (Num 1) "alive"
      (Some "Moved in 2015.") in
  let data :=
    CitizenRegistry.mkForm "567890123456" "1" "Meena Kumari" "1988-11-02"
      "35" "female" "House No. 12, Rampur" "married" "Hari Lal"
      "Savitri Devi" (Some "Raj Kumar") "alive" "Graduate" "Teacher"
      (Some "Moved in 2015.") in
  Citizen.spouse_name c <> Some ""
  /\ Citizen.remarks c <> Some ""
  /\ CitizenRegistry.citizenFormSchema
       (Dashboard.set_age (Str (number_toString (Citizen.age c)))
          (CitizenRegistry.defaultValues (Dashboard.citizenToEdit c)))
     = inr data
  /\ CitizenRegistry.citizenData data = c.
Proof.
  intros c data.
  assert (H1 : Citizen.spouse_name c <> Some "") by (cbn; discriminate).
  assert (H2 : Citizen.remarks c <> Some "") by (cbn; discriminate).
  assert (H3 : CitizenRegistry.citizenFormSchema
                 (Dashboard.set_age (Str (number_toString (Citizen.age c)))
                    (CitizenRegistry.defaultValues
                       (Dashboard.citizenToEdit c)))
               = inr data) by (vm_compute; reflexivity).
  split; [exact H1|]. split; [exact H2|]. split; [exact H3|].
  exact (edit_retyped_age_roundtrip c data H1 H2 H3).
Defined.

(** X23.  A citizen whose spouse name or remarks are null in the store
    cannot be saved from the edit form while that field is left alone,
    whatever is typed for the age: the form holds the null, which the
    schema of an optional string refuses. *)
Theorem null_field_blocks_edit (c : Citizen.t) (typed_age : value) :
  Citizen.spouse_name c = None \/ Citizen.remarks c = None ->
  let raw :=
    Dashboard.set_age typed_age
      (CitizenRegistry.defaultValues (Dashboard.citizenToEdit c)) in
  CitizenRegistry.valid raw = false
  /\ (Citizen.spouse_name c = None ->
      In (Zod.mkIssue "spouse_name" Zod.invalid_type None)
         (Zod.issues (CitizenRegistry.citizenFormSchema raw)))
  /\ (Citizen.remarks c = None ->
      In (Zod.mkIssue "remarks" Zod.invalid_type None)
         (Zod.issues (CitizenRegistry.citizenFormSchema raw))).
Proof.
  intros Hnull raw. split; [|split].
  - rewrite valid_fields. subst raw.
    cbn [CitizenRegistry.defaultValues Dashboard.citizenToEdit
         Dashboard.set_age CitizenRegistry.spouse_name
         CitizenRegistry.remarks CitizenRegistry.or_default].
    destruct Hnull as [-> | ->]; cbn [Dashboard.nullable Zod.optional
                                      Zod.string_ Zod.passes];
      now rewrite ?andb_false_r.
  - intros E. unfold CitizenRegistry.citizenFormSchema.
    rewrite !issues_ap, !in_app_iff. do 4 left. right.
    subst raw. cbn. rewrite E. cbn. now left.
  - intros E. unfold CitizenRegistry.citizenFormSchema.
    rewrite !issues_ap, !in_app_iff. right.
    subst raw. cbn. rewrite E. cbn. now left.
Qed.

(** Amit has no spouse and no remarks on record. *)
Lemma null_field_blocks_edit_witness :
  (Citizen.spouse_name Sample.amit = None
   \/ Citizen.remarks Sample.amit = None)
  /\ CitizenRegistry.valid
       (Dashboard.set_age (Str "28")
          (CitizenRegistry.defaultValues
             (Dashboard.citizenToEdit Sample.amit))) = false.
Proof.
  assert (H : Citizen.spouse_name Sample.amit = None
              \/ Citizen.remarks Sample.amit = None)
    by (left; reflexivity).
  split; [exact H|].
  exact (proj1 (null_field_blocks_edit Sample.amit (Str "28") H)).
Defined.
